(** * usaon-benefit-tool: the survey data model and its project routes

    A shallow embedding of [usaon_benefit_tool/models/tables.py] (the
    SQLAlchemy declarative classes, kept as data so that every class below
    can be read next to its Python original) and of
    [usaon_benefit_tool/routes/project/__init__.py], together with the
    properties the specification states about them. *)

From stdpp Require Import base option list gmap strings fin_maps.
From Stdlib Require Import ZArith QArith Lia.

Open Scope string_scope.
Open Scope list_scope.
Open Scope Z_scope.

(** ** Values and rows *)

(** A Python/SQL value held by a column attribute.  SQL [NULL] (Python
    [None]) is the absence of the key in a row. *)
Inductive value :=
  | VInt (z : Z)
  | VStr (s : string)
  | VBool (b : bool)
  | VTime (t : Z).

#[global] Instance value_eq_dec : EqDecision value.
Proof. solve_decision. Defined.

(** A row (equally: the keyword arguments of a model constructor) maps
    column names to values; a database maps table names to their rows, in
    insertion order. *)
Abbreviation Row := (gmap string value).
Abbreviation Database := (gmap string (list (gmap string value))).

Definition table (db : Database) (t : string) : list Row :=
  default [] (db !! t).

(** ** Column and class declarations *)

Inductive coltype :=
  | Integer
  | SmallInteger
  | String_ (length : option nat)
  | Boolean
  | DateTime
  | Enum (enum_class : string).

(** The text of a [CheckConstraint], parsed: comparisons of a column with an
    integer literal, joined by [and]. *)
Inductive cmpop := OpGt | OpGe | OpLt | OpLe.

Inductive sqlexpr :=
  | SqlCmp (col : string) (op : cmpop) (lit : Z)
  | SqlAnd (a b : sqlexpr).

(** The [default=] argument of a column: a scalar, or one of the two
    callables the module uses. *)
Inductive coldefault :=
  | Scalar (v : value)
  | Callable_current_user_id     (* lambda: current_user.id *)
  | Callable_datetime_now.       (* datetime.now *)

(** The positional and keyword arguments of [Column(...)] after the type. *)
Inductive colarg :=
  | ForeignKey (target_table target_column : string)
  | CheckConstraint (sqltext : sqlexpr) (name : string)
  | primary_key (b : bool)
  | autoincrement (b : bool)
  | nullable (b : bool)
  | unique (b : bool)
  | index (b : bool)
  | default_ (d : coldefault).

Record Column := column {
  col_name : string;
  col_type : coltype;
  col_args : list colarg;
}.

Inductive tablearg :=
  | UniqueConstraint (cols : list string)
  | Index (name : string) (cols : list string) (is_unique : bool).

(** [relationship('Target', back_populates=..., cascade=...)]. *)
Record Relationship := relationship {
  rel_argument : string;
  rel_back_populates : option string;
  rel_cascade : option string;
}.

(** The entries of [__mapper_args__]. *)
Inductive mapperarg :=
  | polymorphic_identity (v : value)
  | polymorphic_on (col : string).

(** A mapped class.  [columns] are the class's own columns; those of its
    mixins are added by [all_columns].  [properties] maps the name of a
    [@property] to the attribute its body returns. *)
Record Model := {
  classname : string;
  bases : list string;
  tablename : string;
  table_args : list tablearg;
  mapper_args : list mapperarg;
  columns : list Column;
  relationships : list (string * Relationship);
  properties : list (string * string);
}.

(** *** Reading [__mapper_args__] *)

Definition discriminator (M : Model) : option string :=
  head (omap (λ a, match a with polymorphic_on c => Some c | _ => None end)
             (mapper_args M)).

Definition identity (M : Model) : option value :=
  head (omap (λ a, match a with polymorphic_identity v => Some v | _ => None end)
             (mapper_args M)).

(** *** Reading a column's arguments *)

Definition is_primary_key (c : Column) : bool :=
  existsb (λ a, match a with primary_key true => true | _ => false end) (col_args c).

Definition is_autoincrement (c : Column) : bool :=
  existsb (λ a, match a with autoincrement true => true | _ => false end) (col_args c).

Definition is_unique_column (c : Column) : bool :=
  existsb (λ a, match a with unique true => true | _ => false end) (col_args c).

(** SQLAlchemy: [nullable] defaults to [True], except for primary key
    columns. *)
Definition is_nullable (c : Column) : bool :=
  default (negb (is_primary_key c))
    (head (omap (λ a, match a with nullable b => Some b | _ => None end) (col_args c))).

Definition col_default (c : Column) : option coldefault :=
  head (omap (λ a, match a with default_ d => Some d | _ => None end) (col_args c)).

Definition col_checks (c : Column) : list sqlexpr :=
  omap (λ a, match a with CheckConstraint e _ => Some e | _ => None end) (col_args c).

Record FK := mkFK { fk_col : string; fk_table : string; fk_target : string }.

Definition col_foreign_keys (c : Column) : list FK :=
  omap (λ a, match a with
             | ForeignKey t tc => Some (mkFK (col_name c) t tc)
             | _ => None
             end) (col_args c).


(** ** The persistence layer

    What the database does with the declarations above: it type-checks the
    values of a row, fills defaults in, and enforces [NOT NULL], [CHECK],
    uniqueness (primary key, [unique=True], [UniqueConstraint], unique
    [Index]) and foreign keys.  A violation aborts the statement and leaves
    the database as it was.  Lengths of [String(n)] and the width of integer
    types are not enforced by every backend and are not modelled. *)

Inductive dberror :=
  | NoSuchModel
  | NoSuchRow
  | TypeError_             (* a keyword argument that names no column *)
  | AttributeError_        (* current_user has no id *)
  | DataError              (* a value that does not fit the column type *)
  | NotNullViolation
  | CheckViolation
  | UniqueViolation
  | ForeignKeyViolation.

Inductive result (A : Type) :=
  | Ok (a : A)
  | Err (e : dberror).
Arguments Ok {A} a.
Arguments Err {A} e.

#[global] Instance result_ret : MRet result := λ A a, Ok a.
#[global] Instance result_bind : MBind result := λ A B f m,
  match m with Ok a => f a | Err e => Err e end.
#[global] Instance result_fmap : FMap result := λ A B f m,
  match m with Ok a => Ok (f a) | Err e => Err e end.

Definition is_ok {A} (r : result A) : bool :=
  match r with Ok _ => true | Err _ => false end.

Definition require (P : Prop) `{Decision P} (e : dberror) : result unit :=
  if decide P then Ok () else Err e.

Definition or_raise {A} (e : dberror) (o : option A) : result A :=
  match o with Some a => Ok a | None => Err e end.

(** *** Row-level checks *)

Definition has_type (t : coltype) (v : value) : bool :=
  match t, v with
  | Integer, VInt _ | SmallInteger, VInt _ => true
  | String_ _, VStr _ | Enum _, VStr _ => true
  | Boolean, VBool _ => true
  | DateTime, VTime _ => true
  | _, _ => false
  end.

Definition eval_cmp (op : cmpop) (x y : Z) : bool :=
  match op with
  | OpGt => y <? x
  | OpGe => y <=? x
  | OpLt => x <? y
  | OpLe => x <=? y
  end.

(** SQL's three-valued logic: a comparison with [NULL] is unknown ([None]),
    and a [CHECK] is violated only when its text evaluates to false. *)
Fixpoint eval_sql (r : Row) (e : sqlexpr) : option bool :=
  match e with
  | SqlCmp c op n =>
      match r !! c with
      | Some (VInt z) => Some (eval_cmp op z n)
      | _ => None
      end
  | SqlAnd a b =>
      match eval_sql r a, eval_sql r b with
      | Some false, _ | _, Some false => Some false
      | Some true, Some true => Some true
      | _, _ => None
      end
  end.

Definition known_columns (M : Model) (r : Row) : Prop :=
  map_Forall (λ c _, c ∈ col_name <$> columns M) r.

Definition well_typed (M : Model) (r : Row) : Prop :=
  Forall (λ col, match r !! col_name col with
                 | Some v => has_type (col_type col) v
                 | None => true
                 end = true) (columns M).

Definition not_null (M : Model) (r : Row) : Prop :=
  Forall (λ col, is_nullable col = true ∨ is_Some (r !! col_name col)) (columns M).

Definition checks_hold (M : Model) (r : Row) : Prop :=
  Forall (λ col, Forall (λ e, eval_sql r e ≠ Some false) (col_checks col)) (columns M).

Definition row_ok (M : Model) (r : Row) : Prop :=
  known_columns M r ∧ well_typed M r ∧ not_null M r ∧ checks_hold M r.

(** *** Uniqueness *)

Definition primary_key_columns (M : Model) : list string :=
  col_name <$> filter (λ c, is_primary_key c = true) (columns M).

(** The column lists the table must be unique on. *)
Definition unique_keys (M : Model) : list (list string) :=
  (if decide (primary_key_columns M = []) then [] else [primary_key_columns M])
  ++ ((λ c, [col_name c]) <$> filter (λ c, is_unique_column c = true) (columns M))
  ++ omap (λ a, match a with
                | UniqueConstraint cols => Some cols
                | Index _ cols true => Some cols
                | Index _ _ false => None
                end) (table_args M).

(** The row's value on a key; [None] as soon as one of the columns is
    [NULL], in which case SQL lets the row coexist with any other. *)
Definition key_of (cols : list string) (r : Row) : option (list value) :=
  mapM (λ c, r !! c) cols.

Definition unique_ok (M : Model) (others : list Row) (r : Row) : Prop :=
  Forall (λ cols, key_of cols r = None
                  ∨ Forall (λ r', key_of cols r' ≠ key_of cols r) others)
         (unique_keys M).

(** *** Foreign keys *)

Definition foreign_keys (M : Model) : list FK :=
  columns M ≫= col_foreign_keys.

Definition fk_ok (db : Database) (M : Model) (r : Row) : Prop :=
  Forall (λ fk, r !! fk_col fk = None
                ∨ Exists (λ w, w !! fk_target fk = r !! fk_col fk)
                         (table db (fk_table fk)))
         (foreign_keys M).

(** *** Defaults *)

(** What filling a row in reads from outside the row: the logged-in user
    (none for an anonymous session, whose [current_user] has no [id]), the
    clock, given as its successive readings during the statement, and the
    identifier the backend hands out for an [autoincrement] column of a table
    with the given rows.  SQLite hands out one past the largest identifier in
    use; PostgreSQL hands out the next value of the table's sequence, which
    takes no notice of the identifiers callers supplied and may be one that
    is in use. *)
Record Env := {
  current_user_id : option Z;
  datetime_now : nat → Z;
  nextval : list Row → string → Z;
}.

(** Fill one column in; the [nat] counts the clock readings made so far. *)
Definition fill_default (env : Env) (rows : list Row)
    (acc : result (Row * nat)) (col : Column) : result (Row * nat) :=
  '(r, k) ← acc;
  match r !! col_name col with
  | Some _ => Ok (r, k)
  | None =>
      match col_default col with
      | Some (Scalar v) => Ok (<[col_name col := v]> r, k)
      | Some Callable_current_user_id =>
          u ← or_raise AttributeError_ (current_user_id env);
          Ok (<[col_name col := VInt u]> r, k)
      | Some Callable_datetime_now =>
          Ok (<[col_name col := VTime (datetime_now env k)]> r, S k)
      | None =>
          if is_autoincrement col
          then Ok (<[col_name col := VInt (nextval env rows (col_name col))]> r, k)
          else Ok (r, k)
      end
  end.

(** The constructor of a class that is [polymorphic_on] a column sets that
    column to the class's [polymorphic_identity] before it applies the
    keyword arguments, which may overwrite it. *)
Definition init_polymorphic (M : Model) (kwargs : Row) : Row :=
  match discriminator M, identity M with
  | Some c, Some v =>
      match kwargs !! c with
      | Some _ => kwargs
      | None => <[c := v]> kwargs
      end
  | _, _ => kwargs
  end.

Definition apply_defaults (env : Env) (M : Model) (rows : list Row)
    (kwargs : Row) : result Row :=
  fst <$> foldl (fill_default env rows) (Ok (init_polymorphic M kwargs, 0%nat))
                (columns M).

(** *** Statements *)

Inductive op :=
  | Insert (cls : string) (env : Env) (kwargs : Row)
  | Update (cls : string) (i : nat) (new : Row)
  | Delete (cls : string) (i : nat).

Section Engine.

(** The mapped classes known to the session. *)
Variable registry : list Model.

Definition find_model (cls : string) : option Model :=
  head (filter (λ M, classname M = cls) registry).

(** A row may change or disappear only if no foreign key anywhere still
    points at the values it gives up. *)
Definition release_ok (db : Database) (t : string) (old new : Row) : Prop :=
  Forall (λ M', Forall (λ fk,
      fk_table fk ≠ t
      ∨ new !! fk_target fk = old !! fk_target fk
      ∨ Forall (λ x, x !! fk_col fk = None ∨ x !! fk_col fk ≠ old !! fk_target fk)
               (table db (tablename M')))
    (foreign_keys M')) registry.

(** The checks a row goes through before the statement that writes it
    commits: [others] are the other rows of its table, [db'] the database
    as it would be after the statement. *)
Definition validate (M : Model) (others : list Row) (db' : Database)
    (r : Row) : result unit :=
  require (known_columns M r) TypeError_ ;;
  require (well_typed M r) DataError ;;
  require (not_null M r) NotNullViolation ;;
  require (checks_hold M r) CheckViolation ;;
  require (unique_ok M others r) UniqueViolation ;;
  require (fk_ok db' M r) ForeignKeyViolation.

Definition exec (o : op) (db : Database) : result Database :=
  match o with
  | Insert cls env kwargs =>
      M ← or_raise NoSuchModel (find_model cls);
      let rows := table db (tablename M) in
      require (known_columns M kwargs) TypeError_ ;;
      r ← apply_defaults env M rows kwargs;
      let db' := <[tablename M := rows ++ [r]]> db in
      validate M rows db' r ;;
      Ok db'
  | Update cls i new =>
      M ← or_raise NoSuchModel (find_model cls);
      let rows := table db (tablename M) in
      old ← or_raise NoSuchRow (rows !! i);
      let db' := <[tablename M := <[i := new]> rows]> db in
      validate M (delete i rows) db' new ;;
      require (release_ok db (tablename M) old new) ForeignKeyViolation ;;
      Ok db'
  | Delete cls i =>
      M ← or_raise NoSuchModel (find_model cls);
      let rows := table db (tablename M) in
      old ← or_raise NoSuchRow (rows !! i);
      require (release_ok db (tablename M) old ∅) ForeignKeyViolation ;;
      Ok (<[tablename M := delete i rows]> db)
  end.

(** Running a script of statements; the first failure stops it. *)
Fixpoint run (ops : list op) (db : Database) : result Database :=
  match ops with
  | [] => Ok db
  | o :: ops' => db' ← exec o db; run ops' db'
  end.

(** The states the database can be in: whatever a sequence of accepted
    statements builds from the empty database. *)
Inductive reachable : Database → Prop :=
  | reachable_empty : reachable ∅
  | reachable_step o db db' :
      reachable db → exec o db = Ok db' → reachable db'.

(** What the constraints promise of a state. *)
Definition consistent (db : Database) : Prop :=
  ∀ M, M ∈ registry →
    Forall (row_ok M) (table db (tablename M))
    ∧ Forall (λ cols, NoDup (omap (key_of cols) (table db (tablename M))))
             (unique_keys M)
    ∧ Forall (fk_ok db M) (table db (tablename M)).

End Engine.
(** ** The classes of [models/tables.py]

    [STATUSES] comes from [usaon_benefit_tool.constants.status], which is not
    part of the sources at hand.  The module evaluates [STATUSES[0]] while the
    [Survey] class body runs, so it only imports with a non-empty list: the
    list is given by its first element and the rest. *)

Section Tables.

Variable STATUS_0 : string.
Variable STATUSES_rest : list string.

Definition STATUSES : list string := STATUS_0 :: STATUSES_rest.

(** [ObservingSystemType] is imported from [usaon_benefit_tool._types],
    which is not at hand either; an [Enum] column stores a member under its
    name, and the members the module names are [other], [observational] and
    [research]. *)

(** [BaseModel = db.Model], [IORelationshipMixin] and
    [SurveyObjectFieldMixin] are referred to by name in [bases]. *)
Definition SurveyObjectFieldMixin : list Column := [
  column "short_name" (String_ (Some 256%nat)) [nullable false];
  column "full_name" (String_ (Some 256%nat)) [nullable true];
  column "organization" (String_ (Some 256%nat)) [nullable false];
  column "funder" (String_ (Some 256%nat)) [nullable false];
  column "funding_country" (String_ (Some 256%nat)) [nullable false];
  column "website" (String_ (Some 256%nat)) [nullable true];
  column "description" (String_ (Some 512%nat)) [nullable true];
  column "contact_name" (String_ (Some 256%nat)) [nullable false];
  column "contact_title" (String_ (Some 256%nat)) [nullable true];
  column "contact_email" (String_ (Some 256%nat)) [nullable false];
  column "tags" (String_ None) [nullable false];
  column "version" (String_ (Some 64%nat)) [nullable true]
].

Definition User : Model := {|
  classname := "User";
  bases := ["BaseModel"; "UserMixin"];
  tablename := "user";
  table_args := [];
  mapper_args := [];
  columns := [
    column "id" Integer [autoincrement true; primary_key true];
    column "email" (String_ None) [nullable false; unique true; index true];
    column "name" (String_ None) [nullable false];
    column "orcid" (String_ (Some 64%nat)) [nullable true];
    column "role_id" (String_ None)
      [ForeignKey "role" "id"; default_ (Scalar (VStr "analyst")); nullable false];
    column "biography" (String_ None) [nullable true];
    column "affiliation" (String_ None) [nullable true]
  ];
  relationships := [
    ("role", relationship "Role" None None);
    ("surveys", relationship "Survey" (Some "created_by") None)
  ];
  properties := [];
|}.

Definition Survey : Model := {|
  classname := "Survey";
  bases := ["BaseModel"];
  tablename := "survey";
  table_args := [];
  mapper_args := [];
  columns := [
    column "id" Integer [primary_key true; autoincrement true];
    column "title" (String_ (Some 128%nat)) [nullable false];
    column "status_id" (String_ None)
      [ForeignKey "status" "id"; default_ (Scalar (VStr STATUS_0)); nullable false];
    column "created_by_id" Integer
      [ForeignKey "user" "id"; default_ Callable_current_user_id; nullable false];
    column "created_timestamp" DateTime [nullable false; default_ Callable_datetime_now];
    column "updated_timestamp" DateTime [nullable false; default_ Callable_datetime_now];
    column "description" (String_ (Some 512%nat)) [nullable true];
    column "private" Boolean [nullable false; default_ (Scalar (VBool false))]
  ];
  relationships := [
    ("created_by", relationship "User" (Some "surveys") None);
    ("status", relationship "Status" None None);
    ("observing_systems", relationship "SurveyObservingSystem" (Some "survey") None);
    ("data_products", relationship "SurveyDataProduct" (Some "survey") None);
    ("applications", relationship "SurveyApplication" (Some "survey") None);
    ("societal_benefit_areas",
       relationship "SurveySocietalBenefitArea" (Some "survey") None)
  ];
  properties := [];
|}.

Definition SurveyObservingSystem : Model := {|
  classname := "SurveyObservingSystem";
  bases := ["BaseModel"; "IORelationshipMixin"; "SurveyObjectFieldMixin"];
  tablename := "survey_observing_system";
  table_args := [UniqueConstraint ["short_name"; "survey_id"]];
  mapper_args := [polymorphic_identity (VStr "other"); polymorphic_on "type"];
  columns := [
    column "id" Integer [primary_key true; autoincrement true];
    column "survey_id" Integer [ForeignKey "survey" "id"; nullable false];
    column "type" (Enum "ObservingSystemType") [nullable false]
  ] ++ SurveyObjectFieldMixin;
  relationships := [
    ("survey", relationship "Survey" (Some "observing_systems") None);
    ("output_relationships",
       relationship "SurveyObservingSystemDataProduct" (Some "observing_system")
         (Some "all, delete"))
  ];
  properties := [];
|}.

Definition SurveyObservingSystemObservational : Model := {|
  classname := "SurveyObservingSystemObservational";
  bases := ["BaseModel"];
  tablename := "survey_observing_system_observational";
  table_args := [];
  mapper_args := [polymorphic_identity (VStr "observational")];
  columns := [
    column "survey_observing_system_id" Integer
      [ForeignKey "survey_observing_system" "id"; primary_key true];
    column "platform" (String_ (Some 256%nat)) [nullable false];
    column "sensor" (String_ (Some 256%nat)) [nullable false]
  ];
  relationships := [];
  properties := [];
|}.

Definition SurveyObservingSystemResearch : Model := {|
  classname := "SurveyObservingSystemResearch";
  bases := ["BaseModel"];
  tablename := "survey_observing_system_research";
  table_args := [];
  mapper_args := [polymorphic_identity (VStr "research")];
  columns := [
    column "survey_observing_system_id" Integer
      [ForeignKey "survey_observing_system" "id"; primary_key true];
    column "intermediate_product" (String_ (Some 256%nat)) [nullable false]
  ];
  relationships := [];
  properties := [];
|}.

Definition SurveyDataProduct : Model := {|
  classname := "SurveyDataProduct";
  bases := ["BaseModel"; "IORelationshipMixin"; "SurveyObjectFieldMixin"];
  tablename := "survey_data_product";
  table_args := [UniqueConstraint ["short_name"; "survey_id"]];
  mapper_args := [];
  columns := [
    column "id" Integer [primary_key true; autoincrement true];
    column "survey_id" Integer [ForeignKey "survey" "id"; nullable false]
  ] ++ SurveyObjectFieldMixin;
  relationships := [
    ("survey", relationship "Survey" (Some "data_products") None);
    ("input_relationships",
       relationship "SurveyObservingSystemDataProduct" (Some "data_product")
         (Some "all, delete"));
    ("output_relationships",
       relationship "SurveyDataProductApplication" (Some "data_product")
         (Some "all, delete"))
  ];
  properties := [];
|}.

Definition SurveyApplication : Model := {|
  classname := "SurveyApplication";
  bases := ["BaseModel"; "IORelationshipMixin"; "SurveyObjectFieldMixin"];
  tablename := "survey_application";
  table_args := [UniqueConstraint ["short_name"; "survey_id"]];
  mapper_args := [];
  columns := [
    column "id" Integer [primary_key true; autoincrement true];
    column "survey_id" Integer [ForeignKey "survey" "id"; nullable false];
    column "performance_criteria" (String_ (Some 256%nat)) [];
    column "performance_rating" Integer
      [CheckConstraint
         (SqlAnd (SqlCmp "performance_rating" OpGt 0)
                 (SqlCmp "performance_rating" OpLt 101))
         "0-100";
       nullable false]
  ] ++ SurveyObjectFieldMixin;
  relationships := [
    ("survey", relationship "Survey" (Some "applications") None);
    ("input_relationships",
       relationship "SurveyDataProductApplication" (Some "application")
         (Some "all, delete"));
    ("output_relationships",
       relationship "SurveyApplicationSocietalBenefitArea" (Some "application")
         (Some "all, delete"))
  ];
  properties := [];
|}.

Definition SurveySocietalBenefitArea : Model := {|
  classname := "SurveySocietalBenefitArea";
  bases := ["BaseModel"; "IORelationshipMixin"];
  tablename := "survey_societal_benefit_area";
  table_args := [UniqueConstraint ["societal_benefit_area_id"; "survey_id"]];
  mapper_args := [];
  columns := [
    column "id" Integer [primary_key true; autoincrement true];
    column "survey_id" Integer [ForeignKey "survey" "id"; nullable false];
    column "societal_benefit_area_id" (String_ (Some 256%nat))
      [ForeignKey "societal_benefit_area" "id"; nullable false]
  ];
  relationships := [
    ("survey", relationship "Survey" (Some "societal_benefit_areas") None);
    ("societal_benefit_area", relationship "SocietalBenefitArea" None None);
    ("input_relationships",
       relationship "SurveyApplicationSocietalBenefitArea"
         (Some "societal_benefit_area") (Some "all, delete"))
  ];
  properties := [];
|}.

(** Association tables *)
Definition Status : Model := {|
  classname := "Status";
  bases := ["BaseModel"];
  tablename := "status";
  table_args := [];
  mapper_args := [];
  columns := [column "id" (String_ None) [primary_key true; nullable false]];
  relationships := [];
  properties := [];
|}.

Definition Role : Model := {|
  classname := "Role";
  bases := ["BaseModel"];
  tablename := "role";
  table_args := [];
  mapper_args := [];
  columns := [column "id" (String_ None) [primary_key true; nullable false]];
  relationships := [];
  properties := [];
|}.

Definition rating_0_100 (col : string) : sqlexpr :=
  SqlAnd (SqlCmp col OpGe 0) (SqlCmp col OpLe 100).

Definition SurveyObservingSystemDataProduct : Model := {|
  classname := "SurveyObservingSystemDataProduct";
  bases := ["BaseModel"];
  tablename := "survey_observing_system_data_product";
  table_args := [
    UniqueConstraint ["survey_observing_system_id"; "survey_data_product_id"];
    Index "idx_survey_observing_system_data_product"
      ["survey_observing_system_id"; "survey_data_product_id"] true
  ];
  mapper_args := [];
  columns := [
    column "id" Integer [autoincrement true; primary_key true];
    column "survey_observing_system_id" Integer
      [ForeignKey "survey_observing_system" "id"; index true];
    column "survey_data_product_id" Integer
      [ForeignKey "survey_data_product" "id"; index true];
    column "criticality_rating" SmallInteger
      [CheckConstraint (rating_0_100 "criticality_rating") "c0-100"; nullable false];
    column "performance_rating" SmallInteger
      [CheckConstraint (rating_0_100 "performance_rating") "0-100"; nullable false];
    column "rationale" (String_ (Some 512%nat)) [nullable true];
    column "needed_improvements" (String_ (Some 512%nat)) [nullable true]
  ];
  relationships := [
    ("observing_system",
       relationship "SurveyObservingSystem" (Some "output_relationships") None);
    ("data_product",
       relationship "SurveyDataProduct" (Some "input_relationships") None)
  ];
  properties := [("source", "observing_system"); ("target", "data_product")];
|}.

Definition SurveyDataProductApplication : Model := {|
  classname := "SurveyDataProductApplication";
  bases := ["BaseModel"];
  tablename := "survey_data_product_application";
  table_args := [
    UniqueConstraint ["survey_data_product_id"; "survey_application_id"];
    Index "idx_survey_data_product_application"
      ["survey_data_product_id"; "survey_application_id"] true
  ];
  mapper_args := [];
  columns := [
    column "id" Integer [autoincrement true; primary_key true];
    column "survey_data_product_id" Integer
      [ForeignKey "survey_data_product" "id"; index true];
    column "survey_application_id" Integer
      [ForeignKey "survey_application" "id"; index true];
    column "criticality_rating" SmallInteger
      [CheckConstraint (rating_0_100 "criticality_rating") "c0-100"; nullable false];
    column "performance_rating" SmallInteger
      [CheckConstraint (rating_0_100 "performance_rating") "0-100"; nullable false];
    column "rationale" (String_ (Some 512%nat)) [nullable true];
    column "needed_improvements" (String_ (Some 512%nat)) [nullable true]
  ];
  relationships := [
    ("data_product",
       relationship "SurveyDataProduct" (Some "output_relationships") None);
    ("application",
       relationship "SurveyApplication" (Some "input_relationships") None)
  ];
  properties := [("source", "data_product"); ("target", "application")];
|}.

Definition SurveyApplicationSocietalBenefitArea : Model := {|
  classname := "SurveyApplicationSocietalBenefitArea";
  bases := ["BaseModel"];
  tablename := "survey_application_societal_benefit_area";
  table_args := [
    UniqueConstraint ["survey_application_id"; "survey_societal_benefit_area_id"];
    Index "idx_{__tablename__}"
      ["survey_application_id"; "survey_societal_benefit_area_id"] true
  ];
  mapper_args := [];
  columns := [
    column "id" Integer [autoincrement true; primary_key true];
    column "survey_application_id" Integer
      [ForeignKey "survey_application" "id"; index true];
    column "survey_societal_benefit_area_id" Integer
      [ForeignKey "survey_societal_benefit_area" "id"; index true];
    column "performance_rating" SmallInteger
      [CheckConstraint (rating_0_100 "performance_rating") "0-100"; nullable false]
  ];
  relationships := [
    ("application",
       relationship "SurveyApplication" (Some "output_relationships") None);
    ("societal_benefit_area",
       relationship "SurveySocietalBenefitArea" (Some "input_relationships") None)
  ];
  properties := [("source", "application"); ("target", "societal_benefit_area")];
|}.

(** Reference tables *)
Definition SocietalBenefitArea : Model := {|
  classname := "SocietalBenefitArea";
  bases := ["BaseModel"];
  tablename := "societal_benefit_area";
  table_args := [];
  mapper_args := [];
  columns := [column "id" (String_ (Some 256%nat)) [primary_key true]];
  relationships := [
    ("societal_benefit_sub_areas",
       relationship "SocietalBenefitSubArea" (Some "societal_benefit_area") None)
  ];
  properties := [];
|}.

Definition SocietalBenefitSubArea : Model := {|
  classname := "SocietalBenefitSubArea";
  bases := ["BaseModel"];
  tablename := "societal_benefit_subarea";
  table_args := [];
  mapper_args := [];
  columns := [
    column "id" (String_ (Some 256%nat)) [primary_key true];
    column "societal_benefit_area_id" (String_ (Some 256%nat))
      [ForeignKey "societal_benefit_area" "id"; nullable false]
  ];
  relationships := [
    ("societal_benefit_area",
       relationship "SocietalBenefitArea" (Some "societal_benefit_sub_areas") None);
    ("societal_benefit_key_objectives",
       relationship "SocietalBenefitKeyObjective" (Some "societal_benefit_sub_area")
         None)
  ];
  properties := [];
|}.

Definition SocietalBenefitKeyObjective : Model := {|
  classname := "SocietalBenefitKeyObjective";
  bases := ["BaseModel"];
  tablename := "societal_benefit_key_objective";
  table_args := [];
  mapper_args := [];
  columns := [
    column "id" (String_ (Some 256%nat)) [primary_key true];
    column "societal_benefit_subarea_id" (String_ (Some 256%nat))
      [ForeignKey "societal_benefit_subarea" "id"; primary_key true]
  ];
  relationships := [
    ("societal_benefit_sub_area",
       relationship "SocietalBenefitSubArea" (Some "societal_benefit_key_objectives")
         None)
  ];
  properties := [];
|}.

(** Every mapped class of the module, in the order of their definition. *)
Definition models : list Model := [
  User; Survey;
  SurveyObservingSystem; SurveyObservingSystemObservational;
  SurveyObservingSystemResearch;
  SurveyDataProduct; SurveyApplication; SurveySocietalBenefitArea;
  Status; Role;
  SurveyObservingSystemDataProduct; SurveyDataProductApplication;
  SurveyApplicationSocietalBenefitArea;
  SocietalBenefitArea; SocietalBenefitSubArea; SocietalBenefitKeyObjective
].

(** [SurveyNode = SurveyObservingSystem | SurveyDataProduct | SurveyApplication
    | SurveySocietalBenefitArea]. *)
Definition SurveyNode : list Model :=
  [SurveyObservingSystem; SurveyDataProduct; SurveyApplication;
   SurveySocietalBenefitArea].

End Tables.
(** ** Python values and exceptions *)


Inductive pyexc :=
  | RuntimeError (msg : string)
  | AttributeError (msg : string)
  | NameError (msg : string)
  | ArgumentError (msg : string)
  | InvalidRequestError (msg : string)
  | AssertionError (msg : string)
  | DataError_ (msg : string).

(** The outcome of a Python call: a value, or a raised exception. *)
Inductive py (A : Type) :=
  | Return (a : A)
  | Raise (e : pyexc).
Arguments Return {A} a.
Arguments Raise {A} e.

#[global] Instance py_ret : MRet py := λ A a, Return a.
#[global] Instance py_bind : MBind py := λ A B f m,
  match m with Return a => f a | Raise e => Raise e end.


(** ** Attribute access on mapped objects *)

Definition assoc {A} (name : string) (l : list (string * A)) : option A :=
  snd <$> head (filter (λ p, p.1 = name) l).

(** What reading an attribute of a loaded object gives. *)
Inductive attr :=
  | Related (cls : string) (o : option Row)      (* many-to-one: the object, or None *)
  | Collection (cls : string) (l : list Row)     (* one-to-many: the objects, in order *)
  | Plain (v : option value).                    (* a column *)

Section Orm.

Variable registry : list Model.
Variable db : Database.

(** [M] is [T] or inherits from it, through at most [depth] steps of
    [bases]. *)
Fixpoint inherits (depth : nat) (M T : Model) : bool :=
  if decide (classname M = classname T) then true
  else match depth with
       | O => false
       | S depth' =>
           existsb (λ B, if decide (classname B ∈ bases M)
                         then inherits depth' B T else false)
                   registry
       end.

(** The mapper's [polymorphic_map]: the identities of the class and of the
    mapped classes that inherit from it. *)
Definition polymorphic_map (T : Model) : list value :=
  omap identity (filter (λ M, inherits (length registry) M T = true) registry).

(** Turning a row of the table of [T] into an object.  When [T] is
    [polymorphic_on] a column, the loader looks the row's value of that
    column up in the [polymorphic_map], and asserts that it is there. *)
Definition load_instance (T : Model) (w : Row) : py Row :=
  match discriminator T with
  | Some c =>
      match w !! c with
      | Some v =>
          if decide (v ∈ polymorphic_map T)
          then Return w
          else Raise (AssertionError "No such polymorphic_identity is defined")
      | None => Return w
      end
  | None => Return w
  end.

(** The objects of a query result, loaded one after the other. *)
Fixpoint load_instances (T : Model) (l : list Row) : py (list Row) :=
  match l with
  | [] => Return []
  | w :: l' => o ← load_instance T w; os ← load_instances T l'; Return (o :: os)
  end.

(** SQLAlchemy derives the join of a relationship from the foreign key
    between the two tables: the side that holds the key sees one object, the
    side the key points at sees a collection. *)
Definition load_relationship (M : Model) (self : Row) (rel : Relationship)
    : py attr :=
  match find_model registry (rel_argument rel) with
  | None => Raise (InvalidRequestError "expression failed to locate a name")
  | Some T =>
      match head (filter (λ fk, fk_table fk = tablename T) (foreign_keys M)) with
      | Some fk =>
          match self !! fk_col fk
                ≫= λ v, head (filter (λ w, w !! fk_target fk = Some v)
                                     (table db (tablename T))) with
          | Some w => o ← load_instance T w; Return (Related (classname T) (Some o))
          | None => Return (Related (classname T) None)
          end
      | None =>
          match head (filter (λ fk, fk_table fk = tablename M) (foreign_keys T)) with
          | Some fk =>
              l ← load_instances T
                     (filter (λ w, is_Some (self !! fk_target fk)
                                   ∧ w !! fk_col fk = self !! fk_target fk)
                             (table db (tablename T)));
              Return (Collection (classname T) l)
          | None =>
              Raise (ArgumentError "Could not determine join condition")
          end
      end
  end.

(** [getattr(self, name)] for a relationship or a column; a class that has
    no such attribute raises [AttributeError]. *)
Definition getattr_mapped (M : Model) (self : Row) (name : string) : py attr :=
  match assoc name (relationships M) with
  | Some rel => load_relationship M self rel
  | None =>
      if decide (name ∈ col_name <$> columns M)
      then Return (Plain (self !! name))
      else Raise (AttributeError name)
  end.

(** [getattr(self, name)], properties included: a property of this module
    returns another attribute of [self]. *)
Definition getattr (M : Model) (self : Row) (name : string) : py attr :=
  match assoc name (properties M) with
  | Some inner => getattr_mapped M self inner
  | None => getattr_mapped M self name
  end.

(** The object behind a many-to-one attribute, and the objects behind a
    one-to-many attribute, where reading the attribute returns them. *)
Definition related (M : Model) (self : Row) (name : string) : option Row :=
  match getattr M self name with
  | Return (Related _ o) => o
  | _ => None
  end.

Definition collection (M : Model) (self : Row) (name : string) : list Row :=
  match getattr M self name with
  | Return (Collection _ l) => l
  | _ => []
  end.

End Orm.

(** ** [IORelationshipMixin] *)

(** [IORelationship]: a dictionary with the optional keys ['input'] and
    ['output'], holding the related class (by its name). *)
Abbreviation IORelationship := (gmap string string).

Section IO.

Variable registry : list Model.

(** [rel.mapper.class_]: the class the relationship's argument names. *)
Definition mapper_class_ (rel : Relationship) : py string :=
  match find_model registry (rel_argument rel) with
  | Some T => Return (classname T)
  | None => Raise (InvalidRequestError "expression failed to locate a name")
  end.

Definition io_error_message : string :=
  "Please only use IORelationshipMixin on a model with input_relationships or output_relationships".

(** The body of [IORelationshipMixin.__io__]. *)
Definition __io__ (cls : Model) : py IORelationship :=
  let io : IORelationship := ∅ in
  io ← match assoc "input_relationships" (relationships cls) with
       | Some rel => c ← mapper_class_ rel; Return (<["input" := c]> io)
       | None => Return io
       end;
  io ← match assoc "output_relationships" (relationships cls) with
       | Some rel => c ← mapper_class_ rel; Return (<["output" := c]> io)
       | None => Return io
       end;
  if decide (io = ∅)
  then Raise (RuntimeError io_error_message)
  else Return io.

End IO.

(** *** When the check runs

    A Python program as far as this module is concerned: class statements,
    and calls of [cls.__io__()].  The mixin defines no [__init_subclass__]
    and no metaclass, so a class statement runs none of its code; the
    declarative base refuses a class without primary key and a table name
    used twice.  [__io__] is wrapped in [functools.cache], which stores
    results but not exceptions. *)

Record PyState := {
  classes : list Model;
  io_cache : gmap string (gmap string string);
}.

Definition initial_state : PyState := {| classes := []; io_cache := ∅ |}.

Inductive stmt :=
  | ClassDef (M : Model)
  | Call_io (cls : string).

Definition exec_stmt (s : stmt) (st : PyState)
    : py (option IORelationship) * PyState :=
  match s with
  | ClassDef M =>
      if decide (primary_key_columns M = [])
      then (Raise (ArgumentError "could not assemble any primary key columns"), st)
      else if decide (tablename M ∈ tablename <$> classes st)
      then (Raise (InvalidRequestError "table is already defined"), st)
      else (Return None, {| classes := classes st ++ [M]; io_cache := io_cache st |})
  | Call_io cls =>
      match find_model (classes st) cls with
      | None => (Raise (NameError cls), st)
      | Some M =>
          if decide ("IORelationshipMixin" ∈ bases M) then
            match io_cache st !! cls with
            | Some io => (Return (Some io), st)
            | None =>
                match __io__ (classes st) M with
                | Raise e => (Raise e, st)
                | Return io =>
                    (Return (Some io),
                     {| classes := classes st;
                        io_cache := <[cls := io]> (io_cache st) |})
                end
            end
          else (Raise (AttributeError "__io__"), st)
      end
  end.

(** Run statements one after the other, whatever each one raises (as an
    interactive session would), and collect what each gave. *)
Fixpoint exec_stmts (l : list stmt) (st : PyState)
    : list (py (option IORelationship)) * PyState :=
  match l with
  | [] => ([], st)
  | s :: l' =>
      let '(r, st') := exec_stmt s st in
      let '(rs, st'') := exec_stmts l' st' in
      (r :: rs, st'')
  end.

(** ** [util/full_sankey.py]

    The module is imported by the routes but is not among the sources at
    hand; what follows is written from the specification's section 4.2. *)

Module full_sankey.

(** A link of the diagram: the two nodes it joins and its weight. *)
Record Link := {
  link_from : option Row;
  link_to : option Row;
  link_weight : option Z;
}.

Definition performance_rating (r : Row) : option Z :=
  match r !! "performance_rating" with
  | Some (VInt z) => Some z
  | _ => None
  end.


Section Sankey.

Variable registry : list Model.
Variable db : Database.

(** The specification does not say what weighs an edge in a node's
    average; the weight is left open. *)
Variable average_weight : Row → Z.

(** The edges leaving a node, with the class they belong to. *)
Definition output_edges (M : Model) (node : Row) : list (Model * Row) :=
  match assoc "output_relationships" (relationships M)
          ≫= λ rel, find_model registry (rel_argument rel) with
  | Some E => (λ e, (E, e)) <$> collection registry db M node "output_relationships"
  | None => []
  end.

(** Modelled from the spec: the links leaving one node, missing with
    [util/full_sankey.py]: one per outgoing edge, from the edge's source to
    its target, weighted by the edge's own performance rating. *)
Definition node_links (M : Model) (node : Row) : list Link :=
  (λ '(E, e), {| link_from := related registry db E e "source";
                 link_to := related registry db E e "target";
                 link_weight := performance_rating e |})
  <$> output_edges M node.

(** The three stages that have outgoing edges: the collection of the survey
    that holds the stage's nodes, and their class. *)
Definition stages : list (string * string) := [
  ("observing_systems", "SurveyObservingSystem");
  ("data_products", "SurveyDataProduct");
  ("applications", "SurveyApplication")
].

(** Modelled from the spec: [sankey], missing with [util/full_sankey.py]:
    the links of a survey in stage order, then in insertion order within a
    stage. *)
Definition sankey (survey : Row) : list Link :=
  '(coll, cls) ← stages;
  match find_model registry "Survey", find_model registry cls with
  | Some SurveyCls, Some M =>
      collection registry db SurveyCls survey coll ≫= node_links M
  | _, _ => []
  end.


End Sankey.

End full_sankey.

(** ** [routes/project/__init__.py] *)

Module project.

(** What a request does that can be observed from outside the view. *)
Inductive event :=
  | Query (cls ident : string)
  | RenderTemplate (name : string).

Section Routes.

(** The module imports [Survey] from [models/tables.py]. *)
Variable STATUS_0 : string.
Variable db : Database.

(** [db.session.get(Survey, ident)] is the business of Flask-SQLAlchemy and
    of the database driver: it gives the survey stored under the identifier,
    or nothing, or it raises (the route hands the identifier over as text,
    and PostgreSQL refuses to compare the integer key with text that is no
    number). *)
Variable session_get : string → py (option Row).

(** [sankey] is imported from [util/full_sankey], which is not at hand: the
    routes are read with whatever it does to its argument. *)
Context {Link : Type}.
Variable sankey : attr → py (list Link).

Inductive ctxval :=
  | CProject (project : Row)
  | CResponse (r : attr)
  | CSeries (series : list Link).

Inductive http :=
  | NotFound                                   (* abort(404) *)
  | Unauthorized                               (* login_manager.unauthorized() *)
  | InternalServerError (e : pyexc)
  | Page (template : string) (context : list (string * ctxval)).

(** A view in progress: the events so far, and either the response that
    ended it early or a value to go on with. *)
Definition handler (A : Type) : Type := list event * (http + A).

Definition handler_bind {A B} (m : handler A) (f : A → handler B) : handler B :=
  match m with
  | (ev, inl resp) => (ev, inl resp)
  | (ev, inr a) => let '(ev', r) := f a in (ev ++ ev', r)
  end.

Notation "x ←ₕ m ; k" := (handler_bind m (λ x, k))
  (at level 20, m at level 100, k at level 200, only parsing).

Definition respond (m : handler http) : list event * http :=
  match m with
  | (ev, inl resp) => (ev, resp)
  | (ev, inr resp) => (ev, resp)
  end.

(** An uncaught exception becomes a 500. *)
Definition call {A} (m : py A) : handler A :=
  ([], match m with Return a => inr a | Raise e => inl (InternalServerError e) end).

(** Flask-SQLAlchemy: [session.get], and [abort(404)] when it finds
    nothing. *)
Definition get_or_404 (cls ident : string) : handler Row :=
  ([Query cls ident],
   match session_get ident with
   | Return (Some obj) => inr obj
   | Return None => inl NotFound
   | Raise e => inl (InternalServerError e)
   end).

Definition render_template (name : string) (context : list (string * ctxval))
    : handler http :=
  ([RenderTemplate name], inr (Page name context)).

(** [project.response]: an attribute of a [Survey] object. *)
Definition project_response (project : Row) : py attr :=
  getattr (models STATUS_0) db (Survey STATUS_0) project "response".

(** Python's truth value of what an attribute holds. *)
Definition truthy (a : attr) : bool :=
  match a with
  | Related _ o => bool_decide (is_Some o)
  | Collection _ l => bool_decide (l ≠ [])
  | Plain None => false
  | Plain (Some (VInt z)) => bool_decide (z ≠ 0)
  | Plain (Some (VStr s)) => bool_decide (s ≠ "")
  | Plain (Some (VBool b)) => b
  | Plain (Some (VTime _)) => true
  end.

(** [sankey(project.response) if project.response else []] *)
Definition guarded_sankey (project : Row) : py (list Link) :=
  cond ← project_response project;
  if truthy cond
  then r ← project_response project; sankey r
  else Return [].

Definition view_project (project_id : string) : handler http :=
  project ←ₕ get_or_404 "Survey" project_id;
  response ←ₕ call (project_response project);
  series ←ₕ call (r ← project_response project; sankey r);
  render_template "project/user_guide.html"
    [("project", CProject project);
     ("response", CResponse response);
     ("sankey_series", CSeries series)].

Definition view_project_overview (project_id : string) : handler http :=
  project ←ₕ get_or_404 "Survey" project_id;
  series ←ₕ call (guarded_sankey project);
  render_template "project/overview.html"
    [("project", CProject project); ("sankey_series", CSeries series)].

Definition edit_project (project_id : string) : handler http :=
  project ←ₕ get_or_404 "Survey" project_id;
  series ←ₕ call (guarded_sankey project);
  render_template "project/edit.html"
    [("project", CProject project); ("sankey_series", CSeries series)].

(** Flask-Login's decorator: an unauthenticated session is answered by the
    login manager and the view is not entered. *)
Record Request := { is_authenticated : bool }.

Definition login_required (view : string → handler http)
    (req : Request) (arg : string) : handler http :=
  if is_authenticated req then view arg else ([], inl Unauthorized).

(** The three routes of the blueprint, as registered. *)
Inductive route := RouteView | RouteOverview | RouteEdit.

Definition dispatch (rt : route) (req : Request) (project_id : string)
    : list event * http :=
  respond
    (match rt with
     | RouteView => login_required view_project req project_id
     | RouteOverview => login_required view_project_overview req project_id
     | RouteEdit => login_required edit_project req project_id
     end).

End Routes.

End project.

(** ** Vocabulary of the specification *)

#[global] Instance cmpop_eq_dec : EqDecision cmpop.
Proof. solve_decision. Defined.
#[global] Instance sqlexpr_eq_dec : EqDecision sqlexpr.
Proof. solve_decision. Defined.
#[global] Instance coltype_eq_dec : EqDecision coltype.
Proof. solve_decision. Defined.
#[global] Instance pyexc_eq_dec : EqDecision pyexc.
Proof. solve_decision. Defined.
#[global] Instance coldefault_eq_dec : EqDecision coldefault.
Proof. solve_decision. Defined.
#[global] Instance colarg_eq_dec : EqDecision colarg.
Proof. solve_decision. Defined.
#[global] Instance Column_eq_dec : EqDecision Column.
Proof. solve_decision. Defined.
#[global] Instance tablearg_eq_dec : EqDecision tablearg.
Proof. solve_decision. Defined.
#[global] Instance Relationship_eq_dec : EqDecision Relationship.
Proof. solve_decision. Defined.
#[global] Instance mapperarg_eq_dec : EqDecision mapperarg.
Proof. solve_decision. Defined.
#[global] Instance Model_eq_dec : EqDecision Model.
Proof. solve_decision. Defined.
#[global] Instance FK_eq_dec : EqDecision FK.
Proof. solve_decision. Defined.
#[global] Instance dberror_eq_dec : EqDecision dberror.
Proof. solve_decision. Defined.
#[global] Instance result_eq_dec {A} `{EqDecision A} : EqDecision (result A).
Proof. solve_decision. Defined.
#[global] Instance py_eq_dec {A} `{EqDecision A} : EqDecision (py A).
Proof. solve_decision. Defined.
#[global] Instance PyState_eq_dec : EqDecision PyState.
Proof. solve_decision. Defined.
#[global] Instance attr_eq_dec : EqDecision attr.
Proof. solve_decision. Defined.
#[global] Instance Link_eq_dec : EqDecision full_sankey.Link.
Proof. solve_decision. Defined.
#[global] Instance event_eq_dec : EqDecision project.event.
Proof. solve_decision. Defined.
#[global] Instance ctxval_eq_dec {Link} `{EqDecision Link} :
  EqDecision (@project.ctxval Link).
Proof. solve_decision. Defined.
#[global] Instance http_eq_dec {Link} `{EqDecision Link} :
  EqDecision (@project.http Link).
Proof. solve_decision. Defined.

(** The three edge variants, in pipeline order. *)
Definition edge_models : list Model :=
  [SurveyObservingSystemDataProduct; SurveyDataProductApplication;
   SurveyApplicationSocietalBenefitArea].

(** The foreign key behind an edge's [source] or [target]: the property
    returns a relationship, and the relationship joins on the key that points
    at the related class's table. *)
Definition endpoint_fk (registry : list Model) (E : Model) (name : string)
    : option FK :=
  inner ← assoc name (properties E);
  rel ← assoc inner (relationships E);
  T ← find_model registry (rel_argument rel);
  head (filter (λ fk, fk_table fk = tablename T) (foreign_keys E)).

(** The class an edge's [source] or [target] returns an instance of. *)
Definition endpoint_class (registry : list Model) (E : Model) (name : string)
    : option Model :=
  inner ← assoc name (properties E);
  rel ← assoc inner (relationships E);
  find_model registry (rel_argument rel).

(** A rating field is a column whose name ends in [_rating]. *)
Definition is_rating_column (col : Column) : Prop :=
  String.list_ascii_of_string "_rating"
    `suffix_of` String.list_ascii_of_string (col_name col).

(** The range the specification gives a rating field. *)
Definition in_rating_range (M : Model) (z : Z) : Prop :=
  if decide (classname M = "SurveyApplication") then 0 < z ≤ 100 else 0 ≤ z ≤ 100.

(** The check a rating column of [M] is expected to carry. *)
Definition rating_check (M : Model) (col : Column) : sqlexpr :=
  if decide (classname M = "SurveyApplication")
  then SqlAnd (SqlCmp (col_name col) OpGt 0) (SqlCmp (col_name col) OpLt 101)
  else rating_0_100 (col_name col).

(** The statement writes row [r] (as given by the caller) to the table of
    class [cls]. *)
Definition writes (o : op) (cls : string) (r : Row) : Prop :=
  match o with
  | Insert cls' _ kwargs => cls' = cls ∧ kwargs = r
  | Update cls' _ new => cls' = cls ∧ new = r
  | Delete _ _ => False
  end.

(** Two different rows of the class's table that belong to the same survey
    differ on [col]. *)
Definition unique_within_survey (db : Database) (M : Model) (col : string) : Prop :=
  ∀ i j a b,
    table db (tablename M) !! i = Some a →
    table db (tablename M) !! j = Some b →
    i ≠ j →
    a !! "survey_id" = b !! "survey_id" →
    a !! col ≠ b !! col.

(** The survey a node belongs to. *)
Definition survey_of (node : Row) : option value := node !! "survey_id".

(** The two ends of every edge belong to the same survey. *)
Definition endpoints_share_survey (registry : list Model) (db : Database) : Prop :=
  ∀ E e s t,
    E ∈ edge_models → e ∈ table db (tablename E) →
    related registry db E e "source" = Some s →
    related registry db E e "target" = Some t →
    survey_of s = survey_of t.

(** A node type that uses the mixin and declares neither relation. *)
Definition misconfigured (M : Model) : Prop :=
  "IORelationshipMixin" ∈ bases M
  ∧ assoc "input_relationships" (relationships M) = None
  ∧ assoc "output_relationships" (relationships M) = None.

Definition raises {A} (r : py A) : Prop := ∃ e, r = Raise e.

(** The class statement of [M], run in state [st], fails. *)
Definition fails_at_definition (M : Model) (st : PyState) : Prop :=
  raises (fst (exec_stmt (ClassDef M) st)).

(** The state of the interpreter once [models/tables.py] is imported. *)
Definition imported (STATUS_0 : string) : PyState :=
  snd (exec_stmts (ClassDef <$> models STATUS_0) initial_state).

(** A node type one could add to the module: mapped, with a primary key,
    using the mixin, but connected to nothing. *)
Definition Disconnected : Model := {|
  classname := "Disconnected";
  bases := ["BaseModel"; "IORelationshipMixin"];
  tablename := "disconnected";
  table_args := [];
  mapper_args := [];
  columns := [column "id" Integer [primary_key true; autoincrement true]];
  relationships := [];
  properties := [];
|}.

(** Edge [e] of variant [E] connects the node with identifier [s] to the
    node with identifier [t]. *)
Definition connects (registry : list Model) (E : Model) (e : Row)
    (s t : value) : Prop :=
  ∃ src tgt,
    endpoint_fk registry E "source" = Some src
    ∧ endpoint_fk registry E "target" = Some tgt
    ∧ e !! fk_col src = Some s ∧ e !! fk_col tgt = Some t.

(** The rows of table [t] whose column [c] holds the identifier of [self]. *)
Definition referring (db : Database) (t c : string) (self : Row) : list Row :=
  filter (λ w, is_Some (self !! "id") ∧ w !! c = self !! "id") (table db t).

(** The row of table [t] with identifier [v], if [v] is set. *)
Definition object_with_id (db : Database) (t : string) (v : option value)
    : option Row :=
  v ≫= λ v, head (filter (λ w, w !! "id" = Some v) (table db t)).



(** ** Example data *)

Definition row (l : list (string * value)) : Row := list_to_map l.

(** The identifier SQLite hands out: one past the largest in the table. *)
Definition next_id (rows : list Row) (c : string) : Z :=
  1 + foldr (λ r m, match r !! c with Some (VInt z) => Z.max z m | _ => m end) 0 rows.

Definition example_env : Env := {|
  current_user_id := Some 1;
  datetime_now := λ k, 1700000000 + Z.of_nat k;
  nextval := next_id;
|}.

(** The descriptive fields every node form asks for. *)
Definition described (short_name : string) : list (string * value) := [
  ("short_name", VStr short_name); ("organization", VStr "NSIDC");
  ("funder", VStr "NSF"); ("funding_country", VStr "US");
  ("contact_name", VStr "A. Analyst"); ("contact_email", VStr "analyst@example.org");
  ("tags", VStr "")
].

(** Reference data, one user and two surveys. *)
Definition setup_ops : list op := [
  Insert "Role" example_env (row [("id", VStr "analyst")]);
  Insert "Status" example_env (row [("id", VStr "draft")]);
  Insert "SocietalBenefitArea" example_env (row [("id", VStr "Health")]);
  Insert "SocietalBenefitArea" example_env (row [("id", VStr "Energy")]);
  Insert "User" example_env (row [("email", VStr "analyst@example.org");
                                  ("name", VStr "A. Analyst")]);
  Insert "Survey" example_env (row [("title", VStr "First")]);
  Insert "Survey" example_env (row [("title", VStr "Second")])
].

Definition run_or_empty (STATUS_0 : string) (ops : list op) : Database :=
  match run (models STATUS_0) ops ∅ with
  | Ok db => db
  | Err _ => ∅
  end.

Definition setup_db : Database := run_or_empty "draft" setup_ops.

(** An application rated 0, and an edge rated 101. *)
Definition application_rated (z : Z) : Row :=
  row ([("survey_id", VInt 1); ("performance_rating", VInt z)] ++ described "A").

Definition os_dp_edge_rated (criticality performance : Z) : Row :=
  row [("survey_observing_system_id", VInt 1); ("survey_data_product_id", VInt 1);
       ("criticality_rating", VInt criticality);
       ("performance_rating", VInt performance)].

(** Two societal benefit areas of the same survey. *)
Definition two_sba_ops : list op := setup_ops ++ [
  Insert "SurveySocietalBenefitArea" example_env
    (row [("survey_id", VInt 1); ("societal_benefit_area_id", VStr "Health")]);
  Insert "SurveySocietalBenefitArea" example_env
    (row [("survey_id", VInt 1); ("societal_benefit_area_id", VStr "Energy")])
].

Definition two_sba_db : Database := run_or_empty "draft" two_sba_ops.

(** An observing system of the first survey feeding a data product of the
    second. *)
Definition cross_survey_ops : list op := setup_ops ++ [
  Insert "SurveyObservingSystem" example_env
    (row ([("survey_id", VInt 1); ("type", VStr "other")] ++ described "O"));
  Insert "SurveyDataProduct" example_env
    (row ([("survey_id", VInt 2)] ++ described "D"));
  Insert "SurveyObservingSystemDataProduct" example_env (os_dp_edge_rated 50 80)
].

Definition cross_survey_db : Database := run_or_empty "draft" cross_survey_ops.

(** An observing system of type [research] of the first survey, feeding a
    data product. *)
Definition research_system : Row :=
  row ([("survey_id", VInt 1); ("type", VStr "research")] ++ described "R").

Definition research_ops : list op := setup_ops ++ [
  Insert "SurveyObservingSystem" example_env research_system;
  Insert "SurveyDataProduct" example_env
    (row ([("survey_id", VInt 1)] ++ described "D"));
  Insert "SurveyObservingSystemDataProduct" example_env (os_dp_edge_rated 50 80)
].

Definition research_db : Database := run_or_empty "draft" research_ops.

(** The rows the cross-survey script stores. *)
Definition stored_O : Row :=
  row ([("id", VInt 1); ("survey_id", VInt 1); ("type", VStr "other")]
       ++ described "O").

Definition stored_D : Row :=
  row ([("id", VInt 1); ("survey_id", VInt 2)] ++ described "D").

Definition stored_O_D : Row :=
  <["id" := VInt 1]> (os_dp_edge_rated 50 80).

(** The first survey of [setup_db]. *)
Definition example_survey : Row :=
  row [("id", VInt 1); ("title", VStr "First"); ("status_id", VStr "draft");
       ("created_by_id", VInt 1); ("created_timestamp", VTime 1700000000);
       ("updated_timestamp", VTime 1700000001); ("private", VBool false)].

(** Decimal digits, read as a number. *)
Fixpoint parse_digits (s : string) (acc : Z) : option Z :=
  match s with
  | EmptyString => Some acc
  | String a s' =>
      let n := Z.of_nat (Ascii.nat_of_ascii a) in
      if (48 <=? n) && (n <=? 57)
      then parse_digits s' (10 * acc + (n - 48))
      else None
  end.

(** [session.get(Survey, ident)] on [setup_db], as PostgreSQL answers it:
    text that is no number cannot be compared with the integer key. *)
Definition example_session_get (ident : string) : py (option Row) :=
  match (if decide (ident = "") then None else parse_digits ident 0) with
  | Some z =>
      Return (head (filter (λ r, r !! "id" = Some (VInt z)) (table setup_db "survey")))
  | None => Raise (DataError_ "invalid input syntax for type integer")
  end.

Definition example_dispatch (rt : project.route) (req : project.Request)
    (project_id : string) : list project.event * project.http :=
  project.dispatch "draft" setup_db example_session_get
    (Link := full_sankey.Link) (λ _, Return [])
    rt req project_id.








(** ** Vocabulary for the remaining declarations *)

(** The foreign keys that join the tables of two classes, in either
    direction. *)
Definition joining_keys (M T : Model) : list FK :=
  filter (λ fk, fk_table fk = tablename T) (foreign_keys M)
  ++ filter (λ fk, fk_table fk = tablename M) (foreign_keys T).

(** The strings of [relationship(...)] match: the argument names a mapped
    class, one foreign key joins the two tables, and [back_populates] names a
    relationship of that class which points back here under this name. *)
Definition relationship_resolves (registry : list Model) (M : Model)
    (name : string) (rel : Relationship) : bool :=
  match find_model registry (rel_argument rel) with
  | None => false
  | Some T =>
      bool_decide (length (joining_keys M T) = 1%nat)
      && match rel_back_populates rel with
         | None => true
         | Some b =>
             match assoc b (relationships T) with
             | Some rel' =>
                 bool_decide (rel_argument rel' = classname M
                              ∧ rel_back_populates rel' = Some name)
             | None => false
             end
         end
  end.

(** The strings of [ForeignKey(...)] match: the table exists and the column
    is its primary key. *)
Definition foreign_key_resolves (registry : list Model) (fk : FK) : bool :=
  bool_decide (Exists (λ T, tablename T = fk_table fk
                            ∧ primary_key_columns T = [fk_target fk]) registry).

(** The two sides of each edge variant: the edge class and its accessor,
    the node class and the collection that [back_populates] it. *)
Definition edge_sides : list (Model * string * Model * string) := [
  (SurveyObservingSystemDataProduct, "source",
   SurveyObservingSystem, "output_relationships");
  (SurveyObservingSystemDataProduct, "target",
   SurveyDataProduct, "input_relationships");
  (SurveyDataProductApplication, "source",
   SurveyDataProduct, "output_relationships");
  (SurveyDataProductApplication, "target",
   SurveyApplication, "input_relationships");
  (SurveyApplicationSocietalBenefitArea, "source",
   SurveyApplication, "output_relationships");
  (SurveyApplicationSocietalBenefitArea, "target",
   SurveySocietalBenefitArea, "input_relationships")
].

(** The column the constructor of [M] fills with the class's polymorphic
    identity. *)
Definition filled_by_constructor (M : Model) (col : Column) : Prop :=
  discriminator M = Some (col_name col) ∧ is_Some (identity M).

(** A column of [M] the caller has to supply: not nullable, without
    default, filled neither by the database nor by the constructor. *)
Definition required (M : Model) (col : Column) : Prop :=
  is_nullable col = false ∧ col_default col = None ∧ is_autoincrement col = false
  ∧ ¬ filled_by_constructor M col.

(** What the declaration of a column gives it when the row is inserted
    without it, [k] clock readings having been made before. *)
Definition default_value (env : Env) (rows : list Row) (col : Column) (k : nat)
    : option value :=
  match col_default col with
  | Some (Scalar v) => Some v
  | Some Callable_current_user_id => VInt <$> current_user_id env
  | Some Callable_datetime_now => Some (VTime (datetime_now env k))
  | None =>
      if is_autoincrement col
      then Some (VInt (nextval env rows (col_name col)))
      else None
  end.

(** What a column of [M] that the caller left out holds in the stored
    row: the polymorphic identity where the constructor sets it, and what the
    column's declaration gives otherwise. *)
Definition stored_default (env : Env) (M : Model) (rows : list Row)
    (col : Column) (k : nat) : option value :=
  if decide (filled_by_constructor M col) then identity M
  else default_value env rows col k.

(** An edge of class [E] that gives its ratings and nothing else: no source,
    no target.  ([criticality_rating] is left out where the class has no
    such column.) *)
Definition unattached_edge (E : Model) (criticality performance : Z) : Row :=
  list_to_map
    (filter (λ kv, kv.1 ∈ col_name <$> columns E)
       [("criticality_rating", VInt criticality);
        ("performance_rating", VInt performance)]).

(** A session nobody has logged in to. *)
Definition anonymous_env : Env := {|
  current_user_id := None;
  datetime_now := λ k, 1700000000 + Z.of_nat k;
  nextval := next_id;
|}.

(** ** Deleting through the session

    [session.delete(obj)] and the flush that follows.  The unit of work
    visits the relationships of the object's class: the members of a
    collection declared with a [delete] cascade are deleted with the object
    (and what cascades from them, in turn); the members of a collection
    without it are detached, their foreign key being set to [NULL]; the side
    that holds the foreign key is left alone.  The statements for the
    dependents are emitted before the DELETE of the object itself, and the
    first one the database refuses aborts the flush. *)

(** The options of a [cascade=] string: separated by commas, blanks
    ignored. *)
Fixpoint cascade_options (s cur : string) : list string :=
  match s with
  | EmptyString => [cur]
  | String a s' =>
      if decide (String a EmptyString = ",") then cur :: cascade_options s' EmptyString
      else if decide (String a EmptyString = " ") then cascade_options s' cur
      else cascade_options s' (cur +:+ String a EmptyString)
  end.

(** [all] stands for [save-update, merge, refresh-expire, expunge, delete]. *)
Definition cascades_delete (rel : Relationship) : bool :=
  match rel_cascade rel with
  | Some s =>
      bool_decide ("all" ∈ cascade_options s EmptyString
                   ∨ "delete" ∈ cascade_options s EmptyString)
  | None => false
  end.

(** Run [f] on each element in turn, threading the database; stop at the
    first failure.  [None] is a cascade cut short by the recursion bound. *)
Definition each {A} (f : A → Database → option (result Database)) (l : list A)
    (db : Database) : option (result Database) :=
  foldl (λ acc a, match acc with Some (Ok db) => f a db | _ => acc end)
        (Some (Ok db)) l.

Section Session.

Variable registry : list Model.

(** The session knows an object by its primary key. *)
Definition pk_index (M : Model) (rows : list Row) (obj : Row) : option nat :=
  fst <$> list_find (λ r, key_of (primary_key_columns M) r
                          = key_of (primary_key_columns M) obj) rows.

(** The collection side of a relationship: the class of the members and
    their foreign key to this class (as [load_relationship] finds them). *)
Definition one_to_many (M : Model) (rel : Relationship) : option (Model * FK) :=
  T ← find_model registry (rel_argument rel);
  match head (filter (λ fk, fk_table fk = tablename T) (foreign_keys M)) with
  | Some _ => None
  | None =>
      fk ← head (filter (λ fk, fk_table fk = tablename M) (foreign_keys T));
      Some (T, fk)
  end.

Definition members (db : Database) (T : Model) (fk : FK) (self : Row) : list Row :=
  filter (λ w, is_Some (self !! fk_target fk)
               ∧ w !! fk_col fk = self !! fk_target fk)
         (table db (tablename T)).

Definition delete_row (M : Model) (obj : Row) (db : Database) : result Database :=
  i ← or_raise NoSuchRow (pk_index M (table db (tablename M)) obj);
  exec registry (Delete (classname M) i) db.

Definition nullify (T : Model) (fk : FK) (child : Row) (db : Database)
    : result Database :=
  i ← or_raise NoSuchRow (pk_index T (table db (tablename T)) child);
  exec registry (Update (classname T) i (delete (fk_col fk) child)) db.

(** What the deletion of [obj] does along one relationship of its class;
    [del] deletes a member, cascading on. *)
Definition unit_of_work
    (del : Model → Row → Database → option (result Database))
    (M : Model) (obj : Row) (nr : string * Relationship) (db : Database)
    : option (result Database) :=
  match one_to_many M nr.2 with
  | None => Some (Ok db)
  | Some (T, fk) =>
      if cascades_delete nr.2
      then each (del T) (members db T fk obj) db
      else each (λ child db, Some (nullify T fk child db)) (members db T fk obj) db
  end.

(** [depth] bounds how far a cascade may reach from the object. *)
Fixpoint session_delete (depth : nat) (M : Model) (obj : Row) (db : Database)
    : option (result Database) :=
  match depth with
  | O => None
  | S depth' =>
      match each (unit_of_work (session_delete depth') M obj) (relationships M) db with
      | Some (Ok db') => Some (delete_row M obj db')
      | other => other
      end
  end.

End Session.

(** Nothing but edges refers to the object [obj] of class [N]. *)
Definition referred_only_by_edges (registry : list Model) (db : Database)
    (N : Model) (obj : Row) : Prop :=
  Forall (λ M, M ∈ edge_models
               ∨ Forall (λ fk, fk_table fk ≠ tablename N
                               ∨ Forall (λ x, x !! fk_col fk ≠ obj !! fk_target fk)
                                        (table db (tablename M)))
                        (foreign_keys M))
         registry.

(** Edge [e] of class [E] has the object [obj] of class [N] at one of its
    ends: one of its foreign keys to the table of [N] holds the key of
    [obj]. *)
Definition attached (E N : Model) (obj e : Row) : Prop :=
  Exists (λ fk, fk_table fk = tablename N
                ∧ is_Some (obj !! fk_target fk)
                ∧ e !! fk_col fk = obj !! fk_target fk)
         (foreign_keys E).

(** The members of the collection [rel] of class [M] are bound to their
    owner: the collection has no [delete] cascade, and the members' foreign
    key is [NOT NULL], so that they cannot be detached either. *)
Definition keeps_members (registry : list Model) (M : Model)
    (rel : Relationship) : bool :=
  match one_to_many registry M rel with
  | None => true
  | Some (T, fk) =>
      negb (cascades_delete rel)
      && bool_decide (Exists (λ col, col_name col = fk_col fk
                                     ∧ is_nullable col = false) (columns T))
  end.

(** * Properties *)

(** Decide a closed, decidable statement by running its decision
    procedure. *)
Ltac by_evaluation := apply (bool_decide_unpack _); vm_compute; exact I.

(** ** Lists, tables and keys *)

Lemma table_insert (db : Database) (t t' : string) (rows : list Row) :
  table (<[t := rows]> db) t' = if decide (t = t') then rows else table db t'.
Proof. unfold table. rewrite lookup_insert. by case_decide. Qed.

Lemma table_empty (t : string) : table ∅ t = [].
Proof. unfold table. by rewrite lookup_empty. Qed.

Lemma elem_of_delete_or {A} (l : list A) (i : nat) (x y : A) :
  l !! i = Some y → x ∈ l → x = y ∨ x ∈ delete i l.
Proof.
  intros Hi [j Hj]%list_elem_of_lookup.
  destruct (decide (j = i)) as [->|Hne]; [left; congruence|right].
  apply list_elem_of_lookup.
  destruct (decide (j < i)%nat).
  - exists j. by rewrite list_lookup_delete_lt.
  - exists (pred j). rewrite list_lookup_delete_ge by lia.
    by replace (S (pred j)) with j by lia.
Qed.

Lemma elem_of_insert_or {A} (l : list A) (i : nat) (x y : A) :
  x ∈ <[i := y]> l → x = y ∨ x ∈ delete i l.
Proof.
  intros [j Hj]%list_elem_of_lookup.
  destruct (decide (i = j)) as [->|Hne].
  - left. apply list_lookup_insert_Some in Hj as [(_ & ? & _)|[? _]]; done.
  - right. rewrite list_lookup_insert_ne in Hj by done.
    apply list_elem_of_lookup.
    destruct (decide (j < i)%nat).
    + exists j. by rewrite list_lookup_delete_lt.
    + exists (pred j). rewrite list_lookup_delete_ge by lia.
      by replace (S (pred j)) with j by lia.
Qed.

Lemma elem_of_delete_insert {A} (l : list A) (i : nat) (x y : A) :
  x ∈ delete i l → x ∈ <[i := y]> l.
Proof.
  intros [j Hj]%list_elem_of_lookup. apply list_elem_of_lookup.
  destruct (decide (j < i)%nat).
  - exists j. rewrite list_lookup_delete_lt in Hj by done.
    rewrite list_lookup_insert_ne by lia. done.
  - exists (S j). rewrite list_lookup_delete_ge in Hj by lia.
    rewrite list_lookup_insert_ne by lia. done.
Qed.

Lemma fmap_inj_on_NoDup {A B} (f : A → B) (l : list A) (x y : A) :
  NoDup (f <$> l) → x ∈ l → y ∈ l → f x = f y → x = y.
Proof.
  induction l as [|a l IH]; intros Hnd Hx Hy Hf; [by apply elem_of_nil in Hx|].
  rewrite fmap_cons in Hnd. apply NoDup_cons in Hnd as [Hnotin Hnd].
  apply elem_of_cons in Hx as [->|Hx]; apply elem_of_cons in Hy as [->|Hy];
    try done; try by apply IH.
  - exfalso. apply Hnotin. rewrite Hf. by apply list_elem_of_fmap_2.
  - exfalso. apply Hnotin. rewrite <- Hf. by apply list_elem_of_fmap_2.
Qed.

Section Keys.

Context {K : Type} (key : Row → option K).

Lemma sublist_omap (l k : list Row) :
  l `sublist_of` k → omap key l `sublist_of` omap key k.
Proof.
  induction 1 as [|x l k _ IH|x l k _ IH]; simpl.
  - constructor.
  - destruct (key x); [by constructor|done].
  - destruct (key x); [by constructor|done].
Qed.

Lemma NoDup_omap_snoc (rows : list Row) (r : Row) :
  NoDup (omap key rows) →
  key r = None ∨ Forall (λ r', key r' ≠ key r) rows →
  NoDup (omap key (rows ++ [r])).
Proof.
  intros Hnd Hr. rewrite omap_app. apply NoDup_app. split_and!; [done| |].
  - intros k Hk Hk'. simpl in Hk'. destruct (key r) as [k'|] eqn:E; simpl in Hk'.
    + apply list_elem_of_singleton in Hk' as ->.
      destruct Hr as [?|Hall]; [done|].
      apply list_elem_of_omap in Hk as (r' & Hr' & Hkr').
      rewrite Forall_forall in Hall. by apply (Hall r').
    + by apply elem_of_nil in Hk'.
  - simpl. destruct (key r); simpl; [apply NoDup_singleton|apply NoDup_nil_2].
Qed.

Lemma NoDup_omap_delete (rows : list Row) (i : nat) :
  NoDup (omap key rows) → NoDup (omap key (delete i rows)).
Proof.
  intros Hnd. eapply sublist_NoDup; [exact Hnd|].
  apply sublist_omap, sublist_delete.
Qed.

Lemma NoDup_omap_insert (rows : list Row) (i : nat) (r : Row) :
  NoDup (omap key rows) →
  key r = None ∨ Forall (λ r', key r' ≠ key r) (delete i rows) →
  NoDup (omap key (<[i := r]> rows)).
Proof.
  intros Hnd Hr.
  destruct (decide (i < length rows)%nat) as [Hi|Hi];
    [|by rewrite list_insert_ge by lia].
  rewrite insert_take_drop by done.
  assert (take i rows ++ r :: drop (S i) rows ≡ₚ r :: delete i rows) as ->.
  { rewrite delete_take_drop. symmetry. apply Permutation_middle. }
  pose proof (NoDup_omap_delete rows i Hnd) as Hnd'.
  simpl. destruct (key r) as [k|] eqn:E; simpl; [|done].
  apply NoDup_cons. split; [|done].
  intros (r' & Hr' & Hkr')%list_elem_of_omap.
  destruct Hr as [?|Hall]; [done|].
  rewrite Forall_forall in Hall. by apply (Hall r').
Qed.

(** Two rows at different places of a table that is unique on a key do not
    share a value of the key. *)
Lemma NoDup_omap_lookup (rows : list Row) (i j : nat) (a b : Row) (k : K) :
  NoDup (omap key rows) →
  rows !! i = Some a → rows !! j = Some b →
  key a = Some k → key b = Some k → i = j.
Proof.
  revert i j. induction rows as [|x rows IH]; intros i j Hnd Hi Hj Ha Hb;
    [done|].
  assert (NoDup (omap key rows)) as Hnd'.
  { simpl in Hnd. destruct (key x); [by apply NoDup_cons in Hnd as [_ ?]|done]. }
  destruct i as [|i], j as [|j]; simpl in *; simplify_eq; [done| | |f_equal; eauto].
  - rewrite Ha in Hnd. apply NoDup_cons in Hnd as [Hnotin _].
    exfalso. apply Hnotin, list_elem_of_omap. exists b.
    split; [by eapply list_elem_of_lookup_2|done].
  - rewrite Hb in Hnd. apply NoDup_cons in Hnd as [Hnotin _].
    exfalso. apply Hnotin, list_elem_of_omap. exists a.
    split; [by eapply list_elem_of_lookup_2|done].
Qed.

End Keys.

(** ** Accepted statements keep the database consistent *)

Lemma require_Ok (P : Prop) `{Decision P} (e : dberror) (u : unit) :
  require P e = Ok u → P.
Proof. unfold require. by case_decide. Qed.

Lemma require_Err (P : Prop) `{Decision P} (e : dberror) :
  ¬ P → require P e = Err e.
Proof. unfold require. by case_decide. Qed.

Lemma or_raise_Ok {A} (e : dberror) (o : option A) (a : A) :
  or_raise e o = Ok a → o = Some a.
Proof. destruct o; simpl; congruence. Qed.

Lemma bind_Ok {A B} (m : result A) (f : A → result B) (b : B) :
  m ≫= f = Ok b → ∃ a, m = Ok a ∧ f a = Ok b.
Proof. destruct m; simpl; [eauto|done]. Qed.

Ltac inv_result :=
  repeat match goal with
  | H : _ ≫= _ = Ok _ |- _ =>
      let a := fresh "a" in let Ha := fresh "Ha" in
      apply bind_Ok in H as (a & Ha & H)
  | H : require _ _ = Ok _ |- _ => apply require_Ok in H
  | H : or_raise _ _ = Ok _ |- _ => apply or_raise_Ok in H
  | H : Ok _ = Ok _ |- _ => injection H as H
  end.

Lemma fk_ok_transfer (db db' : Database) (M : Model) (r : Row) :
  (∀ fk w, fk ∈ foreign_keys M → w ∈ table db (fk_table fk) →
     is_Some (r !! fk_col fk) → w !! fk_target fk = r !! fk_col fk →
     ∃ w', w' ∈ table db' (fk_table fk) ∧ w' !! fk_target fk = r !! fk_col fk) →
  fk_ok db M r → fk_ok db' M r.
Proof.
  unfold fk_ok. rewrite !Forall_forall. intros Hkeep Hok fk Hfk.
  destruct (Hok fk Hfk) as [Hnull|Hex]; [by left|].
  destruct (r !! fk_col fk) as [v|] eqn:Hv; [right|by left].
  apply Exists_exists in Hex as (w & Hw & Hwv).
  apply Exists_exists. rewrite <- Hv. apply (Hkeep fk w); rewrite ?Hv; eauto.
Qed.

Section EngineFacts.

Variable registry : list Model.

(** No two classes of the registry share a table. *)
Hypothesis registry_wf : NoDup (tablename <$> registry).

Lemma find_model_Some (cls : string) (M : Model) :
  find_model registry cls = Some M → M ∈ registry ∧ classname M = cls.
Proof.
  unfold find_model. intros H%head_Some_elem_of.
  apply list_elem_of_filter in H. tauto.
Qed.

Lemma same_table (M M' : Model) :
  M ∈ registry → M' ∈ registry → tablename M = tablename M' → M = M'.
Proof. intros. by eapply (fmap_inj_on_NoDup tablename registry). Qed.

Lemma validate_Ok (M : Model) (others : list Row) (db' : Database) (r : Row)
    (u : unit) :
  validate M others db' r = Ok u →
  row_ok M r ∧ unique_ok M others r ∧ fk_ok db' M r.
Proof. unfold validate, row_ok. intros H. inv_result. tauto. Qed.

Lemma consistent_empty : consistent registry ∅.
Proof.
  intros M _. rewrite table_empty. split_and!; [constructor| |constructor].
  apply Forall_forall. intros cols _. simpl. apply NoDup_nil_2.
Qed.

(** The rows of a table are replaced by [rows'], which pass the row-level
    and uniqueness checks; foreign keys are dealt with by the caller. *)
Lemma consistent_rows (db : Database) (M0 : Model) (rows' : list Row) :
  consistent registry db → M0 ∈ registry →
  Forall (row_ok M0) rows' →
  Forall (λ cols, NoDup (omap (key_of cols) rows')) (unique_keys M0) →
  (∀ M, M ∈ registry →
     Forall (fk_ok (<[tablename M0 := rows']> db) M)
            (table (<[tablename M0 := rows']> db) (tablename M))) →
  consistent registry (<[tablename M0 := rows']> db).
Proof.
  intros Hc HM0 Hrows Huniq Hfk M HM.
  destruct (Hc M HM) as (Hc1 & Hc2 & _).
  split_and!; [| |by apply Hfk]; rewrite table_insert; case_decide as Ht; try done.
  - by rewrite (same_table M M0) by done.
  - by rewrite (same_table M M0) by done.
Qed.

Lemma exec_consistent (o : op) (db db' : Database) :
  consistent registry db → exec registry o db = Ok db' → consistent registry db'.
Proof.
  intros Hc Hexec. destruct o as [cls env kwargs|cls i new|cls i]; simpl in Hexec.
  - (* Insert *)
    inv_result. rename a into M0, a1 into r.
    apply find_model_Some in Ha as [HM0 _].
    apply validate_Ok in Ha2 as (Hrow & Huniq & Hfk). subst db'.
    destruct (Hc M0 HM0) as (Hc1 & Hc2 & _).
    apply consistent_rows; try done.
    + apply Forall_app. split; [done|by constructor].
    + unfold unique_ok in Huniq.
      rewrite Forall_forall in Hc2, Huniq |- *. intros cols Hcols.
      apply NoDup_omap_snoc; [by apply Hc2|].
      destruct (Huniq cols Hcols) as [?|?]; [by left|by right].
    + intros M HM. apply Forall_forall. intros x Hx.
      assert (∀ t w, w ∈ table db t →
                w ∈ table (<[tablename M0 := table db (tablename M0) ++ [r]]> db) t)
        as Hgrow.
      { intros t w Hw. rewrite table_insert. case_decide as Ht; [|done].
        subst t. apply elem_of_app. by left. }
      rewrite table_insert in Hx. case_decide as Ht.
      * apply elem_of_app in Hx as [Hx|Hx%list_elem_of_singleton].
        -- destruct (Hc M HM) as (_ & _ & Hc3). rewrite Forall_forall in Hc3.
           rewrite Ht in Hx.
           eapply fk_ok_transfer; [|by apply Hc3]. eauto.
        -- subst x. by rewrite (same_table M M0) by done.
      * destruct (Hc M HM) as (_ & _ & Hc3). rewrite Forall_forall in Hc3.
        eapply fk_ok_transfer; [|by apply Hc3]. eauto.
  - (* Update *)
    inv_result. rename a into M0, a0 into old, Ha2 into Hrel.
    apply find_model_Some in Ha as [HM0 _].
    apply validate_Ok in Ha1 as (Hrow & Huniq & Hfk). subst db'.
    destruct (Hc M0 HM0) as (Hc1 & Hc2 & _).
    apply consistent_rows; try done.
    + by apply Forall_insert.
    + unfold unique_ok in Huniq.
      rewrite Forall_forall in Hc2, Huniq |- *. intros cols Hcols.
      apply NoDup_omap_insert; [by apply Hc2|].
      destruct (Huniq cols Hcols) as [?|?]; [by left|by right].
    + intros M HM. apply Forall_forall. intros x Hx.
      set (rows := table db (tablename M0)) in *.
      assert (x = new ∧ M = M0 ∨ x ∈ table db (tablename M)) as [[-> ->]|Hx'].
      { rewrite table_insert in Hx. case_decide as Ht; [|by right].
        apply elem_of_insert_or in Hx as [->|Hx].
        - left. split; [done|]. by apply same_table.
        - right. rewrite <- Ht. by eapply list_elem_of_delete_inv. }
      { done. }
      destruct (Hc M HM) as (_ & _ & Hc3). rewrite Forall_forall in Hc3.
      eapply fk_ok_transfer; [|by apply Hc3].
      intros fk w Hfkin Hw [v Hv] Hwv. rewrite table_insert. case_decide as Ht; [|eauto].
      rewrite <- Ht in Hw. fold rows in Hw.
      destruct (elem_of_delete_or rows i w old Ha0 Hw) as [->|Hw'].
      * unfold release_ok in Hrel. rewrite Forall_forall in Hrel.
        specialize (Hrel M HM). rewrite Forall_forall in Hrel.
        destruct (Hrel fk Hfkin) as [?|[Hsame|Hnone]]; [done| |].
        -- exists new. split; [|congruence].
           apply list_elem_of_lookup. exists i.
           apply list_lookup_insert_eq. by eapply lookup_lt_Some.
        -- rewrite Forall_forall in Hnone.
           destruct (Hnone x Hx') as [?|?]; congruence.
      * exists w. split; [by apply elem_of_delete_insert|done].
  - (* Delete *)
    inv_result. rename a into M0, a0 into old, Ha1 into Hrel.
    apply find_model_Some in Ha as [HM0 _]. subst db'.
    destruct (Hc M0 HM0) as (Hc1 & Hc2 & _).
    apply consistent_rows; try done.
    + by apply Forall_delete.
    + rewrite Forall_forall in Hc2 |- *. intros cols Hcols.
      by apply NoDup_omap_delete, Hc2.
    + intros M HM. apply Forall_forall. intros x Hx.
      set (rows := table db (tablename M0)) in *.
      assert (x ∈ table db (tablename M)) as Hx'.
      { rewrite table_insert in Hx. case_decide as Ht; [|done].
        rewrite <- Ht. by eapply list_elem_of_delete_inv. }
      destruct (Hc M HM) as (_ & _ & Hc3). rewrite Forall_forall in Hc3.
      eapply fk_ok_transfer; [|by apply Hc3].
      intros fk w Hfkin Hw [v Hv] Hwv. rewrite table_insert. case_decide as Ht; [|eauto].
      rewrite <- Ht in Hw. fold rows in Hw.
      destruct (elem_of_delete_or rows i w old Ha0 Hw) as [->|Hw']; [|eauto].
      unfold release_ok in Hrel. rewrite Forall_forall in Hrel.
      specialize (Hrel M HM). rewrite Forall_forall in Hrel.
      destruct (Hrel fk Hfkin) as [?|[Hsame|Hnone]]; [done| |].
      * rewrite lookup_empty in Hsame. congruence.
      * rewrite Forall_forall in Hnone.
        destruct (Hnone x Hx') as [?|?]; congruence.
Qed.

Lemma reachable_consistent (db : Database) :
  reachable registry db → consistent registry db.
Proof.
  induction 1; [apply consistent_empty|by eapply exec_consistent].
Qed.

Lemma run_reachable (ops : list op) (db db' : Database) :
  reachable registry db → run registry ops db = Ok db' → reachable registry db'.
Proof.
  revert db. induction ops as [|o ops IH]; intros db Hr Hrun; simpl in Hrun.
  - by injection Hrun as <-.
  - apply bind_Ok in Hrun as (db1 & Hstep & Hrun).
    eapply IH; [|done]. by eapply reachable_step.
Qed.

End EngineFacts.

Lemma run_or_empty_reachable (STATUS_0 : string) (ops : list op) :
  is_ok (run (models STATUS_0) ops ∅) = true →
  reachable (models STATUS_0) (run_or_empty STATUS_0 ops).
Proof.
  intros Hok. apply (run_reachable (models STATUS_0) ops ∅); [constructor|].
  unfold run_or_empty. by destruct (run _ _ _).
Qed.

(** ** What an accepted statement writes *)

Lemma fill_default_keeps (env : Env) (rows : list Row) (col : Column)
    (r r' : Row) (k k' : nat) (c : string) (v : value) :
  fill_default env rows (Ok (r, k)) col = Ok (r', k') →
  r !! c = Some v → r' !! c = Some v.
Proof.
  unfold fill_default. simpl. intros H Hc.
  destruct (r !! col_name col) as [w|] eqn:Hw; [by simplify_eq|].
  assert (col_name col ≠ c) as Hne by congruence.
  destruct (col_default col) as [[w| |]|]; simpl in H.
  - simplify_eq. by rewrite lookup_insert_ne.
  - destruct (current_user_id env); simpl in H; simplify_eq.
    by rewrite lookup_insert_ne.
  - simplify_eq. by rewrite lookup_insert_ne.
  - destruct (is_autoincrement col); simplify_eq; [by rewrite lookup_insert_ne|done].
Qed.

Lemma foldl_fill_default_Err (env : Env) (rows : list Row) (cols : list Column)
    (e : dberror) :
  foldl (fill_default env rows) (Err e) cols = Err e.
Proof. induction cols as [|col cols IH]; [done|]. cbn [foldl]. apply IH. Qed.

Lemma foldl_fill_default_keeps (env : Env) (rows : list Row) (cols : list Column)
    (r r' : Row) (k k' : nat) (c : string) (v : value) :
  foldl (fill_default env rows) (Ok (r, k)) cols = Ok (r', k') →
  r !! c = Some v → r' !! c = Some v.
Proof.
  revert r k. induction cols as [|col cols IH]; intros r k H Hc; cbn [foldl] in H.
  - by simplify_eq.
  - destruct (fill_default env rows (Ok (r, k)) col) as [[r1 k1]|e] eqn:Hstep.
    + eapply IH; [done|]. by eapply fill_default_keeps.
    + by rewrite foldl_fill_default_Err in H.
Qed.

Lemma init_polymorphic_keeps (M : Model) (kwargs : Row) (c : string) (v : value) :
  kwargs !! c = Some v → init_polymorphic M kwargs !! c = Some v.
Proof.
  intros Hc. unfold init_polymorphic.
  destruct (discriminator M) as [d|]; [|done].
  destruct (identity M) as [w|]; [|done].
  destruct (kwargs !! d) eqn:Hd; [done|].
  rewrite lookup_insert_ne; [done|]. intros ->. congruence.
Qed.

Lemma init_polymorphic_lookup (M : Model) (kwargs : Row) (c : string) :
  init_polymorphic M kwargs !! c
  = match kwargs !! c with
    | Some v => Some v
    | None => if decide (discriminator M = Some c) then identity M else None
    end.
Proof.
  unfold init_polymorphic.
  destruct (discriminator M) as [d|] eqn:Hd.
  - destruct (identity M) as [w|] eqn:Hw.
    + destruct (kwargs !! d) as [x|] eqn:Hx.
      * destruct (kwargs !! c) eqn:Hc; [done|].
        case_decide; [|done]. simplify_eq.
      * destruct (decide (d = c)) as [->|Hne].
        -- rewrite lookup_insert_eq, Hx. by rewrite decide_True.
        -- rewrite lookup_insert_ne by done.
           destruct (kwargs !! c); [done|]. rewrite decide_False; [done|].
           intros [= ?]. done.
    + destruct (kwargs !! c); [done|]. by case_decide.
  - destruct (kwargs !! c); [done|]. by rewrite decide_False.
Qed.

(** Defaults only fill gaps: what the caller supplied is what is written. *)
Lemma apply_defaults_keeps (env : Env) (M : Model) (rows : list Row)
    (kwargs r : Row) (c : string) (v : value) :
  apply_defaults env M rows kwargs = Ok r →
  kwargs !! c = Some v → r !! c = Some v.
Proof.
  unfold apply_defaults. intros H Hc.
  destruct (foldl _ _ _) as [[r' k']|e] eqn:Hfold; simpl in H; [|done].
  simplify_eq. eapply foldl_fill_default_keeps; [done|].
  by apply init_polymorphic_keeps.
Qed.

Lemma row_ok_column (M : Model) (col : Column) (r : Row) :
  row_ok M r → col ∈ columns M →
  match r !! col_name col with
  | Some v => has_type (col_type col) v = true
  | None => is_nullable col = true
  end
  ∧ Forall (λ e, eval_sql r e ≠ Some false) (col_checks col).
Proof.
  intros (_ & Hty & Hnn & Hck) Hcol.
  unfold well_typed, not_null, checks_hold in *.
  rewrite Forall_forall in Hty, Hnn, Hck.
  specialize (Hty col Hcol). specialize (Hnn col Hcol). split; [|by apply Hck].
  destruct (r !! col_name col); [done|].
  destruct Hnn as [?|[? ?]]; done.
Qed.

Lemma row_ok_unknown_column (M : Model) (r : Row) (c : string) :
  row_ok M r → c ∉ col_name <$> columns M → r !! c = None.
Proof.
  intros (Hknown & _) Hc. unfold known_columns in Hknown.
  destruct (r !! c) as [v|] eqn:Hv; [|done].
  exfalso. apply Hc. by apply (Hknown c v).
Qed.

Section ModelFacts.

Variable registry : list Model.
Hypothesis classnames_distinct : NoDup (classname <$> registry).

Lemma find_model_elem (M : Model) :
  M ∈ registry → find_model registry (classname M) = Some M.
Proof.
  intros HM. unfold find_model.
  destruct (filter _ registry) as [|M' k] eqn:Hf.
  - exfalso. by eapply (filter_nil_not_elem_of _ registry M).
  - simpl. f_equal.
    assert (M' ∈ filter (λ M0, classname M0 = classname M) registry) as HM'
      by (rewrite Hf; left).
    apply list_elem_of_filter in HM' as [Heq HM'].
    by eapply (fmap_inj_on_NoDup classname registry).
Qed.

(** An accepted statement that writes a row to [M]'s table stored a row
    that passes [M]'s row-level checks and agrees with what the caller
    gave. *)
Lemma exec_writes_row_ok (o : op) (db db' : Database) (M : Model) (r : Row) :
  M ∈ registry → writes o (classname M) r → exec registry o db = Ok db' →
  ∃ r', row_ok M r' ∧ ∀ c v, r !! c = Some v → r' !! c = Some v.
Proof.
  intros HM Hw Hexec. destruct o as [cls env kwargs|cls i new|cls i];
    simpl in Hw; [| |done]; destruct Hw as [-> ->]; simpl in Hexec;
    rewrite find_model_elem in Hexec by done; simpl in Hexec.
  - inv_result. unfold validate in Ha1. inv_result.
    exists a0. split; [by unfold row_ok|].
    intros c v Hc. by eapply apply_defaults_keeps.
  - inv_result. unfold validate in Ha0. inv_result.
    exists r. split; [by unfold row_ok|done].
Qed.

End ModelFacts.

Lemma head_filter_Exists {A} (P : A → Prop) `{∀ x, Decision (P x)} (l : list A) :
  Exists P l → ∃ x, head (filter P l) = Some x ∧ P x ∧ x ∈ l.
Proof.
  intros (y & Hy & HPy)%Exists_exists.
  destruct (filter P l) as [|x k] eqn:Hf.
  - exfalso. by eapply (filter_nil_not_elem_of P l y).
  - exists x. assert (x ∈ filter P l) as Hx by (rewrite Hf; left).
    apply list_elem_of_filter in Hx as [? ?]. done.
Qed.

Lemma key_of_pair (c1 c2 : string) (r : Row) (v1 v2 : value) :
  r !! c1 = Some v1 → r !! c2 = Some v2 → key_of [c1; c2] r = Some [v1; v2].
Proof. intros H1 H2. unfold key_of. simpl. by rewrite H1, H2. Qed.

(** A table unique on a pair of columns has no two rows with the same,
    fully given, pair. *)
Lemma unique_pair (registry : list Model) (db : Database) (M : Model)
    (c1 c2 : string) (i j : nat) (a b : Row) (v1 v2 : value) :
  consistent registry db → M ∈ registry → [c1; c2] ∈ unique_keys M →
  table db (tablename M) !! i = Some a →
  table db (tablename M) !! j = Some b →
  a !! c1 = Some v1 → a !! c2 = Some v2 →
  b !! c1 = Some v1 → b !! c2 = Some v2 →
  i = j.
Proof.
  intros Hc HM Hkey Hi Hj Ha1 Ha2 Hb1 Hb2.
  destruct (Hc M HM) as (_ & Huniq & _). rewrite Forall_forall in Huniq.
  eapply (NoDup_omap_lookup (key_of [c1; c2])); eauto using key_of_pair.
Qed.

(** *** The shipped classes *)

Lemma models_tables_distinct (STATUS_0 : string) :
  NoDup (tablename <$> models STATUS_0).
Proof. apply (bool_decide_unpack _). vm_compute. exact I. Qed.

Lemma models_classnames_distinct (STATUS_0 : string) :
  NoDup (classname <$> models STATUS_0).
Proof. apply (bool_decide_unpack _). vm_compute. exact I. Qed.

Lemma models_consistent (STATUS_0 : string) (db : Database) :
  reachable (models STATUS_0) db → consistent (models STATUS_0) db.
Proof. apply reachable_consistent, models_tables_distinct. Qed.

(** ** The input/output lookup *)

(** C9: for each of the four shipped node types the input/output lookup
    returns and never raises.  [SurveyObservingSystem] declares only an
    output relation, [SurveyDataProduct] and [SurveyApplication] declare
    both, [SurveySocietalBenefitArea] declares only an input relation; these
    four are exactly the classes that use the mixin, and the dictionaries the
    lookup returns follow the pipeline: no input for the first stage, no
    output for the last, and each stage's output is the next stage's
    input. *)
Theorem shipped_node_types_io (STATUS_0 : string) :
  let registry := models STATUS_0 in
  __io__ registry SurveyObservingSystem
    = Return {["output" := "SurveyObservingSystemDataProduct"]}
  ∧ __io__ registry SurveyDataProduct
    = Return (<["input" := "SurveyObservingSystemDataProduct"]>
                {["output" := "SurveyDataProductApplication"]})
  ∧ __io__ registry SurveyApplication
    = Return (<["input" := "SurveyDataProductApplication"]>
                {["output" := "SurveyApplicationSocietalBenefitArea"]})
  ∧ __io__ registry SurveySocietalBenefitArea
    = Return {["input" := "SurveyApplicationSocietalBenefitArea"]}
  ∧ (assoc "input_relationships" (relationships SurveyObservingSystem) = None
     ∧ is_Some (assoc "output_relationships" (relationships SurveyObservingSystem)))
  ∧ (is_Some (assoc "input_relationships" (relationships SurveyDataProduct))
     ∧ is_Some (assoc "output_relationships" (relationships SurveyDataProduct)))
  ∧ (is_Some (assoc "input_relationships" (relationships SurveyApplication))
     ∧ is_Some (assoc "output_relationships" (relationships SurveyApplication)))
  ∧ (is_Some (assoc "input_relationships" (relationships SurveySocietalBenefitArea))
     ∧ assoc "output_relationships" (relationships SurveySocietalBenefitArea) = None)
  ∧ filter (λ M, "IORelationshipMixin" ∈ bases M) registry = SurveyNode
  ∧ fst (exec_stmts (Call_io ∘ classname <$> SurveyNode)
           (snd (exec_stmts (ClassDef <$> registry) initial_state)))
    = [Return (Some {["output" := "SurveyObservingSystemDataProduct"]});
       Return (Some (<["input" := "SurveyObservingSystemDataProduct"]>
                       {["output" := "SurveyDataProductApplication"]}));
       Return (Some (<["input" := "SurveyDataProductApplication"]>
                       {["output" := "SurveyApplicationSocietalBenefitArea"]}));
       Return (Some {["input" := "SurveyApplicationSocietalBenefitArea"]})].
Proof.
  split_and!; by_evaluation.
Qed.

Lemma __io___misconfigured (registry : list Model) (M : Model) :
  misconfigured M → __io__ registry M = Raise (RuntimeError io_error_message).
Proof. intros (_ & Hin & Hout). unfold __io__. by rewrite Hin, Hout. Qed.

Lemma find_model_snoc (l : list Model) (M : Model) :
  classname M ∉ classname <$> l → find_model (l ++ [M]) (classname M) = Some M.
Proof.
  intros Hnew. unfold find_model. rewrite filter_app.
  assert (filter (λ M', classname M' = classname M) l = []) as ->.
  { destruct (filter _ l) as [|M' k] eqn:Hf; [done|].
    assert (M' ∈ filter (λ M', classname M' = classname M) l) as HM'
      by (rewrite Hf; left).
    apply list_elem_of_filter in HM' as [Heq HM'].
    exfalso. apply Hnew. rewrite <- Heq. by apply list_elem_of_fmap_2. }
  simpl. rewrite filter_cons_True by done. done.
Qed.

(** C2 (amended): a node type that uses the mixin but declares neither an
    [input_relationships] nor an [output_relationships] relation makes the
    lookup raise the configuration error [RuntimeError] instead of returning
    an empty dictionary; the error is raised when the lookup is called, and
    again at every later call (the cache keeps no exception), while the class
    statement itself never raises it and, given a primary key and an unused
    table name, defines the class. *)
Theorem misconfigured_lookup_raises_when_called (M : Model) (st : PyState) :
  misconfigured M →
  primary_key_columns M ≠ [] →
  tablename M ∉ tablename <$> classes st →
  classname M ∉ classname <$> classes st →
  io_cache st !! classname M = None →
  (∀ registry, __io__ registry M = Raise (RuntimeError io_error_message))
  ∧ (∀ st0, fst (exec_stmt (ClassDef M) st0) ≠ Raise (RuntimeError io_error_message))
  ∧ ¬ fails_at_definition M st
  ∧ let st' := snd (exec_stmt (ClassDef M) st) in
    find_model (classes st') (classname M) = Some M
    ∧ ∀ n, exec_stmts (replicate n (Call_io (classname M))) st'
           = (replicate n (Raise (RuntimeError io_error_message)), st').
Proof.
  intros Hmis Hpk Htab Hcls Hcache.
  split_and!.
  - intros registry. by apply __io___misconfigured.
  - intros st0. simpl. repeat case_decide; simpl; discriminate.
  - unfold fails_at_definition, raises. simpl.
    rewrite decide_False by done. rewrite decide_False by done.
    simpl. intros [e He]. discriminate.
  - simpl. rewrite decide_False by done. rewrite decide_False by done. simpl.
    split; [by apply find_model_snoc|].
    induction n as [|n IH]; [done|].
    cbn [replicate exec_stmts].
    assert (exec_stmt (Call_io (classname M))
              {| classes := classes st ++ [M]; io_cache := io_cache st |}
            = (Raise (RuntimeError io_error_message),
               {| classes := classes st ++ [M]; io_cache := io_cache st |})) as ->.
    { simpl. rewrite find_model_snoc by done.
      rewrite decide_True by apply Hmis.
      rewrite Hcache. by rewrite __io___misconfigured. }
    by rewrite IH.
Qed.

Lemma misconfigured_lookup_raises_when_called_witness :
  (∀ registry, __io__ registry Disconnected = Raise (RuntimeError io_error_message))
  ∧ exec_stmt (ClassDef Disconnected) (imported "draft")
    = (Return None,
       {| classes := models "draft" ++ [Disconnected]; io_cache := ∅ |}).
Proof.
  split; [|by_evaluation].
  refine (proj1 (misconfigured_lookup_raises_when_called
                   Disconnected (imported "draft") _ _ _ _ _)).
  - unfold misconfigured. split_and!; [by_evaluation|reflexivity|reflexivity].
  - by_evaluation.
  - by_evaluation.
  - by_evaluation.
  - by_evaluation.
Defined.

(** C2 (as stated, refuted): the class statement of a misconfigured node
    type runs without error; nothing fails before the lookup is called. *)
Lemma misconfigured_class_is_defined :
  misconfigured Disconnected
  ∧ ¬ fails_at_definition Disconnected (imported "draft")
  ∧ fst (exec_stmt (Call_io "Disconnected")
           (snd (exec_stmt (ClassDef Disconnected) (imported "draft"))))
    = Raise (RuntimeError io_error_message).
Proof.
  split_and!.
  - unfold misconfigured. split_and!; [by_evaluation|done|done].
  - assert (fst (exec_stmt (ClassDef Disconnected) (imported "draft"))
            = Return None) as Hdef by by_evaluation.
    intros [e He]. rewrite Hdef in He. discriminate.
  - by_evaluation.
Qed.
(** ** Edges *)

(** A class without [polymorphic_on] loads every row of its table. *)
Lemma load_instance_plain (registry : list Model) (T : Model) (w : Row) :
  discriminator T = None → load_instance registry T w = Return w.
Proof. unfold load_instance. by intros ->. Qed.

(** [SurveyObservingSystem] loads the rows whose [type] is its own
    identity, and no other: the two classes that carry the other identities
    do not inherit from it. *)
Lemma load_observing_system (STATUS_0 : string) (w : Row) :
  load_instance (models STATUS_0) SurveyObservingSystem w
  = match w !! "type" with
    | Some v =>
        if decide (v = VStr "other")
        then Return w
        else Raise (AssertionError "No such polymorphic_identity is defined")
    | None => Return w
    end.
Proof.
  unfold load_instance.
  assert (discriminator SurveyObservingSystem = Some "type") as -> by by_evaluation.
  assert (polymorphic_map (models STATUS_0) SurveyObservingSystem = [VStr "other"])
    as -> by by_evaluation.
  destruct (w !! "type") as [v|]; [|done].
  destruct (decide (v = VStr "other")) as [->|Hne].
  - rewrite decide_True; [done|]. by left.
  - rewrite decide_False; [done|]. by intros ->%list_elem_of_singleton.
Qed.

(** A property that returns a many-to-one relationship loads the object
    the foreign key names. *)
Lemma getattr_many_to_one (registry : list Model) (db : Database) (M T : Model)
    (self : Row) (name inner : string) (rel : Relationship) (fk : FK) :
  assoc name (properties M) = Some inner →
  assoc inner (relationships M) = Some rel →
  find_model registry (rel_argument rel) = Some T →
  head (filter (λ fk, fk_table fk = tablename T) (foreign_keys M)) = Some fk →
  getattr registry db M self name
  = match (v ← self !! fk_col fk;
           head (filter (λ w, w !! fk_target fk = Some v) (table db (tablename T))))
    with
    | Some w => o ← load_instance registry T w; Return (Related (classname T) (Some o))
    | None => Return (Related (classname T) None)
    end.
Proof.
  intros Hprop Hrel Hfind Hfk. unfold getattr, getattr_mapped, load_relationship.
  by rewrite Hprop, Hrel, Hfind, Hfk.
Qed.

Lemma getattr_many_to_one_plain (registry : list Model) (db : Database)
    (M T : Model) (self : Row) (name inner : string) (rel : Relationship) (fk : FK) :
  assoc name (properties M) = Some inner →
  assoc inner (relationships M) = Some rel →
  find_model registry (rel_argument rel) = Some T →
  head (filter (λ fk, fk_table fk = tablename T) (foreign_keys M)) = Some fk →
  discriminator T = None →
  getattr registry db M self name
  = Return (Related (classname T)
              (v ← self !! fk_col fk;
               head (filter (λ w, w !! fk_target fk = Some v)
                       (table db (tablename T))))).
Proof.
  intros Hprop Hrel Hfind Hfk Hplain.
  rewrite (getattr_many_to_one _ _ _ T _ _ inner rel fk) by done.
  destruct (_ ≫= _) as [w|]; [|done].
  by rewrite load_instance_plain.
Qed.

(** What the six accessors give: the object with the identifier the edge
    holds, as the mapper of its class loads it. *)
Lemma getattr_edge_endpoints (STATUS_0 : string) (db : Database) (e : Row) :
  let registry := models STATUS_0 in
  let object_with_id (t id_column : string) : option Row :=
    v ← e !! id_column; head (filter (λ w, w !! "id" = Some v) (table db t)) in
  getattr registry db SurveyObservingSystemDataProduct e "source"
    = match object_with_id "survey_observing_system" "survey_observing_system_id" with
      | Some o =>
          o' ← load_instance registry SurveyObservingSystem o;
          Return (Related "SurveyObservingSystem" (Some o'))
      | None => Return (Related "SurveyObservingSystem" None)
      end
  ∧ getattr registry db SurveyObservingSystemDataProduct e "target"
    = Return (Related "SurveyDataProduct"
                (object_with_id "survey_data_product" "survey_data_product_id"))
  ∧ getattr registry db SurveyDataProductApplication e "source"
    = Return (Related "SurveyDataProduct"
                (object_with_id "survey_data_product" "survey_data_product_id"))
  ∧ getattr registry db SurveyDataProductApplication e "target"
    = Return (Related "SurveyApplication"
                (object_with_id "survey_application" "survey_application_id"))
  ∧ getattr registry db SurveyApplicationSocietalBenefitArea e "source"
    = Return (Related "SurveyApplication"
                (object_with_id "survey_application" "survey_application_id"))
  ∧ getattr registry db SurveyApplicationSocietalBenefitArea e "target"
    = Return (Related "SurveySocietalBenefitArea"
                (object_with_id "survey_societal_benefit_area"
                   "survey_societal_benefit_area_id")).
Proof.
  split_and!.
  - apply (getattr_many_to_one _ _ _ SurveyObservingSystem _ _ "observing_system"
             (relationship "SurveyObservingSystem" (Some "output_relationships") None)
             (mkFK "survey_observing_system_id" "survey_observing_system" "id"));
      by_evaluation.
  - apply (getattr_many_to_one_plain _ _ _ SurveyDataProduct _ _ "data_product"
             (relationship "SurveyDataProduct" (Some "input_relationships") None)
             (mkFK "survey_data_product_id" "survey_data_product" "id"));
      by_evaluation.
  - apply (getattr_many_to_one_plain _ _ _ SurveyDataProduct _ _ "data_product"
             (relationship "SurveyDataProduct" (Some "output_relationships") None)
             (mkFK "survey_data_product_id" "survey_data_product" "id"));
      by_evaluation.
  - apply (getattr_many_to_one_plain _ _ _ SurveyApplication _ _ "application"
             (relationship "SurveyApplication" (Some "input_relationships") None)
             (mkFK "survey_application_id" "survey_application" "id"));
      by_evaluation.
  - apply (getattr_many_to_one_plain _ _ _ SurveyApplication _ _ "application"
             (relationship "SurveyApplication" (Some "output_relationships") None)
             (mkFK "survey_application_id" "survey_application" "id"));
      by_evaluation.
  - apply (getattr_many_to_one_plain _ _ _ SurveySocietalBenefitArea _ _
             "societal_benefit_area"
             (relationship "SurveySocietalBenefitArea" (Some "input_relationships") None)
             (mkFK "survey_societal_benefit_area_id" "survey_societal_benefit_area"
                "id"));
      by_evaluation.
Qed.

(** C7: each of the three edge variants has the [source]/[target] pair of
    accessors, and each accessor is directed along the pipeline: listed in
    pipeline order, the sources are the node types in order and the targets
    the node types that come next; [target] of every variant, and [source]
    of the last two, return the object the corresponding foreign key of the
    edge names.  [source] of the first variant does so only for an observing
    system whose [type] is [other]: for one of type [observational] or
    [research] the mapper of [SurveyObservingSystem] knows no class, and the
    accessor raises instead of returning the observing system. *)
Theorem edge_accessors_follow_pipeline (STATUS_0 : string) (db : Database) (e : Row) :
  let registry := models STATUS_0 in
  let object_with_id (t id_column : string) : option Row :=
    v ← e !! id_column; head (filter (λ w, w !! "id" = Some v) (table db t)) in
  Forall (λ E, is_Some (assoc "source" (properties E))
               ∧ is_Some (assoc "target" (properties E))) edge_models
  ∧ (λ E, (endpoint_class registry E "source", endpoint_class registry E "target"))
      <$> edge_models
    = zip (Some <$> SurveyNode) (Some <$> tail SurveyNode)
  ∧ getattr registry db SurveyObservingSystemDataProduct e "source"
    = match object_with_id "survey_observing_system" "survey_observing_system_id" with
      | Some o =>
          match o !! "type" with
          | Some v =>
              if decide (v = VStr "other")
              then Return (Related "SurveyObservingSystem" (Some o))
              else Raise (AssertionError "No such polymorphic_identity is defined")
          | None => Return (Related "SurveyObservingSystem" (Some o))
          end
      | None => Return (Related "SurveyObservingSystem" None)
      end
  ∧ getattr registry db SurveyObservingSystemDataProduct e "target"
    = Return (Related "SurveyDataProduct"
                (object_with_id "survey_data_product" "survey_data_product_id"))
  ∧ getattr registry db SurveyDataProductApplication e "source"
    = Return (Related "SurveyDataProduct"
                (object_with_id "survey_data_product" "survey_data_product_id"))
  ∧ getattr registry db SurveyDataProductApplication e "target"
    = Return (Related "SurveyApplication"
                (object_with_id "survey_application" "survey_application_id"))
  ∧ getattr registry db SurveyApplicationSocietalBenefitArea e "source"
    = Return (Related "SurveyApplication"
                (object_with_id "survey_application" "survey_application_id"))
  ∧ getattr registry db SurveyApplicationSocietalBenefitArea e "target"
    = Return (Related "SurveySocietalBenefitArea"
                (object_with_id "survey_societal_benefit_area"
                   "survey_societal_benefit_area_id")).
Proof.
  pose proof (getattr_edge_endpoints STATUS_0 db e) as (H1 & Hrest).
  split; [by_evaluation|split; [by_evaluation|split; [|exact Hrest]]].
  cbv zeta in H1. rewrite H1.
  destruct (_ ≫= _) as [o|]; [|done].
  rewrite load_observing_system.
  destruct (o !! "type") as [v|]; [|done]. by case_decide.
Qed.

Lemma edge_accessors_follow_pipeline_witness :
  reachable (models "draft") research_db
  ∧ stored_O_D ∈ table research_db "survey_observing_system_data_product"
  ∧ getattr (models "draft") research_db SurveyObservingSystemDataProduct
      stored_O_D "source"
    = Raise (AssertionError "No such polymorphic_identity is defined").
Proof.
  split; [apply run_or_empty_reachable; by_evaluation|].
  split; [by_evaluation|].
  etrans;
    [exact (proj1 (proj2 (proj2
              (edge_accessors_follow_pipeline "draft" research_db stored_O_D))))|].
  by_evaluation.
Defined.

(** ** Ratings *)

Lemma range_check_0_100 (c : string) (r : Row) (z : Z) :
  r !! c = Some (VInt z) →
  eval_sql r (rating_0_100 c) ≠ Some false ↔ 0 ≤ z ≤ 100.
Proof.
  intros Hc. unfold rating_0_100. simpl. rewrite Hc. simpl.
  destruct (0 <=? z) eqn:H0, (z <=? 100) eqn:H1; simpl; split; intros H;
    try done; try lia.
Qed.

Lemma range_check_application (c : string) (r : Row) (z : Z) :
  r !! c = Some (VInt z) →
  eval_sql r (SqlAnd (SqlCmp c OpGt 0) (SqlCmp c OpLt 101)) ≠ Some false
  ↔ 0 < z ≤ 100.
Proof.
  intros Hc. simpl. rewrite Hc. simpl.
  destruct (0 <? z) eqn:H0, (z <? 101) eqn:H1; simpl; split; intros H;
    try done; try lia.
Qed.

Lemma rating_columns_shape (STATUS_0 : string) :
  Forall (λ M, Forall (λ col, is_rating_column col →
                 (col_type col = Integer ∨ col_type col = SmallInteger)
                 ∧ is_nullable col = false
                 ∧ col_checks col = [rating_check M col])
               (columns M))
         (models STATUS_0).
Proof. apply (bool_decide_unpack _). vm_compute. exact I. Qed.

Lemma rating_column_accepts (M : Model) (col : Column) (r : Row) (v : value) :
  (col_type col = Integer ∨ col_type col = SmallInteger) →
  col_checks col = [rating_check M col] →
  r !! col_name col = Some v →
  (has_type (col_type col) v = true
   ∧ Forall (λ e, eval_sql r e ≠ Some false) (col_checks col))
  ↔ ∃ z, v = VInt z ∧ in_rating_range M z.
Proof.
  intros Hty Hck Hv. rewrite Hck, Forall_singleton.
  unfold rating_check, in_rating_range. split.
  - intros [Ht He].
    assert (∃ z, v = VInt z) as [z ->].
    { destruct Hty as [Hty|Hty]; rewrite Hty in Ht;
        destruct v; simpl in Ht; try discriminate; by eexists. }
    exists z. split; [done|]. case_decide.
    + by apply (range_check_application (col_name col) r).
    + by apply (range_check_0_100 (col_name col) r).
  - intros (z & -> & Hz).
    split; [by destruct Hty as [Hty|Hty]; rewrite Hty|]. case_decide.
    + by apply (range_check_application (col_name col) r z).
    + by apply (range_check_0_100 (col_name col) r z).
Qed.

(** C3: every rating field (a column whose name ends in [_rating]) of every
    class is a non-null integer column whose check accepts exactly the
    integers of [0,100], except the application's own [performance_rating],
    which accepts exactly those of (0,100]; a statement that writes any other
    value to such a field is rejected by the database, and the ratings stored
    in any state the database can reach lie in the range. *)
Theorem rating_fields_are_range_checked (STATUS_0 : string) (M : Model)
    (col : Column) :
  M ∈ models STATUS_0 → col ∈ columns M → is_rating_column col →
  (∀ r v, r !! col_name col = Some v →
     (has_type (col_type col) v = true
      ∧ Forall (λ e, eval_sql r e ≠ Some false) (col_checks col))
     ↔ ∃ z, v = VInt z ∧ in_rating_range M z)
  ∧ (∀ db o r v,
       writes o (classname M) r → r !! col_name col = Some v →
       ¬ (∃ z, v = VInt z ∧ in_rating_range M z) →
       ∃ e, exec (models STATUS_0) o db = Err e)
  ∧ (∀ db stored,
       reachable (models STATUS_0) db → stored ∈ table db (tablename M) →
       ∃ z, stored !! col_name col = Some (VInt z) ∧ in_rating_range M z).
Proof.
  intros HM Hcol Hrating.
  pose proof (rating_columns_shape STATUS_0) as Hshape.
  rewrite Forall_forall in Hshape. specialize (Hshape M HM).
  rewrite Forall_forall in Hshape.
  destruct (Hshape col Hcol Hrating) as (Hty & Hnn & Hck).
  split_and!.
  - intros r v Hv. by apply rating_column_accepts.
  - intros db o r v Hw Hv Hbad.
    destruct (exec (models STATUS_0) o db) as [db'|e] eqn:Hexec; [|by eexists].
    exfalso. apply Hbad.
    destruct (exec_writes_row_ok (models STATUS_0)
                (models_classnames_distinct STATUS_0) o db db' M r HM Hw Hexec)
      as (r' & Hok & Hsame).
    pose proof (row_ok_column M col r' Hok Hcol) as [Ht Hc].
    rewrite (Hsame _ _ Hv) in Ht.
    by apply (rating_column_accepts M col r' v Hty Hck (Hsame _ _ Hv)).
  - intros db stored Hreach Hin.
    destruct (models_consistent STATUS_0 db Hreach M HM) as (Hrows & _ & _).
    rewrite Forall_forall in Hrows.
    pose proof (row_ok_column M col stored (Hrows stored Hin) Hcol) as [Ht Hc].
    destruct (stored !! col_name col) as [v|] eqn:Hv; [|congruence].
    destruct (proj1 (rating_column_accepts M col stored v Hty Hck Hv))
      as (z & -> & Hz); [done|].
    by exists z.
Qed.

Lemma setup_db_reachable : reachable (models "draft") setup_db.
Proof. apply run_or_empty_reachable. vm_compute. reflexivity. Qed.

Lemma rating_fields_are_range_checked_witness :
  (∃ e, exec (models "draft")
          (Insert "SurveyApplication" example_env (application_rated 0)) setup_db
        = Err e)
  ∧ exec (models "draft")
      (Insert "SurveyApplication" example_env (application_rated 0)) setup_db
    = Err CheckViolation
  ∧ is_ok (exec (models "draft")
             (Insert "SurveyApplication" example_env (application_rated 100)) setup_db)
    = true.
Proof.
  split_and!.
  - refine (proj1 (proj2 (rating_fields_are_range_checked "draft" SurveyApplication
             (column "performance_rating" Integer
                [CheckConstraint
                   (SqlAnd (SqlCmp "performance_rating" OpGt 0)
                           (SqlCmp "performance_rating" OpLt 101))
                   "0-100";
                 nullable false]) _ _ _))
             setup_db
             (Insert "SurveyApplication" example_env (application_rated 0))
             (application_rated 0) (VInt 0) _ _ _).
    + by_evaluation.
    + by_evaluation.
    + by_evaluation.
    + split; reflexivity.
    + by_evaluation.
    + intros (z & Hz & Hrange). injection Hz as <-.
      unfold in_rating_range in Hrange. simpl in Hrange. lia.
  - by_evaluation.
  - vm_compute. reflexivity.
Defined.

(** ** Uniqueness *)

Lemma row_ok_not_null (M : Model) (r : Row) (c : string) :
  Exists (λ col, col_name col = c ∧ is_nullable col = false) (columns M) →
  row_ok M r → is_Some (r !! c).
Proof.
  intros (col & Hcol & <- & Hnn)%Exists_exists Hok.
  destruct (row_ok_column M col r Hok Hcol) as [H _].
  destruct (r !! col_name col); [by eexists|congruence].
Qed.

Lemma unique_within_survey_by_key (registry : list Model) (db : Database)
    (M : Model) (col : string) :
  consistent registry db → M ∈ registry →
  [col; "survey_id"] ∈ unique_keys M →
  Exists (λ c, col_name c = col ∧ is_nullable c = false) (columns M) →
  Exists (λ c, col_name c = "survey_id" ∧ is_nullable c = false) (columns M) →
  unique_within_survey db M col.
Proof.
  intros Hc HM Hkey Hnn Hnn' i j a b Hi Hj Hne Hsurvey Hcol.
  destruct (Hc M HM) as (Hrows & _ & _). rewrite Forall_forall in Hrows.
  assert (row_ok M a) as Ha by (by eapply Hrows, list_elem_of_lookup_2).
  destruct (row_ok_not_null M a col Hnn Ha) as [v Hv].
  destruct (row_ok_not_null M a "survey_id" Hnn' Ha) as [sv Hsv].
  apply Hne. eapply (unique_pair registry db M col "survey_id"); eauto; congruence.
Qed.

(** C4 (amended): in every state the database can reach, two different
    observing systems of the same survey have different [short_name]s, and so
    have two data products and two applications; a societal benefit area of
    a survey has no [short_name] at all, and it is its
    [societal_benefit_area_id] that differs between two societal benefit
    areas of the same survey. *)
Theorem short_name_unique_per_survey (STATUS_0 : string) (db : Database) :
  reachable (models STATUS_0) db →
  unique_within_survey db SurveyObservingSystem "short_name"
  ∧ unique_within_survey db SurveyDataProduct "short_name"
  ∧ unique_within_survey db SurveyApplication "short_name"
  ∧ unique_within_survey db SurveySocietalBenefitArea "societal_benefit_area_id"
  ∧ ∀ sba, sba ∈ table db (tablename SurveySocietalBenefitArea) →
           sba !! "short_name" = None.
Proof.
  intros Hc%models_consistent.
  split_and!;
    try (apply (unique_within_survey_by_key (models STATUS_0));
         [done|by_evaluation..]).
  intros sba Hin.
  destruct (Hc SurveySocietalBenefitArea) as (Hrows & _ & _); [by_evaluation|].
  rewrite Forall_forall in Hrows.
  apply (row_ok_unknown_column SurveySocietalBenefitArea); [by apply Hrows|].
  by_evaluation.
Qed.

Lemma two_sba_db_reachable : reachable (models "draft") two_sba_db.
Proof. apply run_or_empty_reachable. vm_compute. reflexivity. Qed.

Lemma short_name_unique_per_survey_witness :
  unique_within_survey two_sba_db SurveyObservingSystem "short_name"
  ∧ unique_within_survey two_sba_db SurveySocietalBenefitArea
      "societal_benefit_area_id".
Proof.
  pose proof (short_name_unique_per_survey "draft" two_sba_db two_sba_db_reachable)
    as (H1 & _ & _ & H4 & _).
  exact (conj H1 H4).
Defined.

(** C4 (as stated, refuted): two different societal benefit areas of one
    survey, accepted by the database, whose [short_name]s do not differ:
    neither has one. *)
Lemma societal_benefit_areas_share_no_short_name :
  reachable (models "draft") two_sba_db
  ∧ ¬ unique_within_survey two_sba_db SurveySocietalBenefitArea "short_name".
Proof.
  split; [apply two_sba_db_reachable|].
  intros H.
  apply (H 0%nat 1%nat
           (row [("id", VInt 1); ("survey_id", VInt 1);
                 ("societal_benefit_area_id", VStr "Health")])
           (row [("id", VInt 2); ("survey_id", VInt 1);
                 ("societal_benefit_area_id", VStr "Energy")]));
    by_evaluation.
Qed.

(** C6: in every state the database can reach and for each of the three
    edge variants, two different edges of the variant never connect the same
    source node to the same target node: the pair (source id, target id) is
    unique in the variant's table. *)
Theorem edge_pairs_unique (STATUS_0 : string) (db : Database) (E : Model)
    (i j : nat) (a b : Row) (s t : value) :
  reachable (models STATUS_0) db →
  E ∈ edge_models →
  table db (tablename E) !! i = Some a →
  table db (tablename E) !! j = Some b →
  connects (models STATUS_0) E a s t →
  connects (models STATUS_0) E b s t →
  i = j.
Proof.
  intros Hc%models_consistent HE Hi Hj
    (src & tgt & Hsrc & Htgt & Has & Hat) (src' & tgt' & Hsrc' & Htgt' & Hbs & Hbt).
  rewrite Hsrc in Hsrc'. rewrite Htgt in Htgt'. simplify_eq.
  unfold edge_models in HE.
  repeat (apply elem_of_cons in HE as [->|HE]); [| | |by apply elem_of_nil in HE];
    vm_compute in Hsrc; vm_compute in Htgt; simplify_eq; simpl in *.
  - eapply (unique_pair (models STATUS_0) db SurveyObservingSystemDataProduct
              "survey_observing_system_id" "survey_data_product_id");
      [exact Hc|by_evaluation|by_evaluation|..]; eauto.
  - eapply (unique_pair (models STATUS_0) db SurveyDataProductApplication
              "survey_data_product_id" "survey_application_id");
      [exact Hc|by_evaluation|by_evaluation|..]; eauto.
  - eapply (unique_pair (models STATUS_0) db SurveyApplicationSocietalBenefitArea
              "survey_application_id" "survey_societal_benefit_area_id");
      [exact Hc|by_evaluation|by_evaluation|..]; eauto.
Qed.

Lemma cross_survey_db_reachable : reachable (models "draft") cross_survey_db.
Proof. apply run_or_empty_reachable. vm_compute. reflexivity. Qed.

Lemma edge_pairs_unique_witness :
  0%nat = 0%nat
  ∧ exec (models "draft")
      (Insert "SurveyObservingSystemDataProduct" example_env (os_dp_edge_rated 10 20))
      cross_survey_db
    = Err UniqueViolation.
Proof.
  split; [|by_evaluation].
  refine (edge_pairs_unique "draft" cross_survey_db SurveyObservingSystemDataProduct
            0 0 stored_O_D stored_O_D (VInt 1) (VInt 1)
            cross_survey_db_reachable _ _ _ _ _).
  - by_evaluation.
  - by_evaluation.
  - by_evaluation.
  - exists (mkFK "survey_observing_system_id" "survey_observing_system" "id"),
           (mkFK "survey_data_product_id" "survey_data_product" "id").
    split_and!; by_evaluation.
  - exists (mkFK "survey_observing_system_id" "survey_observing_system" "id"),
           (mkFK "survey_data_product_id" "survey_data_product" "id").
    split_and!; by_evaluation.
Defined.

(** ** The surveys of an edge's endpoints *)

Lemma fk_target_exists (registry : list Model) (db : Database) (M : Model)
    (r : Row) (fk : FK) :
  consistent registry db → M ∈ registry → r ∈ table db (tablename M) →
  fk ∈ foreign_keys M →
  r !! fk_col fk = None
  ∨ Exists (λ w, w !! fk_target fk = r !! fk_col fk) (table db (fk_table fk)).
Proof.
  intros Hc HM Hr Hfk. destruct (Hc M HM) as (_ & _ & Hfks).
  rewrite Forall_forall in Hfks. specialize (Hfks r Hr).
  unfold fk_ok in Hfks. rewrite Forall_forall in Hfks. by apply Hfks.
Qed.

(** An endpoint that is set is a row of the node table [N], and that node
    belongs to a survey that exists. *)
Lemma endpoint_case (registry : list Model) (db : Database) (E N : Model)
    (e : Row) (c : string) :
  consistent registry db → E ∈ registry → N ∈ registry →
  e ∈ table db (tablename E) →
  mkFK c (tablename N) "id" ∈ foreign_keys E →
  mkFK "survey_id" "survey" "id" ∈ foreign_keys N →
  Exists (λ col, col_name col = "survey_id" ∧ is_nullable col = false) (columns N) →
  let object := v ← e !! c;
                head (filter (λ w, w !! "id" = Some v) (table db (tablename N))) in
  e !! c = None ∧ object = None
  ∨ ∃ node survey,
      object = Some node ∧ node ∈ table db (tablename N)
      ∧ is_Some (e !! c) ∧ node !! "id" = e !! c
      ∧ survey ∈ table db "survey"
      ∧ is_Some (survey_of node) ∧ survey !! "id" = survey_of node.
Proof.
  intros Hc HE HN He Hfk Hfk' Hnn. simpl.
  destruct (fk_target_exists registry db E e _ Hc HE He Hfk) as [Hnull|Hex];
    simpl in *.
  { left. by rewrite Hnull. }
  destruct (e !! c) as [v|] eqn:Hv; [right|by left]. simpl.
  apply (head_filter_Exists (λ w, w !! "id" = Some v)) in Hex
    as (node & Hhead & Hid & Hnode).
  destruct (fk_target_exists registry db N node _ Hc HN Hnode Hfk') as [Hnull|Hex];
    simpl in *.
  { destruct (Hc N HN) as (Hrows & _ & _). rewrite Forall_forall in Hrows.
    destruct (row_ok_not_null N node "survey_id" Hnn (Hrows node Hnode)). congruence. }
  apply Exists_exists in Hex as (survey & Hsurvey & Hsid).
  exists node, survey. split_and!; try done.
  destruct (Hc N HN) as (Hrows & _ & _). rewrite Forall_forall in Hrows.
  apply (row_ok_not_null N node "survey_id" Hnn (Hrows node Hnode)).
Qed.

(** C5 (amended): in every state the database can reach, an edge of any of
    the three variants has no survey of its own (it has no [survey_id]), and
    each of its two endpoints is either unset or an existing node of the
    adjacent stage that belongs to one existing survey; nothing makes the
    surveys of the two endpoints the same.  The accessor returns that node,
    except where the mapper of [SurveyObservingSystem] cannot load it. *)
Theorem edge_endpoints_exist (STATUS_0 : string) (db : Database) (E : Model)
    (e : Row) (name : string) (fk : FK) :
  reachable (models STATUS_0) db →
  E ∈ edge_models → e ∈ table db (tablename E) →
  name ∈ ["source"; "target"] →
  endpoint_fk (models STATUS_0) E name = Some fk →
  e !! "survey_id" = None
  ∧ (e !! fk_col fk = None
     ∧ (∃ cls, getattr (models STATUS_0) db E e name = Return (Related cls None))
     ∨ ∃ node survey,
         node ∈ table db (fk_table fk)
         ∧ is_Some (e !! fk_col fk) ∧ node !! fk_target fk = e !! fk_col fk
         ∧ survey ∈ table db "survey"
         ∧ is_Some (survey_of node) ∧ survey !! "id" = survey_of node
         ∧ (related (models STATUS_0) db E e name = Some node
            ∨ getattr (models STATUS_0) db E e name
              = Raise (AssertionError "No such polymorphic_identity is defined")
              ∧ E = SurveyObservingSystemDataProduct ∧ name = "source"
              ∧ ∃ v, node !! "type" = Some v ∧ v ≠ VStr "other")).
Proof.
  intros Hc%models_consistent HE He Hname Hfk.
  pose proof (getattr_edge_endpoints STATUS_0 db e)
    as (H1 & H2 & H3 & H4 & H5 & H6).
  cbv zeta in H1, H2, H3, H4, H5, H6.
  assert (∀ M, M ∈ models STATUS_0 → e ∈ table db (tablename M) →
               "survey_id" ∉ col_name <$> columns M → e !! "survey_id" = None)
    as Hnone.
  { intros M HM HeM Hcol. apply (row_ok_unknown_column M); [|done].
    destruct (Hc M HM) as (Hrows & _ & _).
    rewrite Forall_forall in Hrows. by apply Hrows. }
  assert (∀ N c cls,
            N ∈ models STATUS_0 →
            mkFK c (tablename N) "id" ∈ foreign_keys E →
            mkFK "survey_id" "survey" "id" ∈ foreign_keys N →
            Exists (λ col, col_name col = "survey_id" ∧ is_nullable col = false)
                   (columns N) →
            E ∈ models STATUS_0 →
            getattr (models STATUS_0) db E e name
            = Return (Related cls
                        (v ← e !! c;
                         head (filter (λ w, w !! "id" = Some v)
                                 (table db (tablename N))))) →
            e !! c = None
            ∧ (∃ cls, getattr (models STATUS_0) db E e name
                      = Return (Related cls None))
            ∨ ∃ node survey,
                node ∈ table db (tablename N)
                ∧ is_Some (e !! c) ∧ node !! "id" = e !! c
                ∧ survey ∈ table db "survey"
                ∧ is_Some (survey_of node) ∧ survey !! "id" = survey_of node
                ∧ (related (models STATUS_0) db E e name = Some node
                   ∨ getattr (models STATUS_0) db E e name
                     = Raise (AssertionError "No such polymorphic_identity is defined")
                     ∧ E = SurveyObservingSystemDataProduct ∧ name = "source"
                     ∧ ∃ v, node !! "type" = Some v ∧ v ≠ VStr "other"))
    as Hplain.
  { intros N c cls HN Hfk1 Hfk2 Hnn HEm Hget.
    destruct (endpoint_case (models STATUS_0) db E N e c Hc HEm HN He Hfk1 Hfk2 Hnn)
      as [[Hnull Hobj]|(node & survey & Hobj & Hrest)].
    - left. split; [done|]. exists cls. by rewrite Hget, Hobj.
    - right. exists node, survey.
      destruct Hrest as (? & ? & ? & ? & ? & ?). split_and!; try done.
      left. unfold related. by rewrite Hget, Hobj. }
  unfold edge_models in HE.
  repeat (apply elem_of_cons in HE as [->|HE]); [| | |by apply elem_of_nil in HE];
    (split;
     [ eapply Hnone; [|exact He|]; by_evaluation
     | repeat (apply elem_of_cons in Hname as [->|Hname]);
         [| |by apply elem_of_nil in Hname];
         vm_compute in Hfk; injection Hfk as <-;
         cbn [fk_col fk_table fk_target] ]).
  - destruct (endpoint_case (models STATUS_0) db SurveyObservingSystemDataProduct
                SurveyObservingSystem e "survey_observing_system_id" Hc)
      as [[Hnull Hobj]|(node & survey & Hobj & Hrest)];
      [by_evaluation|by_evaluation|exact He|by_evaluation|by_evaluation|by_evaluation
      | |];
      change (tablename SurveyObservingSystem) with "survey_observing_system"
        in Hobj.
    + left. split; [done|]. exists "SurveyObservingSystem".
      rewrite H1. by rewrite Hobj.
    + right. exists node, survey.
      destruct Hrest as (? & ? & ? & ? & ? & ?). split_and!; try done.
      unfold related. rewrite H1. rewrite Hobj. rewrite load_observing_system.
      destruct (node !! "type") as [v|] eqn:Hv; [|by left].
      case_decide; [by left|right]. split_and!; try done. by exists v.
  - eapply (Hplain SurveyDataProduct "survey_data_product_id");
      [by_evaluation|by_evaluation|by_evaluation|by_evaluation|by_evaluation|exact H2].
  - eapply (Hplain SurveyDataProduct "survey_data_product_id");
      [by_evaluation|by_evaluation|by_evaluation|by_evaluation|by_evaluation|exact H3].
  - eapply (Hplain SurveyApplication "survey_application_id");
      [by_evaluation|by_evaluation|by_evaluation|by_evaluation|by_evaluation|exact H4].
  - eapply (Hplain SurveyApplication "survey_application_id");
      [by_evaluation|by_evaluation|by_evaluation|by_evaluation|by_evaluation|exact H5].
  - eapply (Hplain SurveySocietalBenefitArea "survey_societal_benefit_area_id");
      [by_evaluation|by_evaluation|by_evaluation|by_evaluation|by_evaluation|exact H6].
Qed.

Lemma edge_endpoints_exist_witness :
  stored_O_D !! "survey_id" = None
  ∧ (stored_O_D !! "survey_observing_system_id" = None
     ∧ (∃ cls, getattr (models "draft") cross_survey_db
                 SurveyObservingSystemDataProduct stored_O_D "source"
               = Return (Related cls None))
     ∨ ∃ node survey,
         node ∈ table cross_survey_db "survey_observing_system"
         ∧ is_Some (stored_O_D !! "survey_observing_system_id")
         ∧ node !! "id" = stored_O_D !! "survey_observing_system_id"
         ∧ survey ∈ table cross_survey_db "survey"
         ∧ is_Some (survey_of node) ∧ survey !! "id" = survey_of node
         ∧ (related (models "draft") cross_survey_db
              SurveyObservingSystemDataProduct stored_O_D "source" = Some node
            ∨ getattr (models "draft") cross_survey_db
                SurveyObservingSystemDataProduct stored_O_D "source"
              = Raise (AssertionError "No such polymorphic_identity is defined")
              ∧ SurveyObservingSystemDataProduct = SurveyObservingSystemDataProduct
              ∧ "source" = "source"
              ∧ ∃ v, node !! "type" = Some v ∧ v ≠ VStr "other")).
Proof.
  refine (edge_endpoints_exist "draft" cross_survey_db
            SurveyObservingSystemDataProduct stored_O_D "source"
            (mkFK "survey_observing_system_id" "survey_observing_system" "id")
            cross_survey_db_reachable _ _ _ _).
  - by_evaluation.
  - by_evaluation.
  - by_evaluation.
  - by_evaluation.
Defined.

(** C5 (as stated, refuted): a state the database accepts in which an edge
    joins an observing system of the first survey to a data product of the
    second. *)
Lemma edge_across_surveys :
  reachable (models "draft") cross_survey_db
  ∧ ¬ endpoints_share_survey (models "draft") cross_survey_db.
Proof.
  split; [apply cross_survey_db_reachable|].
  intros H.
  specialize (H SurveyObservingSystemDataProduct stored_O_D stored_O stored_D).
  assert (survey_of stored_O = survey_of stored_D) as Heq.
  { apply H; by_evaluation. }
  revert Heq. by_evaluation.
Qed.

(** ** Defaults *)

(** One step of [apply_defaults] for a logged-in user: the other columns are
    left alone, a value given by the caller is kept, and a missing one is
    replaced by the default. *)
Lemma fill_default_spec (env : Env) (rows : list Row) (col : Column)
    (r : Row) (k : nat) (user : Z) :
  current_user_id env = Some user →
  ∃ r' k',
    fill_default env rows (Ok (r, k)) col = Ok (r', k')
    ∧ (∀ c, c ≠ col_name col → r' !! c = r !! c)
    ∧ (∀ v, r !! col_name col = Some v → r' !! col_name col = Some v ∧ k' = k)
    ∧ (r !! col_name col = None →
       match col_default col with
       | Some (Scalar v) => r' !! col_name col = Some v ∧ k' = k
       | Some Callable_current_user_id =>
           r' !! col_name col = Some (VInt user) ∧ k' = k
       | Some Callable_datetime_now =>
           r' !! col_name col = Some (VTime (datetime_now env k)) ∧ k' = S k
       | None => k' = k
       end).
Proof.
  intros Huser. unfold fill_default. simpl.
  destruct (r !! col_name col) as [v|] eqn:Hv.
  { exists r, k. split_and!; [done|done| |done].
    intros v' [= <-]. done. }
  destruct (col_default col) as [[v| |]|]; simpl.
  - eexists _, _. split_and!; [done| |done|].
    + intros c Hc. by rewrite lookup_insert_ne.
    + intros _. by rewrite lookup_insert_eq.
  - rewrite Huser. simpl. eexists _, _. split_and!; [done| |done|].
    + intros c Hc. by rewrite lookup_insert_ne.
    + intros _. by rewrite lookup_insert_eq.
  - eexists _, _. split_and!; [done| |done|].
    + intros c Hc. by rewrite lookup_insert_ne.
    + intros _. by rewrite lookup_insert_eq.
  - destruct (is_autoincrement col); eexists _, _; (split_and!; [done| |done|done]).
    + intros c Hc. by rewrite lookup_insert_ne.
    + done.
Qed.

Ltac next_column Huser r k E O P A :=
  match goal with
  | |- context [fill_default ?env ?rows (Ok (?r0, ?k0)) ?col] =>
      destruct (fill_default_spec env rows col r0 k0 _ Huser)
        as (r & k & E & O & P & A);
      rewrite E; clear E;
      cbn [col_name] in O, P, A;
      let d := eval vm_compute in (col_default col) in
      change (col_default col) with d in A; cbv beta iota in A
  end.

Ltac through_columns :=
  repeat match goal with
  | H : ∀ c, c ≠ ?n → ?r' !! c = ?r !! c |- context [?r' !! ?x] =>
      rewrite (H x) by discriminate
  end.

(** The row [apply_defaults] builds for a survey. *)
Lemma survey_defaults_row (STATUS_0 : string) (STATUSES_rest : list string)
    (env : Env) (rows : list Row) (kwargs : Row) (user : Z) :
  current_user_id env = Some user →
  kwargs !! "status_id" = None →
  kwargs !! "created_by_id" = None →
  kwargs !! "created_timestamp" = None →
  kwargs !! "updated_timestamp" = None →
  kwargs !! "private" = None →
  ∃ r,
    apply_defaults env (Survey STATUS_0) rows kwargs = Ok r
    ∧ r !! "private" = Some (VBool false)
    ∧ r !! "status_id" = VStr <$> STATUSES STATUS_0 STATUSES_rest !! 0%nat
    ∧ r !! "created_by_id" = Some (VInt user)
    ∧ r !! "created_timestamp" = Some (VTime (datetime_now env 0))
    ∧ r !! "updated_timestamp" = Some (VTime (datetime_now env 1))
    ∧ ∀ c v, kwargs !! c = Some v → r !! c = Some v.
Proof.
  intros Huser Hstatus Hcreator Hcreated Hupdated Hprivate.
  destruct (apply_defaults env (Survey STATUS_0) rows kwargs) as [r|e] eqn:Happly.
  2: { exfalso. revert Happly. unfold apply_defaults.
       cbn [Survey columns foldl].
       next_column Huser r1 k1 E1 O1 P1 A1.
       next_column Huser r2 k2 E2 O2 P2 A2.
       next_column Huser r3 k3 E3 O3 P3 A3.
       next_column Huser r4 k4 E4 O4 P4 A4.
       next_column Huser r5 k5 E5 O5 P5 A5.
       next_column Huser r6 k6 E6 O6 P6 A6.
       next_column Huser r7 k7 E7 O7 P7 A7.
       next_column Huser r8 k8 E8 O8 P8 A8.
       done. }
  exists r. split; [done|].
  split_and!; [| | | | |intros c v Hc; by eapply apply_defaults_keeps].
  all: revert Happly; unfold apply_defaults; cbn [Survey columns foldl].
  all: next_column Huser r1 k1 E1 O1 P1 A1.
  all: next_column Huser r2 k2 E2 O2 P2 A2.
  all: next_column Huser r3 k3 E3 O3 P3 A3.
  all: next_column Huser r4 k4 E4 O4 P4 A4.
  all: next_column Huser r5 k5 E5 O5 P5 A5.
  all: next_column Huser r6 k6 E6 O6 P6 A6.
  all: next_column Huser r7 k7 E7 O7 P7 A7.
  all: next_column Huser r8 k8 E8 O8 P8 A8.
  all: intros [= <-].
  all: assert (k1 = 0%nat) as ->
         by (destruct (kwargs !! "id") as [v|] eqn:Hv; [by apply (P1 v)|by apply A1]).
  all: assert (k2 = 0%nat) as ->
         by (destruct (r1 !! "title") as [v|] eqn:Hv; [by apply (P2 v)|by apply A2]).
  all: assert (r2 !! "status_id" = None) as H3 by (by through_columns).
  all: assert (r3 !! "created_by_id" = None) as H4 by (by through_columns).
  all: assert (r4 !! "created_timestamp" = None) as H5 by (by through_columns).
  all: assert (r5 !! "updated_timestamp" = None) as H6 by (by through_columns).
  all: assert (r7 !! "private" = None) as H8 by (by through_columns).
  all: destruct (A3 H3) as [V3 ->], (A4 H4) as [V4 ->], (A5 H5) as [V5 ->],
         (A6 H6) as [V6 ->], (A8 H8) as [V8 ->].
  all: through_columns; done.
Qed.

(** C10: a survey created without values for them gets its defaults: it is
    public ([private] is [False]), its status is the first configured status
    [STATUSES[0]], its creator is the logged-in user, and its
    [created_timestamp] and [updated_timestamp] are the clock as read while
    the row is created (two successive readings of [datetime.now]); what the
    caller did supply is stored as given. *)
Theorem survey_defaults (STATUS_0 : string) (STATUSES_rest : list string)
    (env : Env) (db : Database) (kwargs : Row) (user : Z) :
  current_user_id env = Some user →
  kwargs !! "status_id" = None →
  kwargs !! "created_by_id" = None →
  kwargs !! "created_timestamp" = None →
  kwargs !! "updated_timestamp" = None →
  kwargs !! "private" = None →
  ∃ r,
    apply_defaults env (Survey STATUS_0) (table db "survey") kwargs = Ok r
    ∧ r !! "private" = Some (VBool false)
    ∧ r !! "status_id" = VStr <$> STATUSES STATUS_0 STATUSES_rest !! 0%nat
    ∧ r !! "created_by_id" = Some (VInt user)
    ∧ r !! "created_timestamp" = Some (VTime (datetime_now env 0))
    ∧ r !! "updated_timestamp" = Some (VTime (datetime_now env 1))
    ∧ (∀ c v, kwargs !! c = Some v → r !! c = Some v)
    ∧ ∀ db', exec (models STATUS_0) (Insert "Survey" env kwargs) db = Ok db' →
             table db' "survey" = table db "survey" ++ [r].
Proof.
  intros Huser Hstatus Hcreator Hcreated Hupdated Hprivate.
  destruct (survey_defaults_row STATUS_0 STATUSES_rest env (table db "survey")
              kwargs user Huser Hstatus Hcreator Hcreated Hupdated Hprivate)
    as (r & Hr & Hprops).
  exists r. split; [done|]. repeat (destruct Hprops as [? Hprops]; split; [done|]).
  split; [done|].
  intros db' Hexec. simpl in Hexec.
  change (find_model (models STATUS_0) "Survey") with (Some (Survey STATUS_0)) in Hexec.
  simpl in Hexec. inv_result.
  change (tablename (Survey STATUS_0)) with "survey" in *.
  rewrite Hr in Ha0. injection Ha0 as <-. subst db'.
  by rewrite table_insert, decide_True.
Qed.

Lemma survey_defaults_witness :
  ∃ r,
    apply_defaults example_env (Survey "draft") (table ∅ "survey")
      (row [("title", VStr "First")]) = Ok r
    ∧ r = row [("id", VInt 1); ("title", VStr "First"); ("status_id", VStr "draft");
               ("created_by_id", VInt 1);
               ("created_timestamp", VTime 1700000000);
               ("updated_timestamp", VTime 1700000001);
               ("private", VBool false)]
    ∧ table setup_db "survey" !! 0%nat = Some r.
Proof.
  destruct (survey_defaults "draft" ["published"] example_env ∅
              (row [("title", VStr "First")]) 1)
    as (r & Hr & _); try by_evaluation.
  exists r. split; [exact Hr|].
  assert (apply_defaults example_env (Survey "draft") (table ∅ "survey")
            (row [("title", VStr "First")])
          = Ok (row [("id", VInt 1); ("title", VStr "First");
                     ("status_id", VStr "draft"); ("created_by_id", VInt 1);
                     ("created_timestamp", VTime 1700000000);
                     ("updated_timestamp", VTime 1700000001);
                     ("private", VBool false)])) as Hrow by by_evaluation.
  rewrite Hr in Hrow. injection Hrow as ->.
  split; [reflexivity|by_evaluation].
Defined.

(** ** The project routes *)

(** [Survey] declares no attribute [response]: reading it raises. *)
Lemma project_response_raises (STATUS_0 : string) (db : Database) (project : Row) :
  project.project_response STATUS_0 db project = Raise (AttributeError "response").
Proof.
  unfold project.project_response, getattr, getattr_mapped.
  assert (assoc "response" (properties (Survey STATUS_0)) = None) as ->
    by by_evaluation.
  assert (assoc "response" (relationships (Survey STATUS_0)) = None) as ->
    by by_evaluation.
  rewrite decide_False; [done|]. by_evaluation.
Qed.

(** C8: what each of the three project routes answers.  Without an
    authenticated session the login manager answers and nothing is fetched.
    With one, the survey is fetched once: when the fetch finds nothing the
    answer is 404; when the fetch itself raises (PostgreSQL refuses an
    identifier that is no number) the answer is a server error; and when the
    survey exists, the view reads [project.response], which [Survey] does
    not declare, the read raises [AttributeError], nothing is rendered and
    the answer is a server error again. *)
Theorem project_routes_answer (STATUS_0 : string) (db : Database)
    (session_get : string → py (option Row))
    {Link : Type} (sankey : attr → py (list Link))
    (rt : project.route) (req : project.Request) (project_id : string) :
  project.dispatch STATUS_0 db session_get sankey rt req project_id
  = if project.is_authenticated req
    then match session_get project_id with
         | Return None =>
             ([project.Query "Survey" project_id], project.NotFound)
         | Return (Some _) =>
             ([project.Query "Survey" project_id],
              project.InternalServerError (AttributeError "response"))
         | Raise e =>
             ([project.Query "Survey" project_id], project.InternalServerError e)
         end
    else ([], project.Unauthorized).
Proof.
  unfold project.dispatch, project.login_required.
  destruct (project.is_authenticated req); [|by destruct rt].
  unfold project.view_project, project.view_project_overview,
    project.edit_project, project.get_or_404, project.guarded_sankey.
  destruct (session_get project_id) as [[p|]|e]; [|by destruct rt..].
  destruct rt;
    unfold project.handler_bind, project.call, project.respond, mbind, py_bind;
    cbv beta iota; rewrite !project_response_raises; reflexivity.
Qed.

Lemma project_routes_answer_witness :
  table setup_db "survey" !! 0%nat = Some example_survey
  ∧ (∀ rt, example_dispatch rt {| project.is_authenticated := true |} "1"
           = ([project.Query "Survey" "1"],
              project.InternalServerError (AttributeError "response")))
  ∧ example_dispatch project.RouteView {| project.is_authenticated := true |} "one"
    = ([project.Query "Survey" "one"],
       project.InternalServerError
         (DataError_ "invalid input syntax for type integer"))
  ∧ example_dispatch project.RouteEdit {| project.is_authenticated := true |} "42"
    = ([project.Query "Survey" "42"], project.NotFound).
Proof.
  split; [by_evaluation|]. unfold example_dispatch.
  split_and!; [intros rt|..]; rewrite project_routes_answer; by_evaluation.
Defined.

(** ** The flow diagram *)

Lemma load_instances_plain (registry : list Model) (T : Model) (l : list Row) :
  discriminator T = None → load_instances registry T l = Return l.
Proof.
  intros Hplain. induction l as [|w l IH]; [done|].
  cbn [load_instances]. rewrite load_instance_plain by done.
  cbn [mbind py_bind]. by rewrite IH.
Qed.

(** Loading hands the rows on as they are. *)
Lemma load_instance_Return (registry : list Model) (T : Model) (w o : Row) :
  load_instance registry T w = Return o → o = w.
Proof.
  unfold load_instance. destruct (discriminator T); [|congruence].
  destruct (w !! _); [|congruence]. case_decide; congruence.
Qed.

Lemma load_instances_Return (registry : list Model) (T : Model) (l l' : list Row) :
  load_instances registry T l = Return l' → l' = l.
Proof.
  revert l'. induction l as [|w l IH]; intros l' H; cbn [load_instances] in H.
  - congruence.
  - destruct (load_instance registry T w) as [o|] eqn:Ho; [|done].
    apply load_instance_Return in Ho as ->. cbn [mbind py_bind] in H.
    destruct (load_instances registry T l) as [os|]; [|done].
    cbn [mbind py_bind] in H. injection H as <-. by rewrite (IH os).
Qed.

Lemma collection_one_to_many_loaded (registry : list Model) (db : Database)
    (M T : Model) (self : Row) (name : string) (rel : Relationship) (fk : FK) :
  assoc name (properties M) = None →
  assoc name (relationships M) = Some rel →
  find_model registry (rel_argument rel) = Some T →
  head (filter (λ fk, fk_table fk = tablename T) (foreign_keys M)) = None →
  head (filter (λ fk, fk_table fk = tablename M) (foreign_keys T)) = Some fk →
  collection registry db M self name
  = match load_instances registry T
            (filter (λ w, is_Some (self !! fk_target fk)
                          ∧ w !! fk_col fk = self !! fk_target fk)
                    (table db (tablename T))) with
    | Return l => l
    | Raise _ => []
    end.
Proof.
  intros Hprop Hrel Hfind Hnone Hfk.
  unfold collection, getattr, getattr_mapped, load_relationship.
  rewrite Hprop, Hrel, Hfind, Hnone, Hfk.
  by destruct (load_instances _ _ _).
Qed.

Lemma collection_one_to_many (registry : list Model) (db : Database) (M T : Model)
    (self : Row) (name : string) (rel : Relationship) (fk : FK) :
  assoc name (properties M) = None →
  assoc name (relationships M) = Some rel →
  find_model registry (rel_argument rel) = Some T →
  head (filter (λ fk, fk_table fk = tablename T) (foreign_keys M)) = None →
  head (filter (λ fk, fk_table fk = tablename M) (foreign_keys T)) = Some fk →
  discriminator T = None →
  collection registry db M self name
  = filter (λ w, is_Some (self !! fk_target fk)
                 ∧ w !! fk_col fk = self !! fk_target fk)
           (table db (tablename T)).
Proof.
  intros Hprop Hrel Hfind Hnone Hfk Hplain.
  rewrite (collection_one_to_many_loaded _ _ _ T _ _ rel fk) by done.
  by rewrite load_instances_plain.
Qed.

Ltac one_to_many T rel fk :=
  apply (collection_one_to_many _ _ _ T _ _ rel fk); by_evaluation.


Lemma node_collections (STATUS_0 : string) (db : Database) (node : Row) :
  let registry := models STATUS_0 in
  collection registry db SurveyObservingSystem node "output_relationships"
    = referring db "survey_observing_system_data_product"
        "survey_observing_system_id" node
  ∧ collection registry db SurveyDataProduct node "input_relationships"
    = referring db "survey_observing_system_data_product"
        "survey_data_product_id" node
  ∧ collection registry db SurveyDataProduct node "output_relationships"
    = referring db "survey_data_product_application" "survey_data_product_id" node
  ∧ collection registry db SurveyApplication node "input_relationships"
    = referring db "survey_data_product_application" "survey_application_id" node
  ∧ collection registry db SurveyApplication node "output_relationships"
    = referring db "survey_application_societal_benefit_area"
        "survey_application_id" node
  ∧ collection registry db SurveySocietalBenefitArea node "input_relationships"
    = referring db "survey_application_societal_benefit_area"
        "survey_societal_benefit_area_id" node.
Proof.
  split_and!.
  - one_to_many SurveyObservingSystemDataProduct
      (relationship "SurveyObservingSystemDataProduct" (Some "observing_system")
         (Some "all, delete"))
      (mkFK "survey_observing_system_id" "survey_observing_system" "id").
  - one_to_many SurveyObservingSystemDataProduct
      (relationship "SurveyObservingSystemDataProduct" (Some "data_product")
         (Some "all, delete"))
      (mkFK "survey_data_product_id" "survey_data_product" "id").
  - one_to_many SurveyDataProductApplication
      (relationship "SurveyDataProductApplication" (Some "data_product")
         (Some "all, delete"))
      (mkFK "survey_data_product_id" "survey_data_product" "id").
  - one_to_many SurveyDataProductApplication
      (relationship "SurveyDataProductApplication" (Some "application")
         (Some "all, delete"))
      (mkFK "survey_application_id" "survey_application" "id").
  - one_to_many SurveyApplicationSocietalBenefitArea
      (relationship "SurveyApplicationSocietalBenefitArea" (Some "application")
         (Some "all, delete"))
      (mkFK "survey_application_id" "survey_application" "id").
  - one_to_many SurveyApplicationSocietalBenefitArea
      (relationship "SurveyApplicationSocietalBenefitArea"
         (Some "societal_benefit_area") (Some "all, delete"))
      (mkFK "survey_societal_benefit_area_id" "survey_societal_benefit_area" "id").
Qed.

Lemma edge_endpoints (STATUS_0 : string) (db : Database) (e : Row) :
  let registry := models STATUS_0 in
  related registry db SurveyObservingSystemDataProduct e "source"
    = (o ← object_with_id db "survey_observing_system"
             (e !! "survey_observing_system_id");
       match load_instance registry SurveyObservingSystem o with
       | Return o' => Some o'
       | Raise _ => None
       end)
  ∧ related registry db SurveyObservingSystemDataProduct e "target"
    = object_with_id db "survey_data_product" (e !! "survey_data_product_id")
  ∧ related registry db SurveyDataProductApplication e "source"
    = object_with_id db "survey_data_product" (e !! "survey_data_product_id")
  ∧ related registry db SurveyDataProductApplication e "target"
    = object_with_id db "survey_application" (e !! "survey_application_id")
  ∧ related registry db SurveyApplicationSocietalBenefitArea e "source"
    = object_with_id db "survey_application" (e !! "survey_application_id")
  ∧ related registry db SurveyApplicationSocietalBenefitArea e "target"
    = object_with_id db "survey_societal_benefit_area"
        (e !! "survey_societal_benefit_area_id").
Proof.
  pose proof (getattr_edge_endpoints STATUS_0 db e)
    as (H1 & H2 & H3 & H4 & H5 & H6).
  unfold related. rewrite H1, H2, H3, H4, H5, H6. split_and!; try done.
  unfold object_with_id. destruct (_ ≫= _) as [o|]; [|done].
  cbn [mbind option_bind]. by destruct (load_instance _ _ _).
Qed.

Import full_sankey.





(** *** The aggregation scenario *)










(** ** More on the input/output lookup *)

Lemma mapper_class__Return (registry : list Model) (rel : Relationship) (c : string) :
  mapper_class_ registry rel = Return c →
  ∃ T, T ∈ registry ∧ classname T = c ∧ c = rel_argument rel.
Proof.
  unfold mapper_class_. destruct (find_model registry (rel_argument rel)) as [T|] eqn:HT;
    [|discriminate].
  intros [= <-]. exists T.
  apply head_Some_elem_of in HT. apply list_elem_of_filter in HT as [? ?].
  done.
Qed.

(** X1: whenever the lookup returns, the dictionary is not empty, has no key
    besides ['input'] and ['output'], has ['input'] exactly when the class
    declares [input_relationships] and ['output'] exactly when it declares
    [output_relationships], and each value is the class the relationship
    names, which is a mapped class. *)
Theorem io_lookup_result_shape (registry : list Model) (M : Model)
    (io : IORelationship) :
  __io__ registry M = Return io →
  io ≠ ∅
  ∧ (∀ k, is_Some (io !! k) → k = "input" ∨ k = "output")
  ∧ (is_Some (io !! "input")
     ↔ is_Some (assoc "input_relationships" (relationships M)))
  ∧ (is_Some (io !! "output")
     ↔ is_Some (assoc "output_relationships" (relationships M)))
  ∧ (∀ k c, io !! k = Some c →
       ∃ T rel, T ∈ registry ∧ classname T = c ∧ rel_argument rel = c
                ∧ assoc (k +:+ "_relationships") (relationships M) = Some rel).
Proof.
  unfold __io__.
  destruct (assoc "input_relationships" (relationships M)) as [rin|] eqn:Hin;
    destruct (assoc "output_relationships" (relationships M)) as [rout|] eqn:Hout;
    simpl;
    repeat match goal with
    | |- context [mapper_class_ registry ?rel] =>
        let c := fresh "c" in let Hc := fresh "Hc" in
        destruct (mapper_class_ registry rel) as [c|] eqn:Hc; simpl; [|done];
        apply mapper_class__Return in Hc as (? & ? & ? & ?)
    end;
    case_decide as Hempty;
    try done; try (by apply insert_non_empty in Hempty);
    intros [= <-];
    (split_and!;
     [ apply insert_non_empty
     | intros k [c' Hk]
     | split; intros [? Hk]
     | split; intros [? Hk]
     | intros k c' Hk ]);
    repeat (rewrite lookup_insert in * || rewrite lookup_empty in * );
    repeat case_decide; simplify_eq; eauto 10.
Qed.

Lemma io_lookup_result_shape_witness :
  is_Some ((<["input" := "SurveyObservingSystemDataProduct"]>
              {["output" := "SurveyDataProductApplication"]} : IORelationship)
           !! "input")
  ↔ is_Some (assoc "input_relationships" (relationships SurveyDataProduct)).
Proof.
  refine (proj1 (proj2 (proj2 (io_lookup_result_shape (models "draft")
            SurveyDataProduct _ _)))).
  by_evaluation.
Defined.

Lemma find_model_app_l (l k : list Model) (cls : string) (M : Model) :
  find_model l cls = Some M → find_model (l ++ k) cls = Some M.
Proof.
  unfold find_model. rewrite filter_app.
  destruct (filter _ l); [done|]. done.
Qed.

(** X2: the lookup is memoised per class: once a call has returned a
    dictionary, every later call for the same class returns that dictionary
    and leaves the state alone, also after further classes have been
    defined. *)
Theorem io_lookup_is_memoised (cls : string) (st st' : PyState)
    (io : IORelationship) :
  exec_stmt (Call_io cls) st = (Return (Some io), st') →
  exec_stmt (Call_io cls) st' = (Return (Some io), st')
  ∧ ∀ M st'',
      exec_stmt (ClassDef M) st' = (Return None, st'') →
      exec_stmt (Call_io cls) st'' = (Return (Some io), st'').
Proof.
  intros Hcall.
  assert (∃ C, find_model (classes st') cls = Some C
               ∧ "IORelationshipMixin" ∈ bases C
               ∧ io_cache st' !! cls = Some io) as (C & HC & Hmixin & Hcache).
  { simpl in Hcall.
    destruct (find_model (classes st) cls) as [C|] eqn:HC; [|by simplify_eq].
    case_decide as Hmixin; [|by simplify_eq].
    destruct (io_cache st !! cls) as [io0|] eqn:Hcache.
    - simplify_eq. eauto.
    - destruct (__io__ (classes st) C) as [io1|e]; simplify_eq.
      exists C. simpl. split_and!; [done|done|apply lookup_insert_eq]. }
  split.
  - simpl. rewrite HC. rewrite decide_True by done. by rewrite Hcache.
  - intros M st'' Hdef. simpl in Hdef.
    repeat case_decide; simplify_eq.
    simpl. rewrite (find_model_app_l _ _ _ C) by done.
    rewrite decide_True by done. by rewrite Hcache.
Qed.

Lemma io_lookup_is_memoised_witness :
  let st' := snd (exec_stmt (Call_io "SurveyApplication") (imported "draft")) in
  exec_stmt (Call_io "SurveyApplication") st'
  = (Return (Some (<["input" := "SurveyDataProductApplication"]>
                     {["output" := "SurveyApplicationSocietalBenefitArea"]})),
     st').
Proof.
  refine (proj1 (io_lookup_is_memoised "SurveyApplication" (imported "draft") _ _ _)).
  by_evaluation.
Defined.
(** ** The magic strings of the module *)

Lemma load_instance_cases (registry : list Model) (T : Model) (w : Row) :
  load_instance registry T w = Return w
  ∨ load_instance registry T w
    = Raise (AssertionError "No such polymorphic_identity is defined")
    ∧ is_Some (discriminator T).
Proof.
  unfold load_instance. destruct (discriminator T); [|by left].
  destruct (w !! _); [|by left]. case_decide; [by left|right]. by split.
Qed.

Lemma load_instances_cases (registry : list Model) (T : Model) (l : list Row) :
  load_instances registry T l = Return l
  ∨ load_instances registry T l
    = Raise (AssertionError "No such polymorphic_identity is defined")
    ∧ is_Some (discriminator T).
Proof.
  induction l as [|w l IH]; [by left|]. cbn [load_instances].
  destruct (load_instance_cases registry T w) as [->|[-> ?]]; [|by right].
  cbn [mbind py_bind]. destruct IH as [->|[-> ?]]; [by left|by right].
Qed.

Lemma relationship_resolves_loads (registry : list Model) (db : Database)
    (M : Model) (self : Row) (name : string) (rel : Relationship) :
  relationship_resolves registry M name rel = true →
  (∃ a, load_relationship registry db M self rel = Return a)
  ∨ load_relationship registry db M self rel
    = Raise (AssertionError "No such polymorphic_identity is defined")
    ∧ ∃ T, find_model registry (rel_argument rel) = Some T
           ∧ is_Some (discriminator T).
Proof.
  unfold relationship_resolves, load_relationship.
  destruct (find_model registry (rel_argument rel)) as [T|]; [|done].
  intros [Hjoin _]%andb_prop. apply bool_decide_eq_true_1 in Hjoin.
  unfold joining_keys in Hjoin.
  destruct (filter (λ fk, fk_table fk = tablename T) (foreign_keys M)) as [|fk l];
    cbn [head].
  - destruct (filter (λ fk, fk_table fk = tablename M) (foreign_keys T)) as [|fk l];
      cbn [head]; [done|].
    destruct (load_instances_cases registry T
                (filter (λ w, is_Some (self !! fk_target fk)
                              ∧ w !! fk_col fk = self !! fk_target fk)
                        (table db (tablename T)))) as [->|[-> ?]].
    + left. by eexists.
    + right. split; [done|]. by exists T.
  - destruct (_ ≫= _) as [w|]; [|left; by eexists].
    destruct (load_instance_cases registry T w) as [->|[-> ?]].
    + left. by eexists.
    + right. split; [done|]. by exists T.
Qed.

(** X3: the strings the module's docstring warns about do match: in every
    mapped class, every [relationship] names a mapped class, is joined to it
    by exactly one foreign key and is back-populated consistently; every
    [ForeignKey] names the primary key of an existing table; every property
    returns a declared relationship.  So reading a declared relationship of
    any object, in any database, never fails for want of a class or of a
    join; the one failure left is the mapper of [SurveyObservingSystem]
    refusing a row of its table. *)
Theorem magic_strings_resolve (STATUS_0 : string) :
  let registry := models STATUS_0 in
  Forall (λ M,
      Forall (λ p, relationship_resolves registry M p.1 p.2 = true) (relationships M)
      ∧ Forall (λ fk, foreign_key_resolves registry fk = true) (foreign_keys M)
      ∧ Forall (λ p, is_Some (assoc p.2 (relationships M))) (properties M))
    registry
  ∧ ∀ db M self name rel,
      M ∈ registry → (name, rel) ∈ relationships M →
      (∃ a, load_relationship registry db M self rel = Return a)
      ∨ load_relationship registry db M self rel
        = Raise (AssertionError "No such polymorphic_identity is defined")
        ∧ rel_argument rel = "SurveyObservingSystem".
Proof.
  assert (Forall (λ M,
      Forall (λ p, relationship_resolves (models STATUS_0) M p.1 p.2 = true)
             (relationships M)
      ∧ Forall (λ fk, foreign_key_resolves (models STATUS_0) fk = true)
               (foreign_keys M)
      ∧ Forall (λ p, is_Some (assoc p.2 (relationships M))) (properties M))
    (models STATUS_0)) as Hall by by_evaluation.
  split; [exact Hall|].
  intros db M self name rel HM Hrel.
  rewrite Forall_forall in Hall. destruct (Hall M HM) as (Hrels & _ & _).
  rewrite Forall_forall in Hrels.
  destruct (relationship_resolves_loads (models STATUS_0) db M self name rel
              (Hrels (name, rel) Hrel)) as [?|(Hraise & T & HT & Hpoly)];
    [by left|right].
  split; [done|].
  apply find_model_Some in HT as [HT <-].
  assert (Forall (λ T, is_Some (discriminator T) →
                       classname T = "SurveyObservingSystem") (models STATUS_0))
    as Honly by by_evaluation.
  rewrite Forall_forall in Honly. by apply Honly.
Qed.

Lemma magic_strings_resolve_witness :
  (∃ a, load_relationship (models "draft") setup_db (Survey "draft")
          example_survey (relationship "User" (Some "surveys") None) = Return a)
  ∨ load_relationship (models "draft") setup_db (Survey "draft")
      example_survey (relationship "User" (Some "surveys") None)
    = Raise (AssertionError "No such polymorphic_identity is defined")
    ∧ rel_argument (relationship "User" (Some "surveys") None)
      = "SurveyObservingSystem".
Proof.
  refine (proj2 (magic_strings_resolve "draft") setup_db (Survey "draft")
            example_survey "created_by" (relationship "User" (Some "surveys") None)
            _ _); by_evaluation.
Defined.

(** X4: the lookup and the edges agree: the class a node type's lookup
    gives under ['output'] is an edge variant whose [source] is that node
    type, and the class it gives under ['input'] is an edge variant whose
    [target] is that node type. *)
Theorem io_lookup_agrees_with_edges (STATUS_0 : string) (N : Model)
    (io : IORelationship) (c : string) :
  let registry := models STATUS_0 in
  N ∈ SurveyNode → __io__ registry N = Return io →
  (io !! "output" = Some c →
   ∃ E, find_model registry c = Some E ∧ E ∈ edge_models
        ∧ endpoint_class registry E "source" = Some N)
  ∧ (io !! "input" = Some c →
     ∃ E, find_model registry c = Some E ∧ E ∈ edge_models
          ∧ endpoint_class registry E "target" = Some N).
Proof.
  intros registry HN Hio. subst registry. unfold SurveyNode in HN.
  repeat (apply elem_of_cons in HN as [->|HN]); [| | | |by apply elem_of_nil in HN].
  - assert (__io__ (models STATUS_0) SurveyObservingSystem
            = Return {["output" := "SurveyObservingSystemDataProduct"]}) as Heq
      by by_evaluation.
    rewrite Heq in Hio. injection Hio as <-. split; intros Hc.
    + assert (c = "SurveyObservingSystemDataProduct") as ->.
      { revert Hc. rewrite lookup_singleton_eq. congruence. }
      exists SurveyObservingSystemDataProduct. split_and!; by_evaluation.
    + revert Hc. rewrite lookup_singleton_ne by done. done.
  - assert (__io__ (models STATUS_0) SurveyDataProduct
            = Return (<["input" := "SurveyObservingSystemDataProduct"]>
                        {["output" := "SurveyDataProductApplication"]})) as Heq
      by by_evaluation.
    rewrite Heq in Hio. injection Hio as <-. split; intros Hc.
    + assert (c = "SurveyDataProductApplication") as ->.
      { revert Hc. rewrite lookup_insert_ne by done.
        rewrite lookup_singleton_eq. congruence. }
      exists SurveyDataProductApplication. split_and!; by_evaluation.
    + assert (c = "SurveyObservingSystemDataProduct") as ->.
      { revert Hc. rewrite lookup_insert_eq. congruence. }
      exists SurveyObservingSystemDataProduct. split_and!; by_evaluation.
  - assert (__io__ (models STATUS_0) SurveyApplication
            = Return (<["input" := "SurveyDataProductApplication"]>
                        {["output" := "SurveyApplicationSocietalBenefitArea"]}))
      as Heq by by_evaluation.
    rewrite Heq in Hio. injection Hio as <-. split; intros Hc.
    + assert (c = "SurveyApplicationSocietalBenefitArea") as ->.
      { revert Hc. rewrite lookup_insert_ne by done.
        rewrite lookup_singleton_eq. congruence. }
      exists SurveyApplicationSocietalBenefitArea. split_and!; by_evaluation.
    + assert (c = "SurveyDataProductApplication") as ->.
      { revert Hc. rewrite lookup_insert_eq. congruence. }
      exists SurveyDataProductApplication. split_and!; by_evaluation.
  - assert (__io__ (models STATUS_0) SurveySocietalBenefitArea
            = Return {["input" := "SurveyApplicationSocietalBenefitArea"]}) as Heq
      by by_evaluation.
    rewrite Heq in Hio. injection Hio as <-. split; intros Hc.
    + revert Hc. rewrite lookup_singleton_ne by done. done.
    + assert (c = "SurveyApplicationSocietalBenefitArea") as ->.
      { revert Hc. rewrite lookup_singleton_eq. congruence. }
      exists SurveyApplicationSocietalBenefitArea. split_and!; by_evaluation.
Qed.

Lemma io_lookup_agrees_with_edges_witness :
  ∃ E, find_model (models "draft") "SurveyDataProductApplication" = Some E
       ∧ E ∈ edge_models
       ∧ endpoint_class (models "draft") E "source" = Some SurveyDataProduct.
Proof.
  refine (proj1 (io_lookup_agrees_with_edges "draft" SurveyDataProduct
            (<["input" := "SurveyObservingSystemDataProduct"]>
               {["output" := "SurveyDataProductApplication"]})
            "SurveyDataProductApplication" _ _) _); by_evaluation.
Defined.

(** ** Edges seen from both sides *)

Lemma same_key_same_row {K} (key : Row → option K) (rows : list Row)
    (a b : Row) (k : K) :
  NoDup (omap key rows) → a ∈ rows → b ∈ rows →
  key a = Some k → key b = Some k → a = b.
Proof.
  intros Hnd [i Hi]%list_elem_of_lookup [j Hj]%list_elem_of_lookup Ha Hb.
  assert (i = j) as -> by eauto using NoDup_omap_lookup.
  congruence.
Qed.

Lemma key_of_id (r : Row) (v : value) :
  r !! "id" = Some v → key_of ["id"] r = Some [v].
Proof. intros H. unfold key_of. simpl. by rewrite H. Qed.

Lemma related_iff_referring (db : Database) (tN tE col : string) (e n : Row) :
  NoDup (omap (key_of ["id"]) (table db tN)) →
  n ∈ table db tN → e ∈ table db tE →
  object_with_id db tN (e !! col) = Some n ↔ e ∈ referring db tE col n.
Proof.
  intros Hnd Hn He. unfold referring, object_with_id.
  rewrite list_elem_of_filter. split.
  - destruct (e !! col) as [v|] eqn:Hv; [|done]. simpl.
    intros Hhead%head_Some_elem_of. apply list_elem_of_filter in Hhead as [Hid _].
    rewrite Hid. split; [split; [by eexists|done]|done].
  - intros [[[v Hv] Heq] _]. rewrite Heq, Hv. simpl.
    destruct (head_filter_Exists (λ w, w !! "id" = Some v) (table db tN))
      as (n' & Hhead & Hid & Hn').
    { apply Exists_exists. by exists n. }
    rewrite Hhead. f_equal.
    eapply (same_key_same_row (key_of ["id"])); eauto using key_of_id.
Qed.

(** X5: an edge and its nodes see each other: in every state the database
    can reach, for each edge variant and each of its two sides, [source]
    (or [target]) of an edge returns a given node exactly when the edge is in
    that node's [output_relationships] (or [input_relationships]) and the
    node can be loaded, which every node can but an observing system whose
    [type] is not [other]. *)
Theorem accessors_and_collections_agree (STATUS_0 : string) (db : Database)
    (E N : Model) (name coll : string) (e n : Row) :
  let registry := models STATUS_0 in
  reachable registry db →
  (E, name, N, coll) ∈ edge_sides →
  e ∈ table db (tablename E) → n ∈ table db (tablename N) →
  (related registry db E e name = Some n
   ↔ e ∈ collection registry db N n coll ∧ load_instance registry N n = Return n)
  ∧ (load_instance registry N n = Return n
     ∨ N = SurveyObservingSystem ∧ ∃ v, n !! "type" = Some v ∧ v ≠ VStr "other").
Proof.
  intros registry Hc%models_consistent Hside He Hn. subst registry.
  pose proof (edge_endpoints STATUS_0 db e) as (R1 & R2 & R3 & R4 & R5 & R6).
  pose proof (node_collections STATUS_0 db n) as (C1 & C2 & C3 & C4 & C5 & C6).
  cbv zeta in *.
  assert (∀ M, M ∈ models STATUS_0 → ["id"] ∈ unique_keys M →
               NoDup (omap (key_of ["id"]) (table db (tablename M)))) as Hids.
  { intros M HM Hkey. destruct (Hc M HM) as (_ & Huniq & _).
    rewrite Forall_forall in Huniq. by apply Huniq. }
  assert (∀ (obj : option Row) (l : list Row),
            discriminator N = None →
            related (models STATUS_0) db E e name = obj →
            (obj = Some n ↔ e ∈ l) →
            collection (models STATUS_0) db N n coll = l →
            (related (models STATUS_0) db E e name = Some n
             ↔ e ∈ collection (models STATUS_0) db N n coll
               ∧ load_instance (models STATUS_0) N n = Return n)
            ∧ (load_instance (models STATUS_0) N n = Return n
               ∨ N = SurveyObservingSystem
                 ∧ ∃ v, n !! "type" = Some v ∧ v ≠ VStr "other")) as Hplain.
  { intros obj l Hd -> Hiff ->. rewrite (load_instance_plain _ N n Hd).
    split; [|by left]. rewrite Hiff. tauto. }
  unfold edge_sides in Hside.
  repeat (apply elem_of_cons in Hside as [[= -> -> -> ->]|Hside]);
    [| | | | | |by apply elem_of_nil in Hside].
  - rewrite R1, C1, load_observing_system.
    pose proof (related_iff_referring db "survey_observing_system"
                  "survey_observing_system_data_product"
                  "survey_observing_system_id" e n) as Hiff.
    split.
    + rewrite <- Hiff; [|apply (Hids SurveyObservingSystem); by_evaluation|done..].
      destruct (object_with_id db "survey_observing_system"
                  (e !! "survey_observing_system_id")) as [o|] eqn:Ho;
        cbn [mbind option_bind].
      * rewrite load_observing_system. split.
        -- destruct (o !! "type") as [v|] eqn:Hv.
           ++ case_decide; [|done]. intros [= ->]. rewrite Hv.
              by rewrite decide_True.
           ++ intros [= ->]. by rewrite Hv.
        -- intros [[= ->] Hload]. destruct (n !! "type") as [v|]; [|done].
           by case_decide.
      * split; [done|]. by intros [? _].
    + destruct (n !! "type") as [v|] eqn:Hv; [|by left].
      case_decide; [by left|right]. split; [done|]. by exists v.
  - eapply Hplain; [by_evaluation|exact R2| |exact C2].
    apply related_iff_referring; [|done..].
    apply (Hids SurveyDataProduct); by_evaluation.
  - eapply Hplain; [by_evaluation|exact R3| |exact C3].
    apply related_iff_referring; [|done..].
    apply (Hids SurveyDataProduct); by_evaluation.
  - eapply Hplain; [by_evaluation|exact R4| |exact C4].
    apply related_iff_referring; [|done..].
    apply (Hids SurveyApplication); by_evaluation.
  - eapply Hplain; [by_evaluation|exact R5| |exact C5].
    apply related_iff_referring; [|done..].
    apply (Hids SurveyApplication); by_evaluation.
  - eapply Hplain; [by_evaluation|exact R6| |exact C6].
    apply related_iff_referring; [|done..].
    apply (Hids SurveySocietalBenefitArea); by_evaluation.
Qed.

Lemma accessors_and_collections_agree_witness :
  related (models "draft") cross_survey_db SurveyObservingSystemDataProduct
    stored_O_D "source" = Some stored_O
  ↔ stored_O_D ∈ collection (models "draft") cross_survey_db SurveyObservingSystem
                   stored_O "output_relationships"
    ∧ load_instance (models "draft") SurveyObservingSystem stored_O
      = Return stored_O.
Proof.
  refine (proj1 (accessors_and_collections_agree "draft" cross_survey_db
            SurveyObservingSystemDataProduct SurveyObservingSystem
            "source" "output_relationships" stored_O_D stored_O
            cross_survey_db_reachable _ _ _)); by_evaluation.
Defined.

(** ** Columns the caller leaves out *)

Lemma fill_default_other (env : Env) (rows : list Row) (col : Column)
    (r r' : Row) (k k' : nat) (c : string) :
  fill_default env rows (Ok (r, k)) col = Ok (r', k') →
  c ≠ col_name col → r' !! c = r !! c.
Proof.
  unfold fill_default. simpl. intros H Hc.
  destruct (r !! col_name col) as [w|]; [by simplify_eq|].
  destruct (col_default col) as [[w| |]|]; simpl in H.
  - simplify_eq. by rewrite lookup_insert_ne.
  - destruct (current_user_id env); simpl in H; simplify_eq.
    by rewrite lookup_insert_ne.
  - simplify_eq. by rewrite lookup_insert_ne.
  - destruct (is_autoincrement col); simplify_eq; [by rewrite lookup_insert_ne|done].
Qed.

Lemma fill_default_missing (env : Env) (rows : list Row) (col : Column)
    (r r' : Row) (k k' : nat) :
  fill_default env rows (Ok (r, k)) col = Ok (r', k') →
  r !! col_name col = None →
  r' !! col_name col = default_value env rows col k.
Proof.
  unfold fill_default, default_value. simpl. intros H Hc. rewrite Hc in H.
  destruct (col_default col) as [[w| |]|]; simpl in H.
  - simplify_eq. by rewrite lookup_insert_eq.
  - destruct (current_user_id env); simpl in H; simplify_eq.
    by rewrite lookup_insert_eq.
  - simplify_eq. by rewrite lookup_insert_eq.
  - destruct (is_autoincrement col); simplify_eq; [by rewrite lookup_insert_eq|done].
Qed.

Lemma fill_default_value_kept (env : Env) (rows : list Row) (cols : list Column)
    (r r' : Row) (k k' : nat) (c : string) :
  foldl (fill_default env rows) (Ok (r, k)) cols = Ok (r', k') →
  c ∉ col_name <$> cols → r' !! c = r !! c.
Proof.
  revert r k. induction cols as [|col cols IH]; intros r k H Hc; cbn [foldl] in H.
  - by simplify_eq.
  - rewrite fmap_cons in Hc. apply not_elem_of_cons in Hc as [Hne Hc].
    destruct (fill_default env rows (Ok (r, k)) col) as [[r1 k1]|e] eqn:Hstep;
      [|by rewrite foldl_fill_default_Err in H].
    rewrite (IH _ _ H Hc). by eapply fill_default_other.
Qed.

Lemma foldl_fill_default_column (env : Env) (rows : list Row) (cols : list Column)
    (col : Column) (r r' : Row) (k k' : nat) :
  foldl (fill_default env rows) (Ok (r, k)) cols = Ok (r', k') →
  NoDup (col_name <$> cols) → col ∈ cols → r !! col_name col = None →
  ∃ k0, r' !! col_name col = default_value env rows col k0.
Proof.
  revert r k. induction cols as [|c cols IH]; intros r k H Hnd Hin Hnone;
    [by apply elem_of_nil in Hin|].
  cbn [foldl] in H. rewrite fmap_cons in Hnd. apply NoDup_cons in Hnd as [Hc Hnd].
  destruct (fill_default env rows (Ok (r, k)) c) as [[r1 k1]|e] eqn:Hstep;
    [|by rewrite foldl_fill_default_Err in H].
  apply elem_of_cons in Hin as [->|Hin].
  - exists k. rewrite (fill_default_value_kept _ _ _ _ _ _ _ _ H Hc).
    by eapply fill_default_missing.
  - apply (IH r1 k1); [done..|].
    erewrite fill_default_other; [done|done|].
    intros Heq. apply Hc. rewrite <- Heq. by apply list_elem_of_fmap_2.
Qed.

Lemma models_column_names_distinct (STATUS_0 : string) :
  Forall (λ M, NoDup (col_name <$> columns M)) (models STATUS_0).
Proof. by_evaluation. Qed.

Lemma discriminators_are_columns (STATUS_0 : string) :
  Forall (λ M, Forall (λ c, c ∈ col_name <$> columns M)
                      (option_list (discriminator M))
               ∧ Forall (λ col, filled_by_constructor M col →
                                col_default col = None
                                ∧ col_foreign_keys col = []) (columns M))
         (models STATUS_0).
Proof. by_evaluation. Qed.

Lemma apply_defaults_missing (STATUS_0 : string) (M : Model) (env : Env)
    (rows : list Row) (kwargs r : Row) (col : Column) :
  M ∈ models STATUS_0 → col ∈ columns M →
  apply_defaults env M rows kwargs = Ok r →
  kwargs !! col_name col = None →
  ∃ k, r !! col_name col = stored_default env M rows col k.
Proof.
  intros HM Hcol Happly Hnone.
  pose proof (models_column_names_distinct STATUS_0) as Hnd.
  rewrite Forall_forall in Hnd. specialize (Hnd M HM).
  unfold apply_defaults in Happly.
  destruct (foldl _ _ _) as [[r' k']|e] eqn:Hfold; simpl in Happly; [|done].
  simplify_eq. unfold stored_default.
  pose proof (init_polymorphic_lookup M kwargs (col_name col)) as Hinit.
  rewrite Hnone in Hinit.
  destruct (decide (filled_by_constructor M col)) as [[Hd [v Hv]]|Hno].
  - exists 0%nat. rewrite decide_True, Hv in Hinit by done.
    rewrite Hv. by eapply foldl_fill_default_keeps.
  - eapply foldl_fill_default_column; [done..|].
    rewrite Hinit. case_decide as Hd; [|done].
    destruct (identity M) as [v|] eqn:Hv; [|done].
    destruct Hno. split; [done|by eexists].
Qed.

(** X6: defaults do not interfere: when a row of any mapped class is
    inserted, every value the caller supplied is stored as given, and every
    column the caller left out holds exactly what the class says: the
    polymorphic identity in the column the class is polymorphic on, and
    otherwise what the column's own declaration gives: its scalar default,
    the logged-in user's id, a reading of the clock, the identifier the
    backend hands out for an [autoincrement] column, and nothing where none
    of these is declared. *)
Theorem defaults_fill_only_gaps (STATUS_0 : string) (M : Model) (env : Env)
    (rows : list Row) (kwargs r : Row) :
  M ∈ models STATUS_0 →
  apply_defaults env M rows kwargs = Ok r →
  (∀ c v, kwargs !! c = Some v → r !! c = Some v)
  ∧ (∀ col, col ∈ columns M → kwargs !! col_name col = None →
       ∃ k, r !! col_name col = stored_default env M rows col k)
  ∧ (∀ c, c ∉ col_name <$> columns M → r !! c = kwargs !! c).
Proof.
  intros HM Happly.
  split_and!.
  - intros c v Hc. by eapply apply_defaults_keeps.
  - intros col Hcol Hnone. by eapply apply_defaults_missing.
  - intros c Hc. unfold apply_defaults in Happly.
    destruct (foldl _ _ _) as [[r' k']|e] eqn:Hfold; simpl in Happly; [|done].
    simplify_eq. rewrite (fill_default_value_kept _ _ _ _ _ _ _ _ Hfold Hc).
    rewrite init_polymorphic_lookup.
    destruct (kwargs !! c); [done|]. rewrite decide_False; [done|].
    intros Hd. apply Hc.
    pose proof (discriminators_are_columns STATUS_0) as Hcols.
    rewrite Forall_forall in Hcols. destruct (Hcols M HM) as [Hin _].
    rewrite Hd in Hin. rewrite Forall_forall in Hin. apply Hin.
    change (option_list (Some c)) with [c]. by left.
Qed.

Lemma defaults_fill_only_gaps_witness :
  ∃ k, stored_O !! "type"
       = stored_default example_env SurveyObservingSystem []
           (column "type" (Enum "ObservingSystemType") [nullable false]) k.
Proof.
  refine (proj1 (proj2 (defaults_fill_only_gaps "draft" SurveyObservingSystem
            example_env [] (row ([("survey_id", VInt 1)] ++ described "O"))
            stored_O _ _))
            (column "type" (Enum "ObservingSystemType") [nullable false])
            _ _); by_evaluation.
Defined.

(** X7: a column that is declared [nullable=False], has no default and is
    filled neither by the database nor by the constructor has to be
    supplied: an INSERT or UPDATE of any mapped class that leaves such a
    column out is rejected.  ([SurveyObservingSystem.type] is no such column:
    the constructor fills it.) *)
Theorem required_columns_must_be_given (STATUS_0 : string) (M : Model)
    (col : Column) (o : op) (r : Row) (db : Database) :
  M ∈ models STATUS_0 → col ∈ columns M → required M col →
  writes o (classname M) r → r !! col_name col = None →
  ∃ e, exec (models STATUS_0) o db = Err e.
Proof.
  intros HM Hcol (Hnn & Hdef & Hauto & Hctor) Hw Hnone.
  destruct (exec (models STATUS_0) o db) as [db'|e] eqn:Hexec; [|by eexists].
  exfalso.
  assert (∀ stored, row_ok M stored → stored !! col_name col = None → False)
    as Hstored.
  { intros stored Hok Hmissing.
    destruct (row_ok_column M col stored Hok Hcol) as [Hty _].
    rewrite Hmissing in Hty. congruence. }
  destruct o as [cls env kwargs|cls i new|cls i]; simpl in Hw; [| |done];
    destruct Hw as [-> ->]; simpl in Hexec;
    rewrite (find_model_elem _ (models_classnames_distinct STATUS_0)) in Hexec
      by done;
    simpl in Hexec; inv_result.
  - apply validate_Ok in Ha1 as (Hok & _ & _).
    apply (Hstored a0 Hok).
    destruct (apply_defaults_missing STATUS_0 M env _ r a0 col HM Hcol Ha0 Hnone)
      as [k ->].
    unfold stored_default, default_value.
    by rewrite decide_False, Hdef, Hauto.
  - apply validate_Ok in Ha0 as (Hok & _ & _). by apply (Hstored r Hok).
Qed.

Lemma required_columns_must_be_given_witness :
  ∃ e, exec (models "draft")
         (Insert "SurveyDataProduct" example_env (row [("survey_id", VInt 1)]))
         setup_db
       = Err e.
Proof.
  refine (required_columns_must_be_given "draft" SurveyDataProduct
            (column "short_name" (String_ (Some 256%nat)) [nullable false])
            (Insert "SurveyDataProduct" example_env (row [("survey_id", VInt 1)]))
            (row [("survey_id", VInt 1)]) setup_db _ _ _ _ _).
  - by_evaluation.
  - by_evaluation.
  - split_and!; by_evaluation.
  - split; reflexivity.
  - by_evaluation.
Defined.

Lemma exec_insert_Ok (STATUS_0 : string) (M : Model) (env : Env) (kwargs : Row)
    (db db' : Database) :
  M ∈ models STATUS_0 →
  exec (models STATUS_0) (Insert (classname M) env kwargs) db = Ok db' →
  ∃ r, apply_defaults env M (table db (tablename M)) kwargs = Ok r
       ∧ db' = <[tablename M := table db (tablename M) ++ [r]]> db.
Proof.
  intros HM Hexec. simpl in Hexec.
  rewrite (find_model_elem _ (models_classnames_distinct STATUS_0)) in Hexec
    by done.
  simpl in Hexec. inv_result. by exists a0.
Qed.

(** X14: storing an observing system and loading it again: the row an
    accepted insert of a [SurveyObservingSystem] adds holds the type the
    caller gave, and [other] when the caller gave none; the mapper loads the
    row again exactly when that type is [other], and raises for every other
    type, [observational] and [research] included. *)
Theorem observing_system_round_trip (STATUS_0 : string) (env : Env)
    (kwargs : Row) (db db' : Database) :
  exec (models STATUS_0) (Insert "SurveyObservingSystem" env kwargs) db = Ok db' →
  ∃ r, table db' "survey_observing_system"
       = table db "survey_observing_system" ++ [r]
       ∧ r !! "type" = Some (default (VStr "other") (kwargs !! "type"))
       ∧ load_instance (models STATUS_0) SurveyObservingSystem r
         = if decide (r !! "type" = Some (VStr "other"))
           then Return r
           else Raise (AssertionError "No such polymorphic_identity is defined").
Proof.
  intros Hexec.
  apply (exec_insert_Ok STATUS_0 SurveyObservingSystem) in Hexec
    as (r & Ha0 & ->); [|by_evaluation].
  exists r. rewrite table_insert, decide_True by done.
  split; [done|].
  assert (Htype : r !! "type" = Some (default (VStr "other") (kwargs !! "type"))).
  { destruct (kwargs !! "type") as [v|] eqn:Hv.
    - by apply (apply_defaults_keeps _ _ _ _ _ _ _ Ha0).
    - destruct (apply_defaults_missing STATUS_0 SurveyObservingSystem env
                  (table db (tablename SurveyObservingSystem))
                  kwargs r (column "type" (Enum "ObservingSystemType")
                                   [nullable false])) as [k Hr];
        [by_evaluation|by_evaluation|done|done|].
      cbn [col_name] in Hr. rewrite Hr.
      unfold stored_default. rewrite decide_True by by_evaluation.
      reflexivity. }
  split; [done|].
  rewrite load_observing_system, Htype.
  destruct (decide (default (VStr "other") (kwargs !! "type") = VStr "other"))
    as [Heq|Hne].
  - rewrite decide_True; [done|]. by rewrite Heq.
  - rewrite decide_False; [done|]. congruence.
Qed.

Lemma observing_system_round_trip_witness :
  ∃ r, table (run_or_empty "draft" (take 8 research_ops)) "survey_observing_system"
       = table setup_db "survey_observing_system" ++ [r]
       ∧ r !! "type" = Some (VStr "research")
       ∧ load_instance (models "draft") SurveyObservingSystem r
         = if decide (r !! "type" = Some (VStr "other"))
           then Return r
           else Raise (AssertionError "No such polymorphic_identity is defined").
Proof.
  refine (observing_system_round_trip "draft" example_env research_system
            setup_db (run_or_empty "draft" (take 8 research_ops)) _).
  by_evaluation.
Defined.

(** ** Referential integrity *)

(** X8: no foreign key dangles: in every state the database can reach, a
    row of any mapped class whose foreign-key column is set refers to a row
    that exists in the referenced table; so every node belongs to an existing
    survey, every survey has an existing creator and status, and every edge
    endpoint that is set is an existing node. *)
Theorem foreign_keys_never_dangle (STATUS_0 : string) (db : Database)
    (M : Model) (r : Row) (fk : FK) (v : value) :
  reachable (models STATUS_0) db →
  M ∈ models STATUS_0 → r ∈ table db (tablename M) →
  fk ∈ foreign_keys M → r !! fk_col fk = Some v →
  ∃ target, target ∈ table db (fk_table fk) ∧ target !! fk_target fk = Some v.
Proof.
  intros Hc%models_consistent HM Hr Hfk Hv.
  destruct (fk_target_exists _ _ _ _ _ Hc HM Hr Hfk) as [Hnull|Hex]; [congruence|].
  apply Exists_exists in Hex as (target & Htarget & Heq).
  exists target. split; [done|congruence].
Qed.

Lemma foreign_keys_never_dangle_witness :
  ∃ target, target ∈ table cross_survey_db "survey"
            ∧ target !! "id" = Some (VInt 2).
Proof.
  refine (foreign_keys_never_dangle "draft" cross_survey_db SurveyDataProduct
            stored_D (mkFK "survey_id" "survey" "id") (VInt 2)
            cross_survey_db_reachable _ _ _ _); by_evaluation.
Defined.

(** X9: keys are keys: in every state the database can reach, two different
    rows of a table never agree on its primary key, on a [unique=True]
    column, on a [UniqueConstraint] or on a unique [Index]; in particular no
    two users share an email address and no two rows of a table share an
    id. *)
Theorem declared_keys_are_unique (STATUS_0 : string) (db : Database)
    (M : Model) (cols : list string) (i j : nat) (a b : Row) (k : list value) :
  reachable (models STATUS_0) db →
  M ∈ models STATUS_0 → cols ∈ unique_keys M →
  table db (tablename M) !! i = Some a →
  table db (tablename M) !! j = Some b →
  key_of cols a = Some k → key_of cols b = Some k →
  i = j
  ∧ ["email"] ∈ unique_keys User
  ∧ Forall (λ M, primary_key_columns M ∈ unique_keys M) (models STATUS_0).
Proof.
  intros Hc%models_consistent HM Hcols Hi Hj Ha Hb.
  split; [|split; by_evaluation].
  destruct (Hc M HM) as (_ & Huniq & _). rewrite Forall_forall in Huniq.
  eapply (NoDup_omap_lookup (key_of cols)); eauto.
Qed.

Lemma declared_keys_are_unique_witness :
  0%nat = 0%nat
  ∧ exec (models "draft")
      (Insert "User" example_env
         (row [("email", VStr "analyst@example.org"); ("name", VStr "Another")]))
      setup_db
    = Err UniqueViolation.
Proof.
  split; [|by_evaluation].
  refine (proj1 (declared_keys_are_unique "draft" setup_db User ["email"] 0 0
            (row [("id", VInt 1); ("email", VStr "analyst@example.org");
                  ("name", VStr "A. Analyst"); ("role_id", VStr "analyst")])
            (row [("id", VInt 1); ("email", VStr "analyst@example.org");
                  ("name", VStr "A. Analyst"); ("role_id", VStr "analyst")])
            [VStr "analyst@example.org"] setup_db_reachable _ _ _ _ _ _));
    by_evaluation.
Defined.

Lemma release_ok_refused (registry : list Model) (db : Database) (M M' : Model)
    (old new x : Row) (fk : FK) (v : value) :
  M' ∈ registry → fk ∈ foreign_keys M' → fk_table fk = tablename M →
  x ∈ table db (tablename M') →
  x !! fk_col fk = Some v → old !! fk_target fk = Some v →
  new !! fk_target fk ≠ Some v →
  ¬ release_ok registry db (tablename M) old new.
Proof.
  intros HM' Hfk Ht Hx Hxv Hold Hnew Hrel.
  unfold release_ok in Hrel. rewrite Forall_forall in Hrel.
  specialize (Hrel M' HM'). rewrite Forall_forall in Hrel.
  destruct (Hrel fk Hfk) as [?|[Hsame|Hnone]]; [done|congruence|].
  rewrite Forall_forall in Hnone. destruct (Hnone x Hx); congruence.
Qed.

(** X10: what is referred to stays: no [ForeignKey] of the module declares
    an [ondelete], so the database refuses the DELETE of a row that a foreign
    key of some stored row still points at, and the UPDATE that changes the
    value pointed at: a status or a role in use, a user who created a survey,
    a survey that still has nodes, a node that still has edges.  (The session
    therefore has to remove a node's edges before the node; the node classes
    declare [cascade="all, delete"] for that.) *)
Theorem referenced_rows_stay (STATUS_0 : string) (db : Database)
    (M M' : Model) (i : nat) (old x : Row) (fk : FK) (v : value) :
  M ∈ models STATUS_0 → M' ∈ models STATUS_0 →
  table db (tablename M) !! i = Some old →
  fk ∈ foreign_keys M' → fk_table fk = tablename M →
  x ∈ table db (tablename M') →
  x !! fk_col fk = Some v → old !! fk_target fk = Some v →
  exec (models STATUS_0) (Delete (classname M) i) db = Err ForeignKeyViolation
  ∧ ∀ new, new !! fk_target fk ≠ Some v →
           ∃ e, exec (models STATUS_0) (Update (classname M) i new) db = Err e.
Proof.
  intros HM HM' Hi Hfk Ht Hx Hxv Hold. split.
  - simpl. rewrite (find_model_elem _ (models_classnames_distinct STATUS_0)) by done.
    simpl. rewrite Hi. simpl.
    rewrite require_Err; [done|].
    eapply release_ok_refused; eauto.
  - intros new Hnew.
    destruct (exec (models STATUS_0) (Update (classname M) i new) db)
      as [db'|e] eqn:Hexec; [|by eexists].
    exfalso. simpl in Hexec.
    rewrite (find_model_elem _ (models_classnames_distinct STATUS_0)) in Hexec
      by done.
    simpl in Hexec. rewrite Hi in Hexec. simpl in Hexec. inv_result.
    eapply release_ok_refused; eauto.
Qed.

Lemma referenced_rows_stay_witness :
  exec (models "draft") (Delete "Survey" 0) cross_survey_db
  = Err ForeignKeyViolation.
Proof.
  refine (proj1 (referenced_rows_stay "draft" cross_survey_db (Survey "draft")
            SurveyObservingSystem 0 example_survey stored_O
            (mkFK "survey_id" "survey" "id") (VInt 1) _ _ _ _ _ _ _ _));
    by_evaluation.
Defined.

(** ** Defaults that read the session or the reference tables *)

Lemma fill_default_Err (env : Env) (rows : list Row) (col : Column)
    (r : Row) (k : nat) (e : dberror) :
  fill_default env rows (Ok (r, k)) col = Err e → e = AttributeError_.
Proof.
  unfold fill_default. simpl.
  destruct (r !! col_name col); [done|].
  destruct (col_default col) as [[v| |]|]; simpl; try done.
  - destruct (current_user_id env); simpl; congruence.
  - by destruct (is_autoincrement col).
Qed.

Lemma foldl_fill_default_anonymous (env : Env) (rows : list Row)
    (cols : list Column) (col : Column) (r : Row) (k : nat) :
  current_user_id env = None →
  col_default col = Some Callable_current_user_id →
  NoDup (col_name <$> cols) → col ∈ cols → r !! col_name col = None →
  foldl (fill_default env rows) (Ok (r, k)) cols = Err AttributeError_.
Proof.
  intros Hanon Hdef. revert r k.
  induction cols as [|c cols IH]; intros r k Hnd Hin Hnone;
    [by apply elem_of_nil in Hin|].
  rewrite fmap_cons in Hnd. apply NoDup_cons in Hnd as [Hc Hnd].
  cbn [foldl].
  apply elem_of_cons in Hin as [<-|Hin].
  - replace (fill_default env rows (Ok (r, k)) col) with (@Err (Row * nat) AttributeError_).
    + apply foldl_fill_default_Err.
    + unfold fill_default. simpl. by rewrite Hnone, Hdef, Hanon.
  - destruct (fill_default env rows (Ok (r, k)) c) as [[r' k']|e] eqn:Hstep.
    + apply IH; [done..|].
      rewrite (fill_default_other _ _ _ _ _ _ _ _ Hstep); [done|].
      intros Heq. apply Hc. rewrite <- Heq. by apply list_elem_of_fmap_2.
    + apply fill_default_Err in Hstep as ->. apply foldl_fill_default_Err.
Qed.

(** X11: a record whose creator defaults to the logged-in user cannot be
    created from an anonymous session: unless the caller names the creator,
    the default [lambda: current_user.id] fails and the insert raises before
    the row reaches any constraint. *)
Theorem anonymous_session_cannot_create (STATUS_0 : string) (M : Model)
    (col : Column) (env : Env) (kwargs : Row) (db : Database) :
  M ∈ models STATUS_0 → col ∈ columns M →
  col_default col = Some Callable_current_user_id →
  current_user_id env = None →
  known_columns M kwargs → kwargs !! col_name col = None →
  exec (models STATUS_0) (Insert (classname M) env kwargs) db
  = Err AttributeError_.
Proof.
  intros HM Hcol Hdef Hanon Hknown Hnone. simpl.
  rewrite (find_model_elem _ (models_classnames_distinct STATUS_0)) by done.
  simpl. unfold require. rewrite decide_True by done. simpl.
  unfold apply_defaults.
  rewrite (foldl_fill_default_anonymous _ _ _ col); [done|done|done| |done|].
  - pose proof (models_column_names_distinct STATUS_0) as Hnd.
    rewrite Forall_forall in Hnd. by apply Hnd.
  - rewrite init_polymorphic_lookup, Hnone.
    case_decide as Hd; [|done].
    destruct (identity M) as [v|] eqn:Hv; [|done].
    pose proof (discriminators_are_columns STATUS_0) as Hcols.
    rewrite Forall_forall in Hcols. destruct (Hcols M HM) as [_ Hfilled].
    rewrite Forall_forall in Hfilled.
    destruct (Hfilled col Hcol) as [Hnodef _]; [|congruence].
    split; [done|]. rewrite Hv. by eexists.
Qed.

Lemma anonymous_session_cannot_create_witness :
  exec (models "draft")
    (Insert "Survey" anonymous_env (row [("title", VStr "Third")])) setup_db
  = Err AttributeError_.
Proof.
  refine (anonymous_session_cannot_create "draft" (Survey "draft")
            (column "created_by_id" Integer
               [ForeignKey "user" "id"; default_ Callable_current_user_id;
                nullable false])
            anonymous_env (row [("title", VStr "Third")]) setup_db
            _ _ _ _ _ _); by_evaluation.
Defined.

Lemma models_no_self_reference (STATUS_0 : string) :
  Forall (λ M, Forall (λ fk, fk_table fk ≠ tablename M) (foreign_keys M))
         (models STATUS_0).
Proof. by_evaluation. Qed.

(** X12: a default that names a reference row needs that row: a record
    inserted without a value for a foreign-key column with a literal default
    (a user without [role_id], a survey without [status_id]) is accepted only
    if the table referred to already holds the row the default names (the
    role "analyst", the first of [STATUSES]). *)
Theorem literal_defaults_need_seed_rows (STATUS_0 : string) (M : Model)
    (col : Column) (fk : FK) (v : value) (env : Env) (kwargs : Row)
    (db db' : Database) :
  M ∈ models STATUS_0 → col ∈ columns M →
  col_default col = Some (Scalar v) → fk ∈ col_foreign_keys col →
  kwargs !! col_name col = None →
  exec (models STATUS_0) (Insert (classname M) env kwargs) db = Ok db' →
  ∃ target, target ∈ table db (fk_table fk) ∧ target !! fk_target fk = Some v.
Proof.
  intros HM Hcol Hdef Hfk Hnone Hexec. simpl in Hexec.
  rewrite (find_model_elem _ (models_classnames_distinct STATUS_0)) in Hexec
    by done.
  simpl in Hexec. inv_result. rename a0 into r.
  destruct (apply_defaults_missing _ _ _ _ _ _ _ HM Hcol Ha0 Hnone) as [k Hr].
  unfold stored_default in Hr. rewrite decide_False in Hr.
  2:{ intros Hfilled.
      pose proof (discriminators_are_columns STATUS_0) as Hcols.
      rewrite Forall_forall in Hcols. destruct (Hcols M HM) as [_ Hall].
      rewrite Forall_forall in Hall.
      destruct (Hall col Hcol Hfilled) as [Hnodef _]. congruence. }
  unfold default_value in Hr. rewrite Hdef in Hr.
  apply validate_Ok in Ha1 as (_ & _ & Hfks).
  assert (Hfk' : fk ∈ foreign_keys M).
  { unfold foreign_keys. apply list_elem_of_bind. eauto. }
  assert (Hcolname : fk_col fk = col_name col).
  { unfold col_foreign_keys in Hfk. apply list_elem_of_omap in Hfk as (arg & _ & Harg).
    destruct arg; simplify_eq. done. }
  unfold fk_ok in Hfks. rewrite Forall_forall in Hfks.
  destruct (Hfks fk Hfk') as [Hnull|Hex]; [congruence|].
  apply Exists_exists in Hex as (target & Htarget & Heq).
  rewrite table_insert in Htarget.
  pose proof (models_no_self_reference STATUS_0) as Hself.
  rewrite Forall_forall in Hself. specialize (Hself M HM).
  rewrite Forall_forall in Hself. specialize (Hself fk Hfk').
  rewrite decide_False in Htarget by done.
  exists target. split; [done|congruence].
Qed.

Lemma literal_defaults_need_seed_rows_witness :
  (∃ target, target ∈ table (run_or_empty "draft" (take 4 setup_ops)) "role"
             ∧ target !! "id" = Some (VStr "analyst"))
  ∧ exec (models "draft")
      (Insert "User" example_env
         (row [("email", VStr "analyst@example.org"); ("name", VStr "A. Analyst")]))
      ∅
    = Err ForeignKeyViolation.
Proof.
  split; [|by_evaluation].
  refine (literal_defaults_need_seed_rows "draft" User
            (column "role_id" (String_ None)
               [ForeignKey "role" "id"; default_ (Scalar (VStr "analyst"));
                nullable false])
            (mkFK "role_id" "role" "id") (VStr "analyst") example_env
            (row [("email", VStr "analyst@example.org"); ("name", VStr "A. Analyst")])
            (run_or_empty "draft" (take 4 setup_ops))
            (run_or_empty "draft" (take 5 setup_ops))
            _ _ _ _ _ _); by_evaluation.
Defined.

(** ** Edges without endpoints *)

Lemma rating_0_100_holds (r : Row) (c : string) (z : Z) :
  r !! c = Some (VInt z) → 0 ≤ z ≤ 100 →
  eval_sql r (rating_0_100 c) ≠ Some false.
Proof.
  intros Hr Hz. simpl. rewrite Hr. simpl.
  destruct (0 <=? z) eqn:H0; [|lia].
  destruct (z <=? 100) eqn:H1; [done|lia].
Qed.

Lemma key_of_id_differs (r' edge : Row) (z : Z) :
  edge !! "id" = Some (VInt z) →
  key_of ["id"] r' ≠ key_of ["id"] edge ↔ r' !! "id" ≠ Some (VInt z).
Proof.
  intros Hid. rewrite (key_of_id _ _ Hid).
  destruct (r' !! "id") as [v|] eqn:Hv.
  - rewrite (key_of_id _ _ Hv). split; intros H ?; apply H; congruence.
  - unfold key_of. cbn [mapM]. rewrite Hv. done.
Qed.

(** X13: an edge needs no endpoints: an edge of any of the three classes
    that gives its ratings, within range, and neither source nor target
    passes every check but the one on its own identifier: it is stored, with
    both endpoints unset, when the identifier the backend hands out is not in
    use, and refused as a duplicate key when it is.  Neither the uniqueness
    of (source, target) pairs nor the endpoint foreign keys stand in the way,
    so any number of unattached edges can coexist. *)
Theorem edges_need_no_endpoints (STATUS_0 : string) (E : Model) (env : Env)
    (db : Database) (criticality performance : Z) :
  E ∈ edge_models →
  0 ≤ criticality ≤ 100 → 0 ≤ performance ≤ 100 →
  let rows := table db (tablename E) in
  let id := nextval env rows "id" in
  let edge := <["id" := VInt id]> (unattached_edge E criticality performance) in
  exec (models STATUS_0)
    (Insert (classname E) env (unattached_edge E criticality performance)) db
  = (if decide (Forall (λ r, r !! "id" ≠ Some (VInt id)) rows)
     then Ok (<[tablename E := rows ++ [edge]]> db)
     else Err UniqueViolation)
  ∧ edge !! "id" = Some (VInt id)
  ∧ Forall (λ fk, edge !! fk_col fk = None) (foreign_keys E).
Proof.
  intros HE Hc Hp rows id edge.
  assert (HM : E ∈ models STATUS_0).
  { revert HE. apply (Forall_forall (λ E, E ∈ models STATUS_0)). by_evaluation. }
  assert (Hid : edge !! "id" = Some (VInt id)) by apply lookup_insert_eq.
  split; [|split; [exact Hid|]].
  - simpl.
    rewrite (find_model_elem _ (models_classnames_distinct STATUS_0)) by done.
    simpl. fold rows.
    assert (Hdef : apply_defaults env E rows
                     (unattached_edge E criticality performance) = Ok edge).
    { subst edge id. generalize rows. intros rows'.
      repeat apply elem_of_cons in HE as [->|HE]; [..|by apply elem_of_nil in HE];
        reflexivity. }
    assert (Hknown : known_columns E (unattached_edge E criticality performance)).
    { repeat apply elem_of_cons in HE as [->|HE]; [..|by apply elem_of_nil in HE];
        by_evaluation. }
    unfold require at 1. rewrite decide_True by done. simpl.
    rewrite Hdef. simpl. unfold validate.
    assert (Hknown' : known_columns E edge).
    { subst edge. generalize id. intros n.
      repeat apply elem_of_cons in HE as [->|HE]; [..|by apply elem_of_nil in HE];
        by_evaluation. }
    assert (Htyped : well_typed E edge).
    { subst edge. generalize id. intros n.
      repeat apply elem_of_cons in HE as [->|HE]; [..|by apply elem_of_nil in HE];
        by_evaluation. }
    assert (Hnn : not_null E edge).
    { subst edge. generalize id. intros n.
      repeat apply elem_of_cons in HE as [->|HE]; [..|by apply elem_of_nil in HE];
        by_evaluation. }
    assert (Hchecks : checks_hold E edge).
    { subst edge. generalize id. intros n.
      repeat apply elem_of_cons in HE as [->|HE]; [..|by apply elem_of_nil in HE];
        unfold checks_hold; repeat constructor;
        by (eapply rating_0_100_holds; [reflexivity|done]). }
    assert (Huniq : unique_ok E rows edge
                    ↔ Forall (λ r, r !! "id" ≠ Some (VInt id)) rows).
    { unfold unique_ok.
      assert (Hkeys : ∃ c1 c2, unique_keys E = [["id"]; [c1; c2]; [c1; c2]]
                               ∧ edge !! c1 = None).
      { subst edge. generalize id. intros n.
        repeat apply elem_of_cons in HE as [->|HE]; [..|by apply elem_of_nil in HE];
          eexists _, _; split; reflexivity. }
      destruct Hkeys as (c1 & c2 & -> & Hnone).
      assert (Hpair : key_of [c1; c2] edge = None).
      { unfold key_of. simpl. by rewrite Hnone. }
      split.
      - intros [Hkey _]%Forall_cons. destruct Hkey as [Hkey|Hkey].
        + rewrite (key_of_id _ _ Hid) in Hkey. done.
        + eapply Forall_impl; [exact Hkey|]. intros r' Hr'.
          by apply (key_of_id_differs r' edge id Hid).
      - intros Hfresh.
        apply Forall_cons_2; [|apply Forall_cons_2; [|apply Forall_cons_2; [|constructor]]].
        + right. eapply Forall_impl; [exact Hfresh|]. intros r' Hr'.
          by apply (key_of_id_differs r' edge id Hid).
        + by left.
        + by left. }
    assert (Hfk : fk_ok (<[tablename E := rows ++ [edge]]> db) E edge).
    { unfold fk_ok. generalize (<[tablename E := rows ++ [edge]]> db). intros db'.
      subst edge. generalize id. intros n.
      repeat apply elem_of_cons in HE as [->|HE]; [..|by apply elem_of_nil in HE];
        repeat constructor; left; reflexivity. }
    unfold require.
    rewrite (decide_True (P := known_columns E edge)) by done.
    rewrite (decide_True (P := well_typed E edge)) by done.
    rewrite (decide_True (P := not_null E edge)) by done.
    rewrite (decide_True (P := checks_hold E edge)) by done.
    rewrite (decide_True (P := fk_ok _ E edge)) by done.
    destruct (decide (Forall (λ r, r !! "id" ≠ Some (VInt id)) rows)) as [Hf|Hf].
    + rewrite (decide_True (P := unique_ok E rows edge)) by by apply Huniq.
      reflexivity.
    + rewrite (decide_False (P := unique_ok E rows edge)); [done|].
      by rewrite Huniq.
  - subst edge. generalize id. intros n.
    repeat apply elem_of_cons in HE as [->|HE]; [..|by apply elem_of_nil in HE];
      repeat constructor.
Qed.

Lemma edges_need_no_endpoints_witness :
  is_ok (run (models "draft")
           [Insert "SurveyObservingSystemDataProduct" example_env
              (unattached_edge SurveyObservingSystemDataProduct 50 80);
            Insert "SurveyObservingSystemDataProduct" example_env
              (unattached_edge SurveyObservingSystemDataProduct 50 80)]
           setup_db) = true
  ∧ exec (models "draft")
      (Insert "SurveyObservingSystemDataProduct" example_env
         (unattached_edge SurveyObservingSystemDataProduct 50 80))
      cross_survey_db
    = Ok (<["survey_observing_system_data_product" :=
              [stored_O_D;
               <["id" := VInt 2]>
                 (unattached_edge SurveyObservingSystemDataProduct 50 80)]]>
            cross_survey_db)
  ∧ exec (models "draft")
      (Insert "SurveyObservingSystemDataProduct"
         {| current_user_id := Some 1; datetime_now := λ _, 0;
            nextval := λ _ _, 1 |}
         (unattached_edge SurveyObservingSystemDataProduct 50 80))
      cross_survey_db
    = Err UniqueViolation.
Proof.
  split; [by_evaluation|]. split.
  - etrans;
      [exact (proj1 (edges_need_no_endpoints "draft"
                SurveyObservingSystemDataProduct example_env cross_survey_db 50 80
                ltac:(by_evaluation) ltac:(lia) ltac:(lia)))|].
    by_evaluation.
  - etrans;
      [exact (proj1 (edges_need_no_endpoints "draft"
                SurveyObservingSystemDataProduct
                {| current_user_id := Some 1; datetime_now := λ _, 0;
                   nextval := λ _ _, 1 |}
                cross_survey_db 50 80
                ltac:(by_evaluation) ltac:(lia) ltac:(lia)))|].
    by_evaluation.
Defined.

(** ** Deleting through the session *)

Lemma each_failed {A} (f : A → Database → option (result Database))
    (l : list A) (o : option (result Database)) :
  (∀ db, o ≠ Some (Ok db)) →
  foldl (λ acc a, match acc with Some (Ok db) => f a db | _ => acc end) o l = o.
Proof.
  intros Ho. induction l as [|a l IH]; [done|]. simpl.
  destruct o as [[db|e]|]; [by destruct (Ho db)|exact IH|exact IH].
Qed.

Lemma each_cons {A} (f : A → Database → option (result Database))
    (a : A) (l : list A) (db : Database) :
  each f (a :: l) db
  = match f a db with Some (Ok db1) => each f l db1 | o => o end.
Proof.
  unfold each. simpl. destruct (f a db) as [[db1|e]|]; [done| |];
    by apply each_failed.
Qed.

Lemma NoDup_omap_total {A K} (key : A → option K) (l : list A) :
  Forall (λ x, is_Some (key x)) l → NoDup (omap key l) → NoDup l.
Proof.
  induction l as [|a l IH]; intros Hk Hnd; [constructor|].
  apply Forall_cons in Hk as [[k Hk] Hl]. simpl in Hnd. rewrite Hk in Hnd.
  apply NoDup_cons in Hnd as [Hnotin Hnd].
  apply NoDup_cons. split; [|by apply IH].
  intros Hin. apply Hnotin. apply list_elem_of_omap. eauto.
Qed.

Lemma elem_of_delete_NoDup {A} (l : list A) (i : nat) (x y : A) :
  NoDup l → l !! i = Some y → x ∈ delete i l ↔ x ∈ l ∧ x ≠ y.
Proof.
  intros Hnd Hi. rewrite delete_take_drop.
  pose proof (take_drop_middle l i y Hi) as Hl.
  rewrite <- Hl in Hnd.
  apply NoDup_app in Hnd as (_ & Hdisj & Hnd2).
  apply NoDup_cons in Hnd2 as [Hy _].
  assert (x ∈ l ↔ x ∈ take i l ∨ x = y ∨ x ∈ drop (S i) l) as ->.
  { rewrite <- Hl at 1. by rewrite elem_of_app, elem_of_cons. }
  rewrite elem_of_app. split.
  - intros [Hx|Hx]; (split; [tauto|]); intros ->.
    + apply (Hdisj y Hx). by left.
    + done.
  - intros [[Hx|[->|Hx]] Hne]; tauto.
Qed.

Lemma session_delete_S (registry : list Model) (depth : nat) (M : Model)
    (obj : Row) (db : Database) :
  session_delete registry (S depth) M obj db
  = match each (unit_of_work registry (session_delete registry depth) M obj)
            (relationships M) db with
    | Some (Ok db') => Some (delete_row registry M obj db')
    | other => other
    end.
Proof. reflexivity. Qed.

Section SessionFacts.

Variable STATUS_0 : string.

Lemma primary_keys_declared :
  Forall (λ M, primary_key_columns M ∈ unique_keys M
               ∧ Forall (λ col, is_primary_key col = true → is_nullable col = false)
                        (columns M))
         (models STATUS_0).
Proof. by_evaluation. Qed.

Lemma rows_have_keys (db : Database) (M : Model) (r : Row) :
  consistent (models STATUS_0) db → M ∈ models STATUS_0 →
  r ∈ table db (tablename M) →
  is_Some (key_of (primary_key_columns M) r).
Proof.
  intros Hc HM Hr. destruct (Hc M HM) as (Hrows & _ & _).
  rewrite Forall_forall in Hrows. destruct (Hrows r Hr) as (_ & _ & Hnn & _).
  pose proof primary_keys_declared as Hpk. rewrite Forall_forall in Hpk.
  destruct (Hpk M HM) as [_ Hcols].
  unfold key_of, primary_key_columns. apply mapM_is_Some.
  apply Forall_fmap, Forall_forall. intros col [Hprim Hcol]%list_elem_of_filter.
  unfold not_null in Hnn. rewrite Forall_forall in Hnn, Hcols.
  destruct (Hnn col Hcol) as [Hnull|Hsome]; [|done].
  rewrite (Hcols col Hcol Hprim) in Hnull. done.
Qed.

Lemma pk_injective (db : Database) (M : Model) (a b : Row) :
  consistent (models STATUS_0) db → M ∈ models STATUS_0 →
  a ∈ table db (tablename M) → b ∈ table db (tablename M) →
  key_of (primary_key_columns M) a = key_of (primary_key_columns M) b → a = b.
Proof.
  intros Hc HM Ha Hb Hkey.
  destruct (rows_have_keys db M a Hc HM Ha) as [k Hk].
  pose proof primary_keys_declared as Hpk. rewrite Forall_forall in Hpk.
  destruct (Hpk M HM) as [Hin _].
  destruct (Hc M HM) as (_ & Huniq & _). rewrite Forall_forall in Huniq.
  eapply same_key_same_row; [by apply Huniq|done..|congruence].
Qed.

Lemma rows_NoDup (db : Database) (M : Model) :
  consistent (models STATUS_0) db → M ∈ models STATUS_0 →
  NoDup (table db (tablename M)).
Proof.
  intros Hc HM.
  pose proof primary_keys_declared as Hpk. rewrite Forall_forall in Hpk.
  destruct (Hpk M HM) as [Hin _].
  destruct (Hc M HM) as (_ & Huniq & _). rewrite Forall_forall in Huniq.
  eapply NoDup_omap_total; [|by apply Huniq].
  apply Forall_forall. intros r Hr. by eapply rows_have_keys.
Qed.

Lemma pk_index_found (db : Database) (M : Model) (obj : Row) :
  consistent (models STATUS_0) db → M ∈ models STATUS_0 →
  obj ∈ table db (tablename M) →
  ∃ i, pk_index M (table db (tablename M)) obj = Some i
       ∧ table db (tablename M) !! i = Some obj.
Proof.
  intros Hc HM Hobj. unfold pk_index.
  destruct (list_find_elem_of
              (λ r, key_of (primary_key_columns M) r
                    = key_of (primary_key_columns M) obj)
              (table db (tablename M)) obj Hobj eq_refl) as [[i x] Hfind].
  rewrite Hfind. exists i. split; [done|].
  apply list_find_Some in Hfind as (Hi & Hkey & _).
  rewrite Hi. f_equal.
  eapply pk_injective; [done..|by eapply list_elem_of_lookup_2|done|done].
Qed.

Lemma edge_is_model (E : Model) : E ∈ edge_models → E ∈ models STATUS_0.
Proof.
  apply (Forall_forall (λ E, E ∈ models STATUS_0)). by_evaluation.
Qed.

Lemma node_is_model (N : Model) : N ∈ SurveyNode → N ∈ models STATUS_0.
Proof.
  apply (Forall_forall (λ N, N ∈ models STATUS_0)). by_evaluation.
Qed.

Lemma edges_unreferenced :
  Forall (λ M, Forall (λ fk, fk_table fk ∉ tablename <$> edge_models)
                      (foreign_keys M))
         (models STATUS_0).
Proof. by_evaluation. Qed.

Lemma edge_relationships_hold_the_key :
  Forall (λ E, Forall (λ nr, one_to_many (models STATUS_0) E nr.2 = None)
                      (relationships E))
         edge_models.
Proof. by_evaluation. Qed.

Lemma each_unit_of_work_none
    (del : Model → Row → Database → option (result Database))
    (M : Model) (obj : Row) (rels : list (string * Relationship)) (db : Database) :
  Forall (λ nr, one_to_many (models STATUS_0) M nr.2 = None) rels →
  each (unit_of_work (models STATUS_0) del M obj) rels db = Some (Ok db).
Proof.
  induction 1 as [|nr rels Hnr _ IH]; [done|].
  rewrite each_cons. unfold unit_of_work at 1. by rewrite Hnr.
Qed.

Lemma delete_row_unreferenced (db : Database) (M : Model) (obj : Row) :
  reachable (models STATUS_0) db → M ∈ models STATUS_0 →
  obj ∈ table db (tablename M) →
  release_ok (models STATUS_0) db (tablename M) obj ∅ →
  ∃ i, table db (tablename M) !! i = Some obj
       ∧ delete_row (models STATUS_0) M obj db
         = Ok (<[tablename M := delete i (table db (tablename M))]> db)
       ∧ reachable (models STATUS_0)
           (<[tablename M := delete i (table db (tablename M))]> db).
Proof.
  intros Hr HM Hobj Hrel.
  destruct (pk_index_found db M obj (models_consistent _ _ Hr) HM Hobj)
    as (i & Hidx & Hi).
  exists i. split; [done|].
  assert (Hexec : exec (models STATUS_0) (Delete (classname M) i) db
                  = Ok (<[tablename M := delete i (table db (tablename M))]> db)).
  { simpl.
    rewrite (find_model_elem _ (models_classnames_distinct STATUS_0)) by done.
    simpl. rewrite Hi. simpl. unfold require. by rewrite decide_True. }
  split; [|by eapply reachable_step].
  unfold delete_row. rewrite Hidx. exact Hexec.
Qed.

Lemma session_delete_edge (db : Database) (E : Model) (c : Row) (depth : nat) :
  reachable (models STATUS_0) db → E ∈ edge_models →
  c ∈ table db (tablename E) →
  ∃ i, table db (tablename E) !! i = Some c
       ∧ session_delete (models STATUS_0) (S depth) E c db
         = Some (Ok (<[tablename E := delete i (table db (tablename E))]> db))
       ∧ reachable (models STATUS_0)
           (<[tablename E := delete i (table db (tablename E))]> db).
Proof.
  intros Hr HE Hc.
  pose proof (edge_is_model E HE) as HM.
  assert (Hrel : release_ok (models STATUS_0) db (tablename E) c ∅).
  { unfold release_ok. pose proof edges_unreferenced as Hun.
    rewrite Forall_forall in Hun. apply Forall_forall. intros M' HM'.
    specialize (Hun M' HM'). rewrite Forall_forall in Hun.
    apply Forall_forall. intros fk Hfk. left. intros Heq.
    apply (Hun fk Hfk). rewrite Heq. by apply list_elem_of_fmap_2. }
  destruct (delete_row_unreferenced db E c Hr HM Hc Hrel) as (i & Hi & Hdel & Hr').
  exists i. split; [done|].
  rewrite session_delete_S, each_unit_of_work_none.
  2:{ pose proof edge_relationships_hold_the_key as Hk.
      rewrite Forall_forall in Hk. by apply Hk. }
  by rewrite Hdel.
Qed.

Lemma cascade_deletes (E : Model) (depth : nat) (children : list Row)
    (db : Database) :
  reachable (models STATUS_0) db → E ∈ edge_models → NoDup children →
  (∀ c, c ∈ children → c ∈ table db (tablename E)) →
  ∃ db', each (session_delete (models STATUS_0) (S depth) E) children db
         = Some (Ok db')
         ∧ reachable (models STATUS_0) db'
         ∧ (∀ x, x ∈ table db' (tablename E)
                 ↔ x ∈ table db (tablename E) ∧ x ∉ children)
         ∧ (∀ t, t ≠ tablename E → table db' t = table db t).
Proof.
  intros Hr HE. revert db Hr.
  induction children as [|c cs IH]; intros db Hr Hnd Hin.
  - exists db. split_and!; [done|done| |done].
    intros x. rewrite elem_of_nil. tauto.
  - apply NoDup_cons in Hnd as [Hc Hnd].
    destruct (session_delete_edge db E c depth Hr HE) as (i & Hi & Hdel & Hr1);
      [apply Hin; by left|].
    pose proof (rows_NoDup db E (models_consistent _ _ Hr) (edge_is_model E HE))
      as Hrows.
    destruct (IH _ Hr1 Hnd) as (db' & Heach & Hr' & Hmem & Hother).
    { intros c' Hc'. rewrite table_insert, decide_True by done.
      apply (elem_of_delete_NoDup _ _ _ _ Hrows Hi). split.
      - apply Hin. by right.
      - intros ->. done. }
    exists db'. rewrite each_cons, Hdel. split_and!; [done|done| |].
    + intros x. rewrite Hmem, table_insert, decide_True by done.
      rewrite (elem_of_delete_NoDup _ _ _ _ Hrows Hi), elem_of_cons. tauto.
    + intros t Ht. rewrite Hother by done.
      rewrite table_insert. by rewrite decide_False.
Qed.

Lemma one_to_many_spec (M T : Model) (rel : Relationship) (fk : FK) :
  one_to_many (models STATUS_0) M rel = Some (T, fk) →
  T ∈ models STATUS_0 ∧ fk ∈ foreign_keys T ∧ fk_table fk = tablename M.
Proof.
  unfold one_to_many. intros H.
  destruct (find_model _ _) as [T'|] eqn:HT; [|done]. simpl in H.
  destruct (head (filter _ (foreign_keys M))); [done|].
  destruct (head (filter _ (foreign_keys T'))) as [fk'|] eqn:Hfk; [|done].
  simpl in H. simplify_eq.
  apply find_model_Some in HT as [HT _].
  apply head_Some_elem_of, list_elem_of_filter in Hfk. tauto.
Qed.

Lemma node_relationships :
  Forall (λ N, Forall (λ nr,
      one_to_many (models STATUS_0) N nr.2 = None
      ∨ (cascades_delete nr.2 = true
         ∧ Exists (λ E, Exists (λ fk, one_to_many (models STATUS_0) N nr.2
                                       = Some (E, fk)) (foreign_keys E))
                  edge_models))
    (relationships N)) SurveyNode.
Proof. by_evaluation. Qed.

Lemma node_collections_cover_edges :
  Forall (λ N, Forall (λ E, Forall (λ fk,
      fk_table fk = tablename N →
      Exists (λ nr, one_to_many (models STATUS_0) N nr.2 = Some (E, fk))
             (relationships N))
    (foreign_keys E)) edge_models) SurveyNode.
Proof. by_evaluation. Qed.

Lemma node_tables_are_not_edge_tables :
  Forall (λ N, tablename N ∉ tablename <$> edge_models) SurveyNode.
Proof. by_evaluation. Qed.

Lemma not_edge_table (M : Model) :
  M ∈ models STATUS_0 → M ∉ edge_models → tablename M ∉ tablename <$> edge_models.
Proof.
  intros HM Hne (E & Heq & HE)%list_elem_of_fmap.
  apply Hne. replace M with E; [done|].
  symmetry. eapply same_table; [apply models_tables_distinct|done| |done].
  by apply edge_is_model.
Qed.

Lemma node_cascades (N : Model) (obj : Row) (depth : nat)
    (rels : list (string * Relationship)) (db : Database) :
  reachable (models STATUS_0) db →
  Forall (λ nr,
      one_to_many (models STATUS_0) N nr.2 = None
      ∨ (cascades_delete nr.2 = true
         ∧ Exists (λ E, Exists (λ fk, one_to_many (models STATUS_0) N nr.2
                                       = Some (E, fk)) (foreign_keys E))
                  edge_models)) rels →
  ∃ db', each (unit_of_work (models STATUS_0)
                 (session_delete (models STATUS_0) (S depth)) N obj) rels db
         = Some (Ok db')
         ∧ reachable (models STATUS_0) db'
         ∧ (∀ E x, E ∈ edge_models →
              x ∈ table db' (tablename E)
              ↔ x ∈ table db (tablename E)
                ∧ ∀ nr fk, nr ∈ rels →
                    one_to_many (models STATUS_0) N nr.2 = Some (E, fk) →
                    ¬ (is_Some (obj !! fk_target fk)
                       ∧ x !! fk_col fk = obj !! fk_target fk))
         ∧ (∀ t, t ∉ tablename <$> edge_models → table db' t = table db t).
Proof.
  intros Hr Hrels. revert db Hr.
  induction Hrels as [|nr rels Hnr _ IH]; intros db Hr.
  - exists db. split_and!; [done|done| |done].
    intros E x _. split; [|tauto]. intros Hx. split; [done|].
    intros nr fk Hin. by apply elem_of_nil in Hin.
  - rewrite each_cons. unfold unit_of_work at 1.
    destruct Hnr as [Hnone|[Hcascade Hsome]].
    + rewrite Hnone. destruct (IH db Hr) as (db' & Heach & Hr' & Hmem & Hother).
      exists db'. split_and!; [done|done| |done].
      intros E x HE. rewrite (Hmem E x HE). split; intros [Hx Hno]; (split; [done|]).
      * intros nr' fk [->|Hin]%elem_of_cons; [congruence|by apply Hno].
      * intros nr' fk Hin. apply Hno. by right.
    + apply Exists_exists in Hsome as (E0 & HE0 & Hfk0).
      apply Exists_exists in Hfk0 as (fk0 & _ & Hotm).
      rewrite Hotm, Hcascade.
      pose proof (rows_NoDup db E0 (models_consistent _ _ Hr) (edge_is_model E0 HE0))
        as Hrows.
      destruct (cascade_deletes E0 depth (members db E0 fk0 obj) db Hr HE0)
        as (db1 & Hdel & Hr1 & Hmem1 & Hother1).
      { by apply NoDup_filter. }
      { intros c Hc. apply list_elem_of_filter in Hc. tauto. }
      rewrite Hdel.
      destruct (IH db1 Hr1) as (db' & Heach & Hr' & Hmem & Hother).
      exists db'. split_and!; [done|done| |].
      * intros E x HE. rewrite (Hmem E x HE).
        destruct (decide (E = E0)) as [->|Hne].
        -- rewrite Hmem1. unfold members. rewrite list_elem_of_filter.
           split.
           ++ intros [[Hx Hnot] Hno]. split; [done|].
              intros nr' fk [->|Hin]%elem_of_cons; [|by apply Hno].
              intros Hfk. rewrite Hotm in Hfk. simplify_eq. tauto.
           ++ intros [Hx Hno]. split; [split; [done|]|].
              ** intros [HP _]. eapply (Hno nr fk0); [by left|done|done].
              ** intros nr' fk Hin. apply Hno. by right.
        -- assert (tablename E ≠ tablename E0) as Ht.
           { intros Heq. apply Hne.
             eapply same_table; [apply models_tables_distinct| | |done];
               by apply edge_is_model. }
           rewrite (Hother1 _ Ht). split; intros [Hx Hno]; (split; [done|]).
           ++ intros nr' fk [->|Hin]%elem_of_cons; [|by apply Hno].
              intros Hfk. rewrite Hotm in Hfk. simplify_eq.
           ++ intros nr' fk Hin. apply Hno. by right.
      * intros t Ht. rewrite (Hother t Ht). apply Hother1.
        intros ->. apply Ht. by apply list_elem_of_fmap_2.
Qed.

End SessionFacts.

(** X15: deleting a node through the session takes its edges with it: for
    an object of one of the four node classes that nothing but edges refers
    to, [session.delete] succeeds; afterwards the object is gone, every edge
    that had it at one of its ends is gone with it, through the
    [cascade="all, delete"] of [input_relationships] and
    [output_relationships], every other row is still there, and the database
    is again in a state that accepted statements lead to. *)
Theorem deleting_a_node_deletes_its_edges (STATUS_0 : string) (db : Database)
    (N : Model) (obj : Row) (depth : nat) :
  reachable (models STATUS_0) db →
  N ∈ SurveyNode → obj ∈ table db (tablename N) →
  referred_only_by_edges (models STATUS_0) db N obj →
  ∃ db',
    session_delete (models STATUS_0) (S (S depth)) N obj db = Some (Ok db')
    ∧ reachable (models STATUS_0) db'
    ∧ (∀ x, x ∈ table db' (tablename N) ↔ x ∈ table db (tablename N) ∧ x ≠ obj)
    ∧ (∀ E e, E ∈ edge_models →
         e ∈ table db' (tablename E)
         ↔ e ∈ table db (tablename E) ∧ ¬ attached E N obj e)
    ∧ (∀ M, M ∈ models STATUS_0 → M ≠ N → M ∉ edge_models →
         table db' (tablename M) = table db (tablename M)).
Proof.
  intros Hr HN Hobj Hext.
  pose proof (node_is_model STATUS_0 N HN) as HM.
  pose proof (node_relationships STATUS_0) as Hrels.
  rewrite Forall_forall in Hrels. specialize (Hrels N HN).
  pose proof (node_tables_are_not_edge_tables) as HNt.
  rewrite Forall_forall in HNt. specialize (HNt N HN).
  pose proof (node_collections_cover_edges STATUS_0) as Hcover.
  rewrite Forall_forall in Hcover. specialize (Hcover N HN).
  rewrite Forall_forall in Hcover.
  destruct (node_cascades STATUS_0 N obj depth (relationships N) db Hr Hrels)
    as (db1 & Heach & Hr1 & Hedges & Hother).
  assert (Hattached : ∀ E e, E ∈ edge_models →
            (∀ nr fk, nr ∈ relationships N →
               one_to_many (models STATUS_0) N nr.2 = Some (E, fk) →
               ¬ (is_Some (obj !! fk_target fk)
                  ∧ e !! fk_col fk = obj !! fk_target fk))
            ↔ ¬ attached E N obj e).
  { intros E e HE. unfold attached. rewrite Exists_exists. split.
    - intros Hno (fk & Hfk & Ht & HP).
      specialize (Hcover E HE). rewrite Forall_forall in Hcover.
      destruct (proj1 (Exists_exists _ _) (Hcover fk Hfk Ht)) as (nr & Hnr & Hotm).
      by apply (Hno nr fk).
    - intros Hno nr fk Hnr Hotm HP.
      apply one_to_many_spec in Hotm as (_ & Hfk & Ht). apply Hno. eauto. }
  assert (Hobj1 : obj ∈ table db1 (tablename N)) by by rewrite Hother.
  assert (Hrel : release_ok (models STATUS_0) db1 (tablename N) obj ∅).
  { unfold release_ok. apply Forall_forall. intros M' HM'.
    apply Forall_forall. intros fk Hfk.
    destruct (decide (fk_table fk = tablename N)) as [Ht|Ht]; [|by left].
    right; right. apply Forall_forall. intros x Hx.
    assert (Hno : ¬ (is_Some (obj !! fk_target fk)
                     ∧ x !! fk_col fk = obj !! fk_target fk)).
    { destruct (decide (M' ∈ edge_models)) as [HE|HE].
      - apply Hedges in Hx as [_ Hno]; [|done].
        specialize (Hcover M' HE). rewrite Forall_forall in Hcover.
        destruct (proj1 (Exists_exists _ _) (Hcover fk Hfk Ht)) as (nr & Hnr & Hotm).
        by apply (Hno nr fk).
      - rewrite Hother in Hx by by apply (not_edge_table STATUS_0).
        unfold referred_only_by_edges in Hext. rewrite Forall_forall in Hext.
        destruct (Hext M' HM') as [?|Hfks]; [done|].
        rewrite Forall_forall in Hfks.
        destruct (Hfks fk Hfk) as [?|Hrows]; [done|].
        rewrite Forall_forall in Hrows. intros [_ Heq].
        by apply (Hrows x Hx). }
    destruct (x !! fk_col fk) as [v|] eqn:Hv; [right|by left].
    intros Heq. apply Hno. rewrite <- Heq. eauto. }
  destruct (delete_row_unreferenced STATUS_0 db1 N obj Hr1 HM Hobj1 Hrel)
    as (i & Hi & Hdel & Hr').
  eexists. rewrite session_delete_S, Heach, Hdel.
  split_and!; [done|done| | |].
  - intros x. rewrite table_insert, decide_True by done.
    rewrite (elem_of_delete_NoDup _ _ _ _
               (rows_NoDup STATUS_0 db1 N (models_consistent _ _ Hr1) HM) Hi).
    by rewrite Hother.
  - intros E e HE. rewrite table_insert, decide_False.
    + by rewrite (Hedges E e HE), (Hattached E e HE).
    + intros Heq. apply HNt. rewrite Heq. by apply list_elem_of_fmap_2.
  - intros M HM' Hne HnE. rewrite table_insert, decide_False.
    + apply Hother. by apply (not_edge_table STATUS_0).
    + intros Heq. apply Hne. symmetry.
      by eapply same_table; [apply models_tables_distinct|..].
Qed.

Lemma deleting_a_node_deletes_its_edges_witness :
  ∃ db',
    session_delete (models "draft") 2 SurveyDataProduct stored_D cross_survey_db
    = Some (Ok db')
    ∧ reachable (models "draft") db'
    ∧ (∀ x, x ∈ table db' (tablename SurveyDataProduct)
            ↔ x ∈ table cross_survey_db (tablename SurveyDataProduct)
              ∧ x ≠ stored_D)
    ∧ (∀ E e, E ∈ edge_models →
         e ∈ table db' (tablename E)
         ↔ e ∈ table cross_survey_db (tablename E)
           ∧ ¬ attached E SurveyDataProduct stored_D e)
    ∧ (∀ M, M ∈ models "draft" → M ≠ SurveyDataProduct → M ∉ edge_models →
         table db' (tablename M) = table cross_survey_db (tablename M)).
Proof.
  refine (deleting_a_node_deletes_its_edges "draft" cross_survey_db
            SurveyDataProduct stored_D 0 cross_survey_db_reachable _ _ _);
    by_evaluation.
Defined.

Lemma nullify_refused (STATUS_0 : string) (T : Model) (fk : FK) (child : Row)
    (db : Database) :
  T ∈ models STATUS_0 →
  Exists (λ col, col_name col = fk_col fk ∧ is_nullable col = false) (columns T) →
  ∃ e, nullify (models STATUS_0) T fk child db = Err e.
Proof.
  intros HT (col & Hcol & Hname & Hnn)%Exists_exists. unfold nullify.
  destruct (pk_index T (table db (tablename T)) child) as [i|]; simpl;
    [|by eexists].
  destruct (exec (models STATUS_0)
              (Update (classname T) i (delete (fk_col fk) child)) db)
    as [db'|e] eqn:Hexec; [|by eexists].
  exfalso. simpl in Hexec.
  rewrite (find_model_elem _ (models_classnames_distinct STATUS_0)) in Hexec
    by done.
  simpl in Hexec. inv_result.
  apply validate_Ok in Ha0 as (Hok & _ & _).
  destruct (row_ok_column T col _ Hok Hcol) as [Hty _].
  rewrite Hname, lookup_delete_eq in Hty. congruence.
Qed.

Lemma unit_of_work_bound (STATUS_0 : string)
    (del : Model → Row → Database → option (result Database))
    (M : Model) (obj : Row) (nr : string * Relationship) (db : Database) :
  keeps_members (models STATUS_0) M nr.2 = true →
  (unit_of_work (models STATUS_0) del M obj nr db = Some (Ok db)
   ∨ ∃ e, unit_of_work (models STATUS_0) del M obj nr db = Some (Err e))
  ∧ ∀ T fk child,
      one_to_many (models STATUS_0) M nr.2 = Some (T, fk) →
      child ∈ members db T fk obj →
      ∃ e, unit_of_work (models STATUS_0) del M obj nr db = Some (Err e).
Proof.
  unfold keeps_members, unit_of_work.
  destruct (one_to_many (models STATUS_0) M nr.2) as [[T fk]|] eqn:Hotm;
    [|by split; [left|]].
  apply one_to_many_spec in Hotm as (HT & _ & _).
  intros [Hcascade Hcol%bool_decide_unpack]%Is_true_true%andb_prop_elim.
  apply negb_prop_elim, Is_true_false in Hcascade. rewrite Hcascade.
  destruct (members db T fk obj) as [|c cs] eqn:Hmembers.
  - split; [by left|]. intros T' fk' child [= <- <-]. rewrite Hmembers.
    by intros ?%elem_of_nil.
  - rewrite each_cons.
    destruct (nullify_refused STATUS_0 T fk c db HT Hcol) as [e ->].
    split; [right|intros]; by eexists.
Qed.

Lemma each_bound {A} (f : A → Database → option (result Database))
    (l : list A) (db : Database) :
  Forall (λ a, f a db = Some (Ok db) ∨ ∃ e, f a db = Some (Err e)) l →
  Exists (λ a, ∃ e, f a db = Some (Err e)) l →
  ∃ e, each f l db = Some (Err e).
Proof.
  induction 1 as [|a l Ha _ IH]; intros Hex; [by apply Exists_nil in Hex|].
  rewrite each_cons. destruct Ha as [Hok|[e He]].
  - rewrite Hok. apply Exists_cons in Hex as [[e He]|Hex]; [congruence|by apply IH].
  - rewrite He. by eexists.
Qed.

(** X16: an owner cannot be deleted while it has members: where a
    collection has no [delete] cascade and the members' foreign key is
    [NOT NULL], the session can neither delete the members with their owner
    nor detach them, and [session.delete] fails.  This is so for a user who
    created surveys, a survey that has nodes, and a societal benefit area or
    sub-area that has sub-areas or key objectives. *)
Theorem owners_with_members_cannot_be_deleted (STATUS_0 : string)
    (db : Database) (M T : Model) (obj child : Row) (name : string)
    (rel : Relationship) (fk : FK) (depth : nat) :
  Forall (λ nr, keeps_members (models STATUS_0) M nr.2 = true) (relationships M) →
  (name, rel) ∈ relationships M →
  one_to_many (models STATUS_0) M rel = Some (T, fk) →
  child ∈ members db T fk obj →
  (∃ e, session_delete (models STATUS_0) (S depth) M obj db = Some (Err e))
  ∧ Forall (λ M, Forall (λ nr, keeps_members (models STATUS_0) M nr.2 = true)
                        (relationships M))
           [User; Survey STATUS_0; SocietalBenefitArea; SocietalBenefitSubArea].
Proof.
  intros Hkeeps Hrel Hotm Hchild. split; [|by_evaluation].
  rewrite session_delete_S.
  destruct (each_bound
              (unit_of_work (models STATUS_0)
                 (session_delete (models STATUS_0) depth) M obj)
              (relationships M) db) as [e ->]; [| |by eexists].
  - eapply Forall_impl; [exact Hkeeps|]. intros nr Hnr.
    by apply unit_of_work_bound.
  - apply Exists_exists. exists (name, rel). split; [done|].
    rewrite Forall_forall in Hkeeps.
    eapply (unit_of_work_bound STATUS_0 _ M obj (name, rel) db
              (Hkeeps (name, rel) Hrel)); done.
Qed.

Lemma owners_with_members_cannot_be_deleted_witness :
  ∃ e, session_delete (models "draft") 1 (Survey "draft") example_survey
         cross_survey_db
       = Some (Err e).
Proof.
  refine (proj1 (owners_with_members_cannot_be_deleted "draft" cross_survey_db
            (Survey "draft") SurveyObservingSystem example_survey stored_O
            "observing_systems"
            (relationship "SurveyObservingSystem" (Some "survey") None)
            (mkFK "survey_id" "survey" "id") 0 _ _ _ _)); by_evaluation.
Defined.
